(** * gbif-downloader: the filter engine and the year-bucketed fetch

    A shallow embedding of [gbif_downloader/utils.py], [gbif_downloader/api.py]
    and [gbif_downloader/filters.py], of the download loop of
    [gbif_downloader/cli.py] and of the features of
    [gbif_downloader/exporters/geojson.py], and the properties of the
    configuration validation, the ordered filter chain, taxon resolution, the
    paginated year-by-year download and what follows it downstream.

    Conventions of the embedding:
    - Python [int] is [Z]; [x | None] is [option x]. A [str] is a [string]
      of code points below 256 (Latin-1), one character for each code point:
      [lower] and [strip] are those of Python on these strings, and so is
      [upper] on every code point whose capital is again one code point below
      256 (all but 181, 223 and 255, which it leaves as they are).
    - A Python [float] is either a finite rational, an infinity or NaN
      ([pyfloat]); comparison of a float with an [int] is exact in Python, so
      it is comparison of rationals here.
    - [set[int]] is [gset Z], a [dict] with string keys is [gmap string Z].
    - A function that may raise returns a [result]; a function that mutates
      [self] returns the new object next to its value.
    - The network is an oracle [session_get], indexed by the number of
      requests made before; log lines, requests, yielded records and progress
      callbacks are recorded, in order, in a trace of events. *)

From Stdlib Require Import ZArith QArith String Ascii List Bool Lia.
From stdpp Require Import gmap strings list pretty.
Import ListNotations.

Local Open Scope string_scope.
Local Open Scope Z_scope.

(** ** Python primitives *)

Module Py.

(** Truthiness of the values the code tests with a bare [if]. *)
Definition truthy_str (s : string) : bool :=
  match s with EmptyString => false | _ => true end.

Definition truthy_opt_str (o : option string) : bool :=
  match o with Some s => truthy_str s | None => false end.

Definition truthy_int (z : Z) : bool := negb (z =? 0).

Definition truthy_opt_int (o : option Z) : bool :=
  match o with Some z => truthy_int z | None => false end.

Definition truthy_list {A} (l : list A) : bool :=
  match l with [] => false | _ => true end.

(** [o or ''] *)
Definition or_empty (o : option string) : string :=
  match o with
  | Some s => if truthy_str s then s else EmptyString
  | None => EmptyString
  end.

(** [c.lower()]: the capital letters, A to Z and 192 to 222 without the
    multiplication sign 215, are 32 below their small letters. *)
Definition lower_ascii (c : ascii) : ascii :=
  let n := nat_of_ascii c in
  if orb (andb (Nat.leb 65 n) (Nat.leb n 90))
         (andb (andb (Nat.leb 192 n) (Nat.leb n 222)) (negb (Nat.eqb n 215)))
  then ascii_of_nat (n + 32) else c.

(** [c.upper()]: the small letters, a to z and 224 to 254 without the
    division sign 247, are 32 above their capitals. *)
Definition upper_ascii (c : ascii) : ascii :=
  let n := nat_of_ascii c in
  if orb (andb (Nat.leb 97 n) (Nat.leb n 122))
         (andb (andb (Nat.leb 224 n) (Nat.leb n 254)) (negb (Nat.eqb n 247)))
  then ascii_of_nat (n - 32) else c.

Fixpoint map_str (f : ascii -> ascii) (s : string) : string :=
  match s with
  | EmptyString => EmptyString
  | String c s' => String (f c) (map_str f s')
  end.

Definition lower : string -> string := map_str lower_ascii.
Definition upper : string -> string := map_str upper_ascii.

(** Whitespace removed by [str.strip()]: space, tab, newline, vertical tab,
    form feed, carriage return, the separators 28 to 31, the next-line
    control 133 and the no-break space 160. *)
Definition is_ws (c : ascii) : bool :=
  let n := nat_of_ascii c in
  orb (Nat.eqb n 32)
      (orb (andb (Nat.leb 9 n) (Nat.leb n 13))
           (orb (andb (Nat.leb 28 n) (Nat.leb n 31))
                (orb (Nat.eqb n 133) (Nat.eqb n 160)))).

Fixpoint lstrip (s : string) : string :=
  match s with
  | EmptyString => EmptyString
  | String c s' => if is_ws c then lstrip s' else s
  end.

Fixpoint rstrip (s : string) : string :=
  match s with
  | EmptyString => EmptyString
  | String c s' =>
      match rstrip s' with
      | EmptyString => if is_ws c then EmptyString else String c EmptyString
      | r => String c r
      end
  end.

Definition strip (s : string) : string := rstrip (lstrip s).

Fixpoint starts_with (p s : string) : bool :=
  match p, s with
  | EmptyString, _ => true
  | String a p', String b s' => if Ascii.eqb a b then starts_with p' s' else false
  | String _ _, EmptyString => false
  end.

(** [needle in hay] on strings. *)
Fixpoint contains (needle hay : string) : bool :=
  if starts_with needle hay then true
  else match hay with
       | EmptyString => false
       | String _ hay' => contains needle hay'
       end.

(** [s.split(sep)] for a one-character separator. *)
Fixpoint split (sep : ascii) (s : string) : list string :=
  match s with
  | EmptyString => [EmptyString]
  | String c s' =>
      if Ascii.eqb c sep then EmptyString :: split sep s'
      else match split sep s' with
           | [] => [String c EmptyString]
           | w :: ws => String c w :: ws
           end
  end.

(** [range(a, b)] *)
Definition range (a b : Z) : list Z :=
  map (fun i => a + Z.of_nat i) (seq 0 (Z.to_nat (b - a))).

(** A Python float. *)
Inductive pyfloat : Type :=
| Finite (q : Q)
| Inf (negative : bool)
| NaN.

(** [f <= n] for a float [f] and an int [n]. *)
Definition float_le_int (f : pyfloat) (n : Z) : bool :=
  match f with
  | Finite q => Qle_bool q (inject_Z n)
  | Inf negative => negative
  | NaN => false
  end.

(** A value read from a JSON field that is expected to hold a number, seen
    through what the built-in [float()] does with it: [Number f] is a value
    that [float()] converts to [f] (a float, an int, a numeric string),
    [NonNumeric] one on which it raises [TypeError] or [ValueError]. *)
Inductive number_field : Type :=
| Number (f : pyfloat)
| NonNumeric.

(** Exceptions of the program. *)
Inductive exn : Type :=
| ValueError (msg : string)
| TaxonNotFoundError (msg : string)
| RateLimitError (msg : string)
| APIError (msg : string).

Inductive result (A : Type) : Type :=
| Ok (a : A)
| Raise (e : exn).
Arguments Ok {A} a.
Arguments Raise {A} e.

Definition is_ValueError {A} (r : result A) : Prop :=
  match r with Raise (ValueError _) => True | _ => False end.

Definition is_TaxonNotFoundError {A} (r : result A) : Prop :=
  match r with Raise (TaxonNotFoundError _) => True | _ => False end.

End Py.
Export Py.

(** Sequencing of computations that may raise, with stdpp's [x ← r; k]. *)
#[global] Instance result_ret : MRet result := fun A a => Ok a.
#[global] Instance result_bind : MBind result := fun A B k r =>
  match r with
  | Ok a => k a
  | Raise e => Raise e
  end.

(** ** utils.py *)

Module utils.

(** [validate_year]; [current_year] is [datetime.now().year]. The
    [isinstance] test holds by typing. *)
Definition validate_year (current_year : Z) (year : Z) (field_name : string)
  : result Z :=
  if year <? 1700 then
    Raise (ValueError (field_name +:+ " must be >= 1700, got " +:+ pretty year))
  else if year >? current_year + 1 then
    Raise (ValueError (field_name +:+ " cannot be in the future (max: "
                         +:+ pretty current_year +:+ "), got " +:+ pretty year))
  else Ok year.

Definition validate_positive_int (value : Z) (field_name : string)
           (allow_zero : bool) : result Z :=
  let min_val := if allow_zero then 0 else 1 in
  if value <? min_val then
    Raise (ValueError (field_name +:+ " must be >= " +:+ pretty min_val
                         +:+ ", got " +:+ pretty value))
  else Ok value.

(** The argument of [clean_string_list]: [None], one comma-separated
    string, or a list. *)
Inductive str_or_list : Type :=
| NoItems
| ItemsStr (s : string)
| ItemsList (l : list string).

Definition clean_string_list (items : str_or_list) : list string :=
  match items with
  | NoItems => []
  | ItemsStr s =>
      map (fun item => lower (strip item))
          (filter (fun item => andb (truthy_str item) (truthy_str (strip item)) = true)
                  (split "," s))
  | ItemsList l =>
      map (fun item => lower (strip item))
          (filter (fun item => andb (truthy_str item) (truthy_str (strip item)) = true)
                  l)
  end.

End utils.

(** ** api.py: the data model *)

(** The JSON objects of the GBIF API, seen through the keys the client reads;
    a key that is absent from the object is [None]. *)
Module Json.

(** The object returned by [species/match]. *)
Record match_json : Type := {
  usageKey : option Z;
  scientificName : option string;
  canonicalName : option string;
  rank : option string;
  status : option string;
  confidence : option Z;
  matchType : option string;
  kingdom : option string;
  family : option string;
  genus : option string
}.

(** One element of ["results"] of [occurrence/search]. *)
Record item_json : Type := {
  key : option Z;
  year : option Z;
  eventDate : option string;
  decimalLatitude : option pyfloat;
  decimalLongitude : option pyfloat;
  coordinateUncertaintyInMeters : option number_field;
  elevation : option pyfloat;
  locality : option string;
  i_genus : option string;
  species : option string;
  i_scientificName : option string;
  specificEpithet : option string;
  institutionCode : option string;
  catalogNumber : option string;
  recordedBy : option string;
  country : option string;
  stateProvince : option string;
  basisOfRecord : option string
}.

(** The envelope returned by [occurrence/search]. *)
Record search_json : Type := {
  count : option Z;
  results : option (list item_json);
  endOfRecords : option bool
}.

(** A response body: one JSON object, read by [match_taxon] through the
    keys of [match_json] and by the occurrence queries through those of
    [search_json]. *)
Record body : Type := {
  as_match : match_json;
  as_search : search_json
}.

(** [d.get(k, default)] *)
Definition get {A} (field : option A) (default : A) : A :=
  match field with Some v => v | None => default end.

End Json.

Module TaxonMatch.

Record t : Type := {
  usage_key : Z;
  scientific_name : string;
  canonical_name : string;
  rank : string;
  status : string;
  confidence : Z;
  match_type : string;
  kingdom : option string;
  family : option string;
  genus : option string
}.

Definition from_api_response (data : Json.match_json) : t :=
  {| usage_key := Json.get (Json.usageKey data) 0;
     scientific_name := Json.get (Json.scientificName data) EmptyString;
     canonical_name := Json.get (Json.canonicalName data) EmptyString;
     rank := Json.get (Json.rank data) EmptyString;
     status := Json.get (Json.status data) EmptyString;
     confidence := Json.get (Json.confidence data) 0;
     match_type := Json.get (Json.matchType data) "NONE";
     kingdom := Json.kingdom data;
     family := Json.family data;
     genus := Json.genus data |}.

End TaxonMatch.

Module OccurrenceRecord.

Record t : Type := {
  key : Z;
  year : option Z;
  event_date : option string;
  latitude : option pyfloat;
  longitude : option pyfloat;
  coordinate_uncertainty : option number_field;
  elevation : option pyfloat;
  locality : option string;
  genus : option string;
  species : option string;
  scientific_name : option string;
  specific_epithet : option string;
  institution_code : option string;
  catalog_number : option string;
  recorded_by : option string;
  country : option string;
  state_province : option string;
  basis_of_record : option string
}.

Definition from_api_response (data : Json.item_json) : t :=
  {| key := Json.get (Json.key data) 0;
     year := Json.year data;
     event_date := Json.eventDate data;
     latitude := Json.decimalLatitude data;
     longitude := Json.decimalLongitude data;
     coordinate_uncertainty := Json.coordinateUncertaintyInMeters data;
     elevation := Json.elevation data;
     locality := Json.locality data;
     genus := Json.i_genus data;
     species := Json.species data;
     scientific_name := Json.i_scientificName data;
     specific_epithet := Json.specificEpithet data;
     institution_code := Json.institutionCode data;
     catalog_number := Json.catalogNumber data;
     recorded_by := Json.recordedBy data;
     country := Json.country data;
     state_province := Json.stateProvince data;
     basis_of_record := Json.basisOfRecord data |}.

End OccurrenceRecord.

(** ** filters.py *)

Module FilterConfig.

Record t : Type := {
  genus : option string;
  species_list : list string;
  family : option string;
  year_start : Z;
  year_end : option Z;
  uncertainty_max : Z;
  require_year : bool;
  require_elevation : bool;
  keep_unknown_uncertainty : bool;
  countries : list string;
  institutions : list string;
  basis_of_record : list string;
  deduplicate : bool
}.

(** The defaults of the dataclass fields. *)
Definition defaults : t :=
  {| genus := None;
     species_list := [];
     family := None;
     year_start := 1800;
     year_end := None;
     uncertainty_max := 1000;
     require_year := true;
     require_elevation := true;
     keep_unknown_uncertainty := true;
     countries := [];
     institutions := [];
     basis_of_record := ["PRESERVED_SPECIMEN"];
     deduplicate := true |}.

(** The same fields with another [family], or with another [genus]. *)
Definition with_family (f : option string) (c : t) : t :=
  {| genus := genus c; species_list := species_list c; family := f;
     year_start := year_start c; year_end := year_end c;
     uncertainty_max := uncertainty_max c;
     require_year := require_year c; require_elevation := require_elevation c;
     keep_unknown_uncertainty := keep_unknown_uncertainty c;
     countries := countries c; institutions := institutions c;
     basis_of_record := basis_of_record c; deduplicate := deduplicate c |}.

Definition with_genus (g : option string) (c : t) : t :=
  {| genus := g; species_list := species_list c; family := family c;
     year_start := year_start c; year_end := year_end c;
     uncertainty_max := uncertainty_max c;
     require_year := require_year c; require_elevation := require_elevation c;
     keep_unknown_uncertainty := keep_unknown_uncertainty c;
     countries := countries c; institutions := institutions c;
     basis_of_record := basis_of_record c; deduplicate := deduplicate c |}.

(** [__post_init__]: runs at the end of every construction, on the fields
    as given, and returns the object as it stands afterwards. *)
Definition __post_init__ (current_year : Z) (self : t) : result t :=
  (* Validate taxonomy *)
  if negb (truthy_opt_str (genus self)) && negb (truthy_opt_str (family self)) then
    Raise (ValueError "Either genus or family must be specified")
  else
  (* Validate years *)
  year_start' ←
    (if truthy_int (year_start self)
     then utils.validate_year current_year (year_start self) "year_start"
     else Ok (year_start self));
  year_end' ←
    (if truthy_opt_int (year_end self)
     then utils.validate_year current_year (Json.get (year_end self) 0) "year_end"
     else Ok current_year);
  if year_start' >? year_end' then
    Raise (ValueError ("year_start (" +:+ pretty year_start'
                         +:+ ") cannot be after year_end ("
                         +:+ pretty year_end' +:+ ")"))
  else
  (* Validate uncertainty *)
  uncertainty_max' ←
    utils.validate_positive_int (uncertainty_max self) "uncertainty_max" true;
  (* Clean string lists *)
  Ok {| genus := genus self;
        species_list := utils.clean_string_list (utils.ItemsList (species_list self));
        family := family self;
        year_start := year_start';
        year_end := Some year_end';
        uncertainty_max := uncertainty_max';
        require_year := require_year self;
        require_elevation := require_elevation self;
        keep_unknown_uncertainty := keep_unknown_uncertainty self;
        countries :=
          map upper (utils.clean_string_list (utils.ItemsList (countries self)));
        institutions := utils.clean_string_list (utils.ItemsList (institutions self));
        basis_of_record := basis_of_record self;
        deduplicate := deduplicate self |}.

End FilterConfig.

Module FilterResult.

Record t : Type := {
  keep : bool;
  reason : option string;
  uncertainty_status : string
}.

(** [FilterResult(keep=False, reason=r)]: the status keeps its default. *)
Definition drop (r : string) : t :=
  {| keep := false; reason := Some r; uncertainty_status := "known" |}.

(** [FilterResult(keep=False, reason=r, uncertainty_status=s)] *)
Definition drop_with (r s : string) : t :=
  {| keep := false; reason := Some r; uncertainty_status := s |}.

(** [FilterResult(keep=True, uncertainty_status=s)] *)
Definition kept (s : string) : t :=
  {| keep := true; reason := None; uncertainty_status := s |}.

End FilterResult.

Module RecordFilter.

Record t : Type := {
  config : FilterConfig.t;
  _seen_keys : gset Z;
  _species_set : gset string
}.

(** [RecordFilter(config)] *)
Definition __init__ (config : FilterConfig.t) : t :=
  {| config := config;
     _seen_keys := ∅;
     _species_set := list_to_set (FilterConfig.species_list config) |}.

Definition _check_uncertainty (self : t) (record : OccurrenceRecord.t) : string :=
  match OccurrenceRecord.coordinate_uncertainty record with
  | None => "unknown"
  | Some (Number unc_value) =>
      if float_le_int unc_value (FilterConfig.uncertainty_max (config self))
      then "known"
      else "exceeded"
  | Some NonNumeric => "unknown"
  end.

Definition _matches_species (self : t) (record : OccurrenceRecord.t) : bool :=
  let epithet := lower (or_empty (OccurrenceRecord.specific_epithet record)) in
  if bool_decide (epithet ∈ _species_set self) then true
  else
    let sci_name := lower (or_empty (OccurrenceRecord.scientific_name record)) in
    existsb (fun species => contains species sci_name) (elements (_species_set self)).

(** [apply]: the result, and the filter with its set of seen keys as the
    call leaves it. *)
Definition apply (self : t) (record : OccurrenceRecord.t) : FilterResult.t * t :=
  let cfg := config self in
  (* 1. Deduplication check *)
  if FilterConfig.deduplicate cfg
     && bool_decide (OccurrenceRecord.key record ∈ _seen_keys self)
  then (FilterResult.drop "duplicate", self)
  else
  let self :=
    if FilterConfig.deduplicate cfg
    then {| config := config self;
            _seen_keys := {[OccurrenceRecord.key record]} ∪ _seen_keys self;
            _species_set := _species_set self |}
    else self in
  let result :=
  (* 2. Year filter *)
  if FilterConfig.require_year cfg
     && bool_decide (OccurrenceRecord.year record = None)
  then FilterResult.drop "missing_year"
  else if match OccurrenceRecord.year record with
          | Some y => y <? FilterConfig.year_start cfg
          | None => false
          end
  then FilterResult.drop "year_too_old"
  else if match OccurrenceRecord.year record with
          | Some y => truthy_opt_int (FilterConfig.year_end cfg)
                      && (y >? Json.get (FilterConfig.year_end cfg) 0)
          | None => false
          end
  then FilterResult.drop "year_too_new"
  (* 3. Elevation filter *)
  else if FilterConfig.require_elevation cfg
          && bool_decide (OccurrenceRecord.elevation record = None)
  then FilterResult.drop "missing_elevation"
  else
  (* 4. Coordinate uncertainty filter *)
  let uncertainty_status := _check_uncertainty self record in
  if String.eqb uncertainty_status "exceeded"
  then FilterResult.drop_with "uncertainty_exceeded" uncertainty_status
  else if String.eqb uncertainty_status "unknown"
          && negb (FilterConfig.keep_unknown_uncertainty cfg)
  then FilterResult.drop_with "uncertainty_unknown" uncertainty_status
  (* 5. Species filter (if specified) *)
  else if bool_decide (_species_set self ≠ ∅) && negb (_matches_species self record)
  then FilterResult.drop "species_not_matched"
  (* 6. Country filter (if specified) *)
  else if truthy_list (FilterConfig.countries cfg)
          && negb (existsb
                     (fun c => contains c (upper (or_empty (OccurrenceRecord.country record))))
                     (FilterConfig.countries cfg))
  then FilterResult.drop "country_not_matched"
  (* 7. Institution filter (if specified) *)
  else if truthy_list (FilterConfig.institutions cfg)
          && negb (existsb
                     (fun i => contains i
                                 (lower (or_empty (OccurrenceRecord.institution_code record))))
                     (FilterConfig.institutions cfg))
  then FilterResult.drop "institution_not_matched"
  else FilterResult.kept uncertainty_status
  in (result, self).

Definition reset (self : t) : t :=
  {| config := config self; _seen_keys := ∅; _species_set := _species_set self |}.

Definition seen_count (self : t) : nat := size (_seen_keys self).

End RecordFilter.

Module filters.

(** [stats[k] += 1]; every key the code increments is in the dictionary. *)
Definition incr (k : string) (stats : gmap string Z) : gmap string Z :=
  alter (fun v => v + 1) k stats.

Definition initial_stats : gmap string Z :=
  list_to_map
    [("total", 0); ("kept", 0); ("duplicate", 0); ("missing_year", 0);
     ("year_too_old", 0); ("year_too_new", 0); ("missing_elevation", 0);
     ("uncertainty_exceeded", 0); ("uncertainty_unknown_kept", 0);
     ("uncertainty_unknown_dropped", 0); ("species_not_matched", 0);
     ("country_not_matched", 0); ("institution_not_matched", 0)].

(** The body of the [for record in records] loop of [filter_records]. *)
Definition filter_step
           (st : RecordFilter.t * list OccurrenceRecord.t * gmap string Z)
           (record : OccurrenceRecord.t)
  : RecordFilter.t * list OccurrenceRecord.t * gmap string Z :=
  let '(record_filter, filtered, stats) := st in
  let stats := incr "total" stats in
  let '(result, record_filter) := RecordFilter.apply record_filter record in
  if FilterResult.keep result then
    let filtered := (filtered ++ [record])%list in
    let stats := incr "kept" stats in
    let stats :=
      if String.eqb (FilterResult.uncertainty_status result) "unknown"
      then incr "uncertainty_unknown_kept" stats else stats in
    (record_filter, filtered, stats)
  else
    let reason :=
      match FilterResult.reason result with
      | Some r => if truthy_str r then r else "other"
      | None => "other"
      end in
    let stats :=
      if bool_decide (is_Some (stats !! reason)) then incr reason stats else stats in
    let stats :=
      if String.eqb reason "uncertainty_unknown"
      then incr "uncertainty_unknown_dropped" stats else stats in
    (record_filter, filtered, stats).

Definition filter_records (records : list OccurrenceRecord.t) (config : FilterConfig.t)
  : list OccurrenceRecord.t * gmap string Z :=
  let '(_, filtered, stats) :=
    fold_left filter_step records (RecordFilter.__init__ config, [], initial_stats) in
  (filtered, stats).

End filters.

(** ** api.py: the client *)

Module World.

(** [basis_of_record: str | list[str]] *)
Inductive basis : Type :=
| BasisStr (s : string)
| BasisList (l : list string).

(** The query parameters of [species/match]. *)
Record match_params : Type := {
  name : string;
  kingdom : string;
  class : option string
}.

(** The query parameters of [occurrence/search]; an absent key is [None]. *)
Record search_params : Type := {
  taxonKey : Z;
  hasCoordinate : string;
  limit : Z;
  offset : option Z;
  year : option Z;
  basisOfRecord : option basis;
  country : option string
}.

Inductive params : Type :=
| MatchParams (p : match_params)
| SearchParams (p : search_params).

Record request : Type := {
  endpoint : string;
  query : params
}.

(** What [session.get] does: a response with its status code and JSON
    body, or one of the exceptions of [requests]. The retries of the
    session's adapter happen inside it. *)
Inductive http_outcome : Type :=
| Response (status_code : Z) (json : Json.body)
| ConnectionError (msg : string)
| Timeout (msg : string)
| RequestException (msg : string).

(** The lines the client logs, by their content:
    - [Matching]: "Matching taxon: {name}"
    - [Matched]: "Matched '{name}' to {canonical_name} ({rank}, key={usage_key})"
    - [EstimatedTotal]: "Estimated total: {total_estimate:,} records"
    - [Stopped]: "Download stopped by user"
    - [ProcessingYear]: "Processing year {year}"
    - [ErrorFetchingYear]: "Error fetching year {year}: {e}"
    - [YearOver100K]: "Year {year} has >100K records. Some may be missed."
    - [Downloaded]: "Downloaded {count:,} unique records" *)
Inductive log_msg : Type :=
| Matching (name : string)
| Matched (name canonical_name rank : string) (usage_key : Z)
| EstimatedTotal (total_estimate : Z)
| Stopped
| ProcessingYear (year : Z)
| ErrorFetchingYear (year : Z) (e : exn)
| YearOver100K (year : Z)
| Downloaded (count : Z).

Inductive level : Type := DEBUG | INFO | WARNING.

(** What a run does that its caller or the outside can observe, in order. *)
Inductive event : Type :=
| EvRequest (r : request)
| EvLog (l : level) (m : log_msg)
| EvYield (record : OccurrenceRecord.t)
| EvProgress (current total year : Z).

Record t : Type := {
  requests_made : nat;
  polls : nat;
  trace : list event
}.

Definition initial : t := {| requests_made := 0; polls := 0; trace := [] |}.

(** [session.get] answers with the body [data] and a status code that is
    neither 429 nor an error for [raise_for_status]. *)
Definition delivers (o : http_outcome) (data : Json.body) : Prop :=
  exists status_code,
    o = Response status_code data
    /\ status_code <> 429
    /\ ~ (400 <= status_code < 600).

Definition emit (e : event) (w : t) : t :=
  {| requests_made := requests_made w;
     polls := polls w;
     trace := trace w ++ [e] |}.

Definition log (l : level) (m : log_msg) (w : t) : t := emit (EvLog l m) w.

(** The world once one more request was made in it. *)
Definition asked (req : request) (w : t) : t :=
  {| requests_made := S (requests_made w);
     polls := polls w;
     trace := trace w ++ [EvRequest req] |}.

(** [stop_check and stop_check()]: the callable, when there is one, answers
    by the number of times it was asked before. *)
Definition poll (stop_check : option (nat -> bool)) (w : t) : bool * t :=
  match stop_check with
  | None => (false, w)
  | Some f =>
      (f (polls w),
       {| requests_made := requests_made w;
          polls := S (polls w);
          trace := trace w |})
  end.

(** The records a trace yields, the requests it makes and the warnings it
    logs, in order. *)
Definition yields_of (tr : list event) : list OccurrenceRecord.t :=
  omap (fun e => match e with EvYield r => Some r | _ => None end) tr.

Definition requests_of (tr : list event) : list request :=
  omap (fun e => match e with EvRequest r => Some r | _ => None end) tr.

Definition warnings_of (tr : list event) : list log_msg :=
  omap (fun e => match e with EvLog WARNING m => Some m | _ => None end) tr.

End World.

Module GBIFClient.
Import World.

Definition SPECIES_MATCH_ENDPOINT : string := "species/match".
Definition OCCURRENCE_SEARCH_ENDPOINT : string := "occurrence/search".
Definition DEFAULT_TIMEOUT : Z * Z := (10, 30).
Definition DEFAULT_PAGE_SIZE : Z := 300.
Definition MAX_OFFSET : Z := 100000.

Record t : Type := {
  timeout : Z * Z;
  max_retries : Z;
  page_size : Z
}.

Definition __init__ (timeout : Z * Z) (max_retries page_size : Z) : t :=
  {| timeout := timeout;
     max_retries := max_retries;
     page_size := Z.min page_size 300 |}.

Definition truthy_basis (b : basis) : bool :=
  match b with
  | BasisStr s => truthy_str s
  | BasisList l => truthy_list l
  end.

(** [str(b).lower()] *)
Definition str_lower_bool (b : bool) : string := if b then "true" else "false".

(** The local variables of the generator [iter_occurrences_by_year], with
    the world it runs in. *)
Record gen : Type := {
  count : Z;
  seen_keys : gset Z;
  world : World.t
}.

Definition with_world (g : gen) (w : World.t) : gen :=
  {| count := count g; seen_keys := seen_keys g; world := w |}.

(** The [params] dictionary of [match_taxon]. *)
Definition match_query (name kingdom : string) (class_name : option string)
  : match_params :=
  {| World.name := name;
     World.kingdom := kingdom;
     class := if truthy_opt_str class_name then class_name else None |}.

(** The [params] dictionary of [count_occurrences]. *)
Definition count_query (taxon_key : Z) (basis_of_record : basis)
           (has_coordinate : bool) (year : option Z) (country : option string)
  : search_params :=
  {| taxonKey := taxon_key;
     hasCoordinate := str_lower_bool has_coordinate;
     limit := 0;
     offset := None;
     World.year := if truthy_opt_int year then year else None;
     basisOfRecord := if truthy_basis basis_of_record then Some basis_of_record else None;
     World.country := if truthy_opt_str country then country else None |}.

(** The [params] dictionary [iter_occurrences_by_year] starts a year with. *)
Definition year_query (self : t) (taxon_key : Z) (basis_of_record : basis)
           (has_coordinate : bool) (country : option string) (year : Z)
  : search_params :=
  {| taxonKey := taxon_key;
     hasCoordinate := str_lower_bool has_coordinate;
     limit := page_size self;
     offset := Some 0;
     World.year := Some year;
     basisOfRecord := if truthy_basis basis_of_record then Some basis_of_record else None;
     World.country := if truthy_opt_str country then country else None |}.

(** [params["offset"] += n] *)
Definition advance (params : search_params) (n : Z) : search_params :=
  {| taxonKey := taxonKey params;
     hasCoordinate := hasCoordinate params;
     limit := limit params;
     offset := Some (Json.get (offset params) 0 + n);
     World.year := World.year params;
     basisOfRecord := basisOfRecord params;
     World.country := World.country params |}.

(** No response has status 429, so that no request raises [RateLimitError]. *)
Definition never_rate_limited (session_get : nat -> request -> http_outcome) : Prop :=
  forall n req json, session_get n req <> Response 429 json.

(** The request of an occurrence search. *)
Definition search (params : search_params) : request :=
  {| endpoint := OCCURRENCE_SEARCH_ENDPOINT; query := SearchParams params |}.

(** What a run has yielded, requested and warned about so far. *)
Definition yielded (g : gen) : list OccurrenceRecord.t := yields_of (trace (world g)).
Definition requested (g : gen) : list request := requests_of (trace (world g)).
Definition warned (g : gen) : list log_msg := warnings_of (trace (world g)).

(** Turns that suffice for the page loop of a year when the page size is
    positive: each turn that continues moves the offset up, and none
    continues from [MAX_OFFSET] on. *)
Definition enough_fuel : nat := S (Z.to_nat MAX_OFFSET).

(** How one turn of a [while True] loop ends. *)
Inductive turn : Type :=
| Break
| Continue (params : search_params)
| Propagate (e : exn).

Section Client.

(** [session.get], by the number of requests made before it. *)
Variable session_get : nat -> request -> http_outcome.
(** [datetime.now().year] *)
Variable current_year : Z.

Definition _make_request (self : t) (endpoint : string) (query : params) (w : World.t)
  : result Json.body * World.t :=
  let req := {| endpoint := endpoint; query := query |} in
  let w' := asked req w in
  match session_get (requests_made w) req with
  | Response status_code json =>
      if status_code =? 429 then
        (Raise (RateLimitError "GBIF rate limit exceeded. Please wait and retry."), w')
      else if (400 <=? status_code) && (status_code <? 600) then
        (* raise_for_status, then [except HTTPError] *)
        (Raise (APIError ("HTTP error: " +:+ pretty status_code)), w')
      else (Ok json, w')
  | ConnectionError e => (Raise (APIError ("Connection error: " +:+ e)), w')
  | Timeout e => (Raise (APIError ("Request timeout: " +:+ e)), w')
  | RequestException e => (Raise (APIError ("Request failed: " +:+ e)), w')
  end.

Definition match_taxon (self : t) (name : string) (rank : option string)
           (kingdom : string) (class_name : option string) (strict : bool)
           (w : World.t) : result TaxonMatch.t * World.t :=
  let params := match_query name kingdom class_name in
  let w := log DEBUG (Matching name) w in
  let '(r, w) := _make_request self SPECIES_MATCH_ENDPOINT (MatchParams params) w in
  match r with
  | Raise e => (Raise e, w)
  | Ok data =>
      let match_ := TaxonMatch.from_api_response (Json.as_match data) in
      (* Validate the match *)
      if String.eqb (TaxonMatch.match_type match_) "NONE" then
        (Raise (TaxonNotFoundError ("Taxon '" +:+ name +:+ "' not found in GBIF.")), w)
      else if strict && truthy_opt_str rank
              && negb (String.eqb (TaxonMatch.rank match_) (Json.get rank EmptyString)) then
        (Raise (TaxonNotFoundError
                  ("'" +:+ name +:+ "' matched as " +:+ TaxonMatch.rank match_
                       +:+ " (" +:+ TaxonMatch.canonical_name match_
                       +:+ "), but expected " +:+ Json.get rank EmptyString
                       +:+ ". Please check the spelling.")), w)
      else if strict && truthy_opt_str rank
              && negb (String.eqb (lower (TaxonMatch.canonical_name match_)) (lower name)) then
        (Raise (TaxonNotFoundError
                  ("'" +:+ name +:+ "' matched to '" +:+ TaxonMatch.canonical_name match_
                       +:+ "' (" +:+ TaxonMatch.rank match_
                       +:+ "). This may not be what you intended. Please verify.")), w)
      else
        let w := log INFO (Matched name (TaxonMatch.canonical_name match_)
                                   (TaxonMatch.rank match_)
                                   (TaxonMatch.usage_key match_)) w in
        (Ok match_, w)
  end.

Definition count_occurrences (self : t) (taxon_key : Z) (basis_of_record : basis)
           (has_coordinate : bool) (year : option Z) (country : option string)
           (w : World.t) : result Z * World.t :=
  let params := count_query taxon_key basis_of_record has_coordinate year country in
  let '(r, w) := _make_request self OCCURRENCE_SEARCH_ENDPOINT (SearchParams params) w in
  match r with
  | Raise e => (Raise e, w)
  | Ok data => (Ok (Json.get (Json.count (Json.as_search data)) 0), w)
  end.

Section Generator.

Variable self : t.
Variable progress_callback : bool.
Variable stop_check : option (nat -> bool).
Variable total_estimate : Z.

(** The body of [for item in results] in year [year]. *)
Definition item_step (year : Z) (g : gen) (item : Json.item_json) : gen :=
  let record := OccurrenceRecord.from_api_response item in
  (* Deduplicate *)
  if bool_decide (OccurrenceRecord.key record ∈ seen_keys g) then g
  else
    let seen := {[OccurrenceRecord.key record]} ∪ seen_keys g in
    let w := emit (EvYield record) (world g) in
    let count := count g + 1 in
    let w := if progress_callback
             then emit (EvProgress count total_estimate year) w else w in
    {| count := count; seen_keys := seen; world := w |}.

(** One turn of the [while True] loop of year [year], entered with the
    query parameters [params]. *)
Definition page_turn (year : Z) (params : search_params) (g : gen) : turn * gen :=
  let '(stop, w) := poll stop_check (world g) in
  if stop then (Break, with_world g w)
  else
    let '(r, w) :=
      _make_request self OCCURRENCE_SEARCH_ENDPOINT (SearchParams params) w in
    match r with
    | Raise (APIError e) =>
        (Break, with_world g (log WARNING (ErrorFetchingYear year (APIError e)) w))
    | Raise e => (Propagate e, with_world g w)
    | Ok data =>
        let results := Json.get (Json.results (Json.as_search data)) [] in
        if negb (truthy_list results) then (Break, with_world g w)
        else
          let g := fold_left (item_step year) results (with_world g w) in
          if Json.get (Json.endOfRecords (Json.as_search data)) false
             || (Z.of_nat (length results) <? page_size self)
          then (Break, g)
          else
            let params := advance params (page_size self) in
            (* Safety check for single-year offset limit *)
            if Json.get (offset params) 0 >=? MAX_OFFSET
            then (Break, with_world g (log WARNING (YearOver100K year) (world g)))
            else (Continue params, g)
    end.

(** The [while True] loop: at most [fuel] turns; [None] when the turns
    run out before the loop breaks. *)
Fixpoint page_loop (fuel : nat) (year : Z) (params : search_params) (g : gen)
  : option (result unit * gen) :=
  match fuel with
  | O => None
  | S fuel =>
      match page_turn year params g with
      | (Break, g) => Some (Ok (), g)
      | (Propagate e, g) => Some (Raise e, g)
      | (Continue params, g) => page_loop fuel year params g
      end
  end.

(** The [for year in range(year_start, year_end + 1)] loop over the
    years that remain. *)
Fixpoint year_loop (fuel : nat) (taxon_key : Z) (basis_of_record : basis)
         (has_coordinate : bool) (country : option string)
         (years : list Z) (g : gen) : option (result unit * gen) :=
  match years with
  | [] => Some (Ok (), g)
  | year :: years =>
      (* Check if we should stop *)
      let '(stop, w) := poll stop_check (world g) in
      if stop then Some (Ok (), with_world g (log INFO Stopped w))
      else
        let g := with_world g (log DEBUG (ProcessingYear year) w) in
        let params :=
          year_query self taxon_key basis_of_record has_coordinate country year in
        match page_loop fuel year params g with
        | None => None
        | Some (Raise e, g) => Some (Raise e, g)
        | Some (Ok _, g) =>
            year_loop fuel taxon_key basis_of_record has_coordinate country years g
        end
  end.

End Generator.

(** [iter_occurrences_by_year], consumed to its end: how the generator
    finishes (it returns, or an exception leaves it) and the state it
    finishes in; the records it yields are the [EvYield] events of the
    trace. [fuel] bounds the turns of the page loop of each year. *)
Definition iter_occurrences_by_year (fuel : nat) (self : t) (taxon_key : Z)
           (year_start : Z) (year_end : option Z) (basis_of_record : basis)
           (has_coordinate : bool) (country : option string)
           (progress_callback : bool) (stop_check : option (nat -> bool))
           (w : World.t) : option (result unit * gen) :=
  let year_end := match year_end with Some y => y | None => current_year end in
  (* Get total count estimate *)
  let '(r, w) :=
    count_occurrences self taxon_key basis_of_record has_coordinate None country w in
  match r with
  | Raise e => Some (Raise e, {| count := 0; seen_keys := ∅; world := w |})
  | Ok total_estimate =>
      let w := log INFO (EstimatedTotal total_estimate) w in
      let g := {| count := 0; seen_keys := ∅; world := w |} in
      match year_loop self progress_callback stop_check total_estimate fuel
                      taxon_key basis_of_record has_coordinate country
                      (range year_start (year_end + 1)) g with
      | None => None
      | Some (Raise e, g) => Some (Raise e, g)
      | Some (Ok _, g) =>
          Some (Ok (), with_world g (log INFO (Downloaded (count g)) (world g)))
      end
  end.

End Client.

End GBIFClient.

(** ** The specified behaviour, for comparison with the code *)

(** The ordered chain of checks of the filter engine as the specification
    lists it: each check has a reason code and a condition under which it
    fails; the conditions are those of [RecordFilter.apply], the order and
    the short-circuit are stated here on their own. *)
Module FilterEngine.

Record check : Type := {
  reason_code : string;
  fails : RecordFilter.t -> OccurrenceRecord.t -> bool;
  (** whether a drop by this check reports the uncertainty classification *)
  reports_status : bool
}.

Definition deduplication : check :=
  {| reason_code := "duplicate";
     fails self record :=
       FilterConfig.deduplicate (RecordFilter.config self)
       && bool_decide (OccurrenceRecord.key record ∈ RecordFilter._seen_keys self);
     reports_status := false |}.

Definition required_year : check :=
  {| reason_code := "missing_year";
     fails self record :=
       FilterConfig.require_year (RecordFilter.config self)
       && bool_decide (OccurrenceRecord.year record = None);
     reports_status := false |}.

Definition year_range_low : check :=
  {| reason_code := "year_too_old";
     fails self record :=
       match OccurrenceRecord.year record with
       | Some y => y <? FilterConfig.year_start (RecordFilter.config self)
       | None => false
       end;
     reports_status := false |}.

Definition year_range_high : check :=
  {| reason_code := "year_too_new";
     fails self record :=
       match OccurrenceRecord.year record with
       | Some y =>
           truthy_opt_int (FilterConfig.year_end (RecordFilter.config self))
           && (y >? Json.get (FilterConfig.year_end (RecordFilter.config self)) 0)
       | None => false
       end;
     reports_status := false |}.

Definition required_elevation : check :=
  {| reason_code := "missing_elevation";
     fails self record :=
       FilterConfig.require_elevation (RecordFilter.config self)
       && bool_decide (OccurrenceRecord.elevation record = None);
     reports_status := false |}.

Definition uncertainty_exceeded : check :=
  {| reason_code := "uncertainty_exceeded";
     fails self record :=
       String.eqb (RecordFilter._check_uncertainty self record) "exceeded";
     reports_status := true |}.

Definition uncertainty_unknown : check :=
  {| reason_code := "uncertainty_unknown";
     fails self record :=
       String.eqb (RecordFilter._check_uncertainty self record) "unknown"
       && negb (FilterConfig.keep_unknown_uncertainty (RecordFilter.config self));
     reports_status := true |}.

Definition species : check :=
  {| reason_code := "species_not_matched";
     fails self record :=
       bool_decide (RecordFilter._species_set self ≠ ∅)
       && negb (RecordFilter._matches_species self record);
     reports_status := false |}.

Definition country : check :=
  {| reason_code := "country_not_matched";
     fails self record :=
       truthy_list (FilterConfig.countries (RecordFilter.config self))
       && negb (existsb
                  (fun c => contains c (upper (or_empty (OccurrenceRecord.country record))))
                  (FilterConfig.countries (RecordFilter.config self)));
     reports_status := false |}.

Definition institution : check :=
  {| reason_code := "institution_not_matched";
     fails self record :=
       truthy_list (FilterConfig.institutions (RecordFilter.config self))
       && negb (existsb
                  (fun i => contains i
                              (lower (or_empty (OccurrenceRecord.institution_code record))))
                  (FilterConfig.institutions (RecordFilter.config self)));
     reports_status := false |}.

(** The checks between deduplication and the uncertainty classification,
    the two outcomes of the classification that drop, and the checks after
    it. *)
Definition before_uncertainty : list check :=
  [required_year; year_range_low; year_range_high; required_elevation].
Definition uncertainty_checks : list check :=
  [uncertainty_exceeded; uncertainty_unknown].
Definition later_checks : list check := [species; country; institution].

(** Every criterion other than deduplication. *)
Definition criteria : list check :=
  (before_uncertainty ++ uncertainty_checks ++ later_checks)%list.

(** The fixed order: deduplication, required-year, year-range,
    required-elevation, coordinate-uncertainty, species, country,
    institution. *)
Definition chain : list check := deduplication :: criteria.

(** The filter instance once a record went past the deduplication step:
    with deduplication enabled its key is in the set of seen keys. *)
Definition mark_seen (self : RecordFilter.t) (record : OccurrenceRecord.t)
  : RecordFilter.t :=
  if FilterConfig.deduplicate (RecordFilter.config self)
  then {| RecordFilter.config := RecordFilter.config self;
          RecordFilter._seen_keys :=
            {[OccurrenceRecord.key record]} ∪ RecordFilter._seen_keys self;
          RecordFilter._species_set := RecordFilter._species_set self |}
  else self.

Definition passes (cs : list check) (self : RecordFilter.t)
           (record : OccurrenceRecord.t) : bool :=
  forallb (fun c => negb (fails c self record)) cs.

(** The first failing check of a list determines the result; a record
    that fails none is kept with its uncertainty classification. *)
Definition decide_by (cs : list check) (self : RecordFilter.t)
           (record : OccurrenceRecord.t) : FilterResult.t :=
  match List.find (fun c => fails c self record) cs with
  | Some c =>
      {| FilterResult.keep := false;
         FilterResult.reason := Some (reason_code c);
         FilterResult.uncertainty_status :=
           if reports_status c
           then RecordFilter._check_uncertainty self record
           else "known" |}
  | None => FilterResult.kept (RecordFilter._check_uncertainty self record)
  end.

Definition evaluate : RecordFilter.t -> OccurrenceRecord.t -> FilterResult.t :=
  decide_by chain.

End FilterEngine.

(** The deduplication of the fetcher, as the specification has it: of the
    items of a page, in order, those whose key was not seen before, neither
    in [seen] nor earlier on the page. *)
Module Deduplicator.

Fixpoint fresh_records (seen : gset Z) (items : list Json.item_json)
  : list OccurrenceRecord.t :=
  match items with
  | [] => []
  | item :: items =>
      let record := OccurrenceRecord.from_api_response item in
      if bool_decide (OccurrenceRecord.key record ∈ seen)
      then fresh_records seen items
      else record :: fresh_records ({[OccurrenceRecord.key record]} ∪ seen) items
  end.

Definition keys_of (items : list Json.item_json) : list Z :=
  map (fun item => OccurrenceRecord.key (OccurrenceRecord.from_api_response item)) items.

End Deduplicator.


(** ** Concrete inputs *)

Module ExampleConfigs.
Import FilterConfig.

(** [FilterConfig(genus="Nebria")] as given to [__post_init__]. *)
Definition nebria : t :=
  {| genus := Some "Nebria"; species_list := []; family := None;
     year_start := 1800; year_end := None; uncertainty_max := 1000;
     require_year := true; require_elevation := true;
     keep_unknown_uncertainty := true; countries := []; institutions := [];
     basis_of_record := ["PRESERVED_SPECIMEN"]; deduplicate := true |}.

(** [nebria], validated in the year [current_year]. *)
Definition nebria_validated (current_year : Z) : t :=
  {| genus := Some "Nebria"; species_list := []; family := None;
     year_start := 1800; year_end := Some current_year; uncertainty_max := 1000;
     require_year := true; require_elevation := true;
     keep_unknown_uncertainty := true; countries := []; institutions := [];
     basis_of_record := ["PRESERVED_SPECIMEN"]; deduplicate := true |}.

(** [FilterConfig(genus="Nebria", year_start=1900, year_end=2024,
    uncertainty_max=1000, require_year=True, require_elevation=False,
    keep_unknown_uncertainty=True)] *)
Definition scenario : t :=
  {| genus := Some "Nebria"; species_list := []; family := None;
     year_start := 1900; year_end := Some 2024; uncertainty_max := 1000;
     require_year := true; require_elevation := false;
     keep_unknown_uncertainty := true; countries := []; institutions := [];
     basis_of_record := ["PRESERVED_SPECIMEN"]; deduplicate := true |}.

(** [FilterConfig(genus="Nebria", year_start=0)] *)
Definition year_start_zero : t :=
  {| genus := Some "Nebria"; species_list := []; family := None;
     year_start := 0; year_end := None; uncertainty_max := 1000;
     require_year := true; require_elevation := true;
     keep_unknown_uncertainty := true; countries := []; institutions := [];
     basis_of_record := ["PRESERVED_SPECIMEN"]; deduplicate := true |}.

(** [FilterConfig(genus="Nebria", family="Carabidae")] *)
Definition genus_and_family : t :=
  {| genus := Some "Nebria"; species_list := []; family := Some "Carabidae";
     year_start := 1800; year_end := None; uncertainty_max := 1000;
     require_year := true; require_elevation := true;
     keep_unknown_uncertainty := true; countries := []; institutions := [];
     basis_of_record := ["PRESERVED_SPECIMEN"]; deduplicate := true |}.

(** [FilterConfig(genus="Nebria", species_list=["germarii"])], validated in
    the year 2026. *)
Definition germarii_only : t :=
  {| genus := Some "Nebria"; species_list := ["germarii"]; family := None;
     year_start := 1800; year_end := Some 2026; uncertainty_max := 1000;
     require_year := true; require_elevation := true;
     keep_unknown_uncertainty := true; countries := []; institutions := [];
     basis_of_record := ["PRESERVED_SPECIMEN"]; deduplicate := true |}.

(** [FilterConfig(genus="Nebria", deduplicate=False)], validated in the
    year 2026. *)
Definition no_dedup : t :=
  {| genus := Some "Nebria"; species_list := []; family := None;
     year_start := 1800; year_end := Some 2026; uncertainty_max := 1000;
     require_year := true; require_elevation := true;
     keep_unknown_uncertainty := true; countries := []; institutions := [];
     basis_of_record := ["PRESERVED_SPECIMEN"]; deduplicate := false |}.

End ExampleConfigs.

Module ExampleRecords.
Import OccurrenceRecord.

(** The sample record of the tests (46.5 and 11.2 as fractions), with the
    key, the year, the uncertainty, the elevation and the epithet given. *)
Definition sample_with (k : Z) (y : option Z) (unc : option number_field)
           (elev : option pyfloat) (epithet : option string) : t :=
  {| key := k;
     year := y;
     event_date := Some "2020-06-15";
     latitude := Some (Finite (93 # 2));
     longitude := Some (Finite (56 # 5));
     coordinate_uncertainty := unc;
     elevation := elev;
     locality := Some "Alps";
     genus := Some "Nebria";
     species := Some "Nebria germarii";
     scientific_name := Some "Nebria germarii Heer, 1837";
     specific_epithet := epithet;
     institution_code := Some "MZUF";
     catalog_number := Some "123";
     recorded_by := Some "J. Doe";
     country := Some "Italy";
     state_province := Some "Trentino";
     basis_of_record := Some "PRESERVED_SPECIMEN" |}.

Definition metres (n : Z) : option number_field := Some (Number (Finite (inject_Z n))).

Definition sample_record : t :=
  sample_with 12345 (Some 2020) (metres 50) (Some (Finite (inject_Z 1500)))
              (Some "germarii").

(** A record of another species, at the uncertainty limit of 1000 m. *)
Definition alpina_at_limit : t :=
  {| key := 7;
     year := Some 2020;
     event_date := None;
     latitude := Some (Finite (93 # 2));
     longitude := Some (Finite (56 # 5));
     coordinate_uncertainty := metres 1000;
     elevation := Some (Finite (inject_Z 1500));
     locality := None;
     genus := Some "Nebria";
     species := Some "Nebria alpina";
     scientific_name := Some "Nebria alpina";
     specific_epithet := Some "alpina";
     institution_code := None;
     catalog_number := None;
     recorded_by := None;
     country := None;
     state_province := None;
     basis_of_record := None |}.

(** A record with neither year nor elevation. *)
Definition undated : t :=
  sample_with 12345 None (metres 50) None (Some "germarii").

End ExampleRecords.

Module ExampleResponses.
Import World.

Definition no_match_keys : Json.match_json :=
  {| Json.usageKey := None; Json.scientificName := None; Json.canonicalName := None;
     Json.rank := None; Json.status := None; Json.confidence := None;
     Json.matchType := None; Json.kingdom := None; Json.family := None;
     Json.genus := None |}.

Definition no_search_keys : Json.search_json :=
  {| Json.count := None; Json.results := None; Json.endOfRecords := None |}.

(** The object [{"count": n}]. *)
Definition count_body (n : Z) : Json.body :=
  {| Json.as_match := no_match_keys;
     Json.as_search :=
       {| Json.count := Some n; Json.results := None; Json.endOfRecords := None |} |}.

(** The object [{"count": n, "results": items, "endOfRecords": e}]. *)
Definition page_body (n : Z) (items : list Json.item_json) (e : bool) : Json.body :=
  {| Json.as_match := no_match_keys;
     Json.as_search :=
       {| Json.count := Some n; Json.results := Some items;
          Json.endOfRecords := Some e |} |}.

(** The item [{"key": k, "year": y}]. *)
Definition item (k y : Z) : Json.item_json :=
  {| Json.key := Some k; Json.year := Some y; Json.eventDate := None;
     Json.decimalLatitude := None; Json.decimalLongitude := None;
     Json.coordinateUncertaintyInMeters := None; Json.elevation := None;
     Json.locality := None; Json.i_genus := None; Json.species := None;
     Json.i_scientificName := None; Json.specificEpithet := None;
     Json.institutionCode := None; Json.catalogNumber := None;
     Json.recordedBy := None; Json.country := None; Json.stateProvince := None;
     Json.basisOfRecord := None |}.

(** The match of the tests that returns a class for a genus. *)
Definition insecta : Json.body :=
  {| Json.as_match :=
       {| Json.usageKey := Some 216; Json.scientificName := Some "Insecta";
          Json.canonicalName := Some "Insecta"; Json.rank := Some "CLASS";
          Json.status := Some "ACCEPTED"; Json.confidence := Some 100;
          Json.matchType := Some "HIGHERRANK"; Json.kingdom := None;
          Json.family := None; Json.genus := None |};
     Json.as_search := no_search_keys |}.

(** The fuzzy match of the tests: "Nebria" for the request "Nebra". *)
Definition nebria_fuzzy : Json.body :=
  {| Json.as_match :=
       {| Json.usageKey := Some 1035566;
          Json.scientificName := Some "Nebria Latreille, 1802";
          Json.canonicalName := Some "Nebria"; Json.rank := Some "GENUS";
          Json.status := Some "ACCEPTED"; Json.confidence := Some 90;
          Json.matchType := Some "FUZZY"; Json.kingdom := None;
          Json.family := None; Json.genus := None |};
     Json.as_search := no_search_keys |}.

(** A name in capitals that starts with the capital E with an acute accent,
    code point 201, and the same name in small letters, with code point 233. *)
Definition accented_capitals : string := String (ascii_of_nat 201) "COLE".
Definition accented_small : string := String (ascii_of_nat 233) "cole".

(** An exact match of a genus whose canonical name is [accented_small]. *)
Definition accented_match : Json.body :=
  {| Json.as_match :=
       {| Json.usageKey := Some 7; Json.scientificName := Some accented_small;
          Json.canonicalName := Some accented_small; Json.rank := Some "GENUS";
          Json.status := Some "ACCEPTED"; Json.confidence := Some 99;
          Json.matchType := Some "EXACT"; Json.kingdom := None;
          Json.family := None; Json.genus := None |};
     Json.as_search := no_search_keys |}.

(** The object [{"matchType": "NONE"}]. *)
Definition none_match : Json.body :=
  {| Json.as_match :=
       {| Json.usageKey := None; Json.scientificName := None;
          Json.canonicalName := None; Json.rank := None; Json.status := None;
          Json.confidence := None; Json.matchType := Some "NONE";
          Json.kingdom := None; Json.family := None; Json.genus := None |};
     Json.as_search := no_search_keys |}.

(** A session whose successive requests are answered, with status 200, by
    the bodies of a list, whatever is asked; once the list is used up every
    request fails to connect. *)
Definition replay (bodies : list Json.body) : nat -> request -> http_outcome :=
  fun n _ =>
    match nth_error bodies n with
    | Some b => Response 200 b
    | None => ConnectionError "no more responses"
    end.

(** A session that answers the first request, the count, and fails to
    connect on every later one. *)
Definition count_then_down (n : Z) : nat -> request -> http_outcome :=
  replay [count_body n].

(** A session that answers the count, fails to connect on the second
    request and answers the third with a last page of one record. *)
Definition down_then_page : nat -> request -> http_outcome :=
  fun n _ =>
    match n with
    | 0%nat => Response 200 (count_body 1)
    | 2%nat => Response 200 (page_body 1 [item 9 2001] true)
    | _ => ConnectionError "no connection"
    end.

(** [GBIFClient(page_size=2)] *)
Definition client : GBIFClient.t := GBIFClient.__init__ GBIFClient.DEFAULT_TIMEOUT 3 2.

(** [GBIFClient()], with the default page size of 300. *)
Definition default_client : GBIFClient.t :=
  GBIFClient.__init__ GBIFClient.DEFAULT_TIMEOUT 3 GBIFClient.DEFAULT_PAGE_SIZE.

(** The count, a first page of two records that is not the last, and a last
    page of one record: the first page is full for a page size of 2. *)
Definition two_pages : list Json.body :=
  [count_body 3;
   page_body 3 [item 1 2020; item 2 2020] false;
   page_body 3 [item 3 2020] true].

(** The state of a generator after its count request. *)
Definition counted : GBIFClient.gen :=
  {| GBIFClient.count := 0;
     GBIFClient.seen_keys := ∅;
     GBIFClient.world :=
       World.asked
         (GBIFClient.search
            (GBIFClient.count_query 1035566 (BasisStr "PRESERVED_SPECIMEN") true None None))
         World.initial |}.

End ExampleResponses.

(** ** Invariants of the fetch *)

Module Fetch.
Import World GBIFClient.

(** The generator's bookkeeping agrees with what it has yielded: the keys of
    the yielded records are distinct, [seen_keys] holds exactly those keys
    and [count] is their number. *)
Definition consistent (g : gen) : Prop :=
  NoDup (map OccurrenceRecord.key (yielded g))
  /\ (forall k, k ∈ seen_keys g <-> k ∈ map OccurrenceRecord.key (yielded g))
  /\ count g = Z.of_nat (length (yielded g)).

(** A page request of a run over the years from [year_start] up to, not
    including, [year_stop]: the query of one of these years with its offset
    moved up by a multiple of the page size that stays below [MAX_OFFSET]. *)
Definition page_request (self : GBIFClient.t) (taxon_key : Z) (basis_of_record : basis)
           (has_coordinate : bool) (country : option string)
           (year_start year_stop : Z) (req : request) : Prop :=
  exists (year : Z) (k : nat),
    year_start <= year < year_stop
    /\ Z.of_nat k * page_size self < MAX_OFFSET
    /\ req = search (advance (year_query self taxon_key basis_of_record has_coordinate
                                         country year)
                             (Z.of_nat k * page_size self)).

(** The ways a turn of the page loop that is not cancelled can end, with
    the state it leaves: [w] is the world in which the request is made and
    [items] the results of a page. *)
Inductive turn_ends (self : GBIFClient.t) (progress_callback : bool)
          (total_estimate year : Z) (params : search_params) (g : gen) (w : World.t)
  : turn * gen -> Prop :=
| ends_api_error (e : string) :
    turn_ends self progress_callback total_estimate year params g w
      (Break, with_world g (log WARNING (ErrorFetchingYear year (APIError e))
                                (asked (search params) w)))
| ends_rate_limited (msg : string) :
    turn_ends self progress_callback total_estimate year params g w
      (Propagate (RateLimitError msg), with_world g (asked (search params) w))
| ends_no_results :
    turn_ends self progress_callback total_estimate year params g w
      (Break, with_world g (asked (search params) w))
| ends_last_page (items : list Json.item_json) :
    turn_ends self progress_callback total_estimate year params g w
      (Break, fold_left (item_step progress_callback total_estimate year) items
                        (with_world g (asked (search params) w)))
| ends_at_ceiling (items : list Json.item_json) :
    MAX_OFFSET <= Json.get (offset params) 0 + page_size self ->
    turn_ends self progress_callback total_estimate year params g w
      (Break,
       let g' := fold_left (item_step progress_callback total_estimate year) items
                           (with_world g (asked (search params) w)) in
       with_world g' (log WARNING (YearOver100K year) (world g')))
| ends_continue (items : list Json.item_json) :
    Json.get (offset params) 0 + page_size self < MAX_OFFSET ->
    turn_ends self progress_callback total_estimate year params g w
      (Continue (advance params (page_size self)),
       fold_left (item_step progress_callback total_estimate year) items
                 (with_world g (asked (search params) w))).

(** The calls of the progress callback, in order, each with the count and
    the total it is given. *)
Definition progress_reports (g : gen) : list (Z * Z) :=
  omap (fun e => match e with EvProgress current total _ => Some (current, total)
                         | _ => None end)
       (trace (world g)).

(** The progress callback was called once for each record yielded, with the
    counts 1, 2, ... in order and the total estimate; without a callback
    there is no call. *)
Definition reported (progress_callback : bool) (total_estimate : Z) (g : gen) : Prop :=
  count g = Z.of_nat (length (yielded g))
  /\ progress_reports g
     = if progress_callback
       then map (fun i => (Z.of_nat i, total_estimate)) (seq 1 (length (yielded g)))
       else [].

(** [data.get("results", [])] for the body of a page. *)
Definition results_of (data : Json.body) : list Json.item_json :=
  Json.get (Json.results (Json.as_search data)) [].

(** The parameters of the page loop after [i] increments of the offset. *)
Definition nth_page (self : GBIFClient.t) (params : search_params) (i : nat)
  : search_params :=
  Nat.iter i (fun params => advance params (page_size self)) params.

(** A page after which the loop asks for the next one. *)
Definition more_pages (self : GBIFClient.t) (params : search_params) (data : Json.body)
  : Prop :=
  results_of data <> []
  /\ Json.get (Json.endOfRecords (Json.as_search data)) false = false
  /\ page_size self <= Z.of_nat (length (results_of data))
  /\ Json.get (offset params) 0 + page_size self < MAX_OFFSET.

(** A page after which the loop stops. *)
Definition final_page (self : GBIFClient.t) (params : search_params) (data : Json.body)
  : Prop :=
  results_of data = []
  \/ Json.get (Json.endOfRecords (Json.as_search data)) false = true
  \/ Z.of_nat (length (results_of data)) < page_size self
  \/ MAX_OFFSET <= Json.get (offset params) 0 + page_size self.

(** The state in which [RateLimitError] leaves a generator: the request that
    failed is the last event, and it was answered with status 429. *)
Definition rate_limited_at (session_get : nat -> request -> http_outcome)
           (g : gen) (e : exn) : Prop :=
  e = RateLimitError "GBIF rate limit exceeded. Please wait and retry."
  /\ exists (n : nat) (req : request) (json : Json.body),
      requests_made (world g) = S n
      /\ last (trace (world g)) = Some (EvRequest req)
      /\ session_get n req = Response 429 json.

End Fetch.

(** ** The statistics of a filtering pass *)

Module Stats.

(** The statistics dictionary of [filter_records], by the values of its
    thirteen keys. *)
Definition of_counts (total kept duplicate missing_year year_too_old year_too_new
                        missing_elevation uncertainty_exceeded uncertainty_unknown_kept
                        uncertainty_unknown_dropped species_not_matched
                        country_not_matched institution_not_matched : Z)
  : gmap string Z :=
  list_to_map
    [("total", total); ("kept", kept); ("duplicate", duplicate);
     ("missing_year", missing_year); ("year_too_old", year_too_old);
     ("year_too_new", year_too_new); ("missing_elevation", missing_elevation);
     ("uncertainty_exceeded", uncertainty_exceeded);
     ("uncertainty_unknown_kept", uncertainty_unknown_kept);
     ("uncertainty_unknown_dropped", uncertainty_unknown_dropped);
     ("species_not_matched", species_not_matched);
     ("country_not_matched", country_not_matched);
     ("institution_not_matched", institution_not_matched)].

(** The keys [format_filter_stats] lists as exclusion reasons. *)
Definition exclusion_keys : list string :=
  ["duplicate"; "missing_year"; "year_too_old"; "year_too_new"; "missing_elevation";
   "uncertainty_exceeded"; "uncertainty_unknown_dropped"; "species_not_matched";
   "country_not_matched"; "institution_not_matched"].

(** [stats.get(key, 0)] *)
Definition get (stats : gmap string Z) (key : string) : Z := default 0 (stats !! key).

(** The number of exclusions [format_filter_stats] reports, all reasons
    together. *)
Definition excluded (stats : gmap string Z) : Z :=
  foldr Z.add 0 (map (get stats) exclusion_keys).

(** What [filter_records] does to the statistics for a record that is
    dropped for [reason], after counting it in the total. *)
Definition drop (reason : string) (stats : gmap string Z) : gmap string Z :=
  let reason := if truthy_str reason then reason else "other" in
  let stats :=
    if bool_decide (is_Some (stats !! reason)) then filters.incr reason stats else stats in
  if String.eqb reason "uncertainty_unknown"
  then filters.incr "uncertainty_unknown_dropped" stats else stats.

(** And for a record that is kept with the uncertainty status [status]. *)
Definition keep (status : string) (stats : gmap string Z) : gmap string Z :=
  let stats := filters.incr "kept" stats in
  if String.eqb status "unknown"
  then filters.incr "uncertainty_unknown_kept" stats else stats.

(** The statistics add up for [n] records of which [m] were kept: the
    total is [n], the kept are [m], every record that is not kept is counted
    under exactly one exclusion key, and the records kept with unknown
    uncertainty are among the kept. *)
Definition balanced (n m : Z) (stats : gmap string Z) : Prop :=
  exists duplicate missing_year year_too_old year_too_new missing_elevation
         uncertainty_exceeded uncertainty_unknown_kept uncertainty_unknown_dropped
         species_not_matched country_not_matched institution_not_matched,
    stats = of_counts n m duplicate missing_year year_too_old year_too_new
                      missing_elevation uncertainty_exceeded uncertainty_unknown_kept
                      uncertainty_unknown_dropped species_not_matched
                      country_not_matched institution_not_matched
    /\ n = m + duplicate + missing_year + year_too_old + year_too_new
           + missing_elevation + uncertainty_exceeded + uncertainty_unknown_dropped
           + species_not_matched + country_not_matched + institution_not_matched
    /\ 0 <= duplicate /\ 0 <= missing_year /\ 0 <= year_too_old /\ 0 <= year_too_new
    /\ 0 <= missing_elevation /\ 0 <= uncertainty_exceeded
    /\ 0 <= uncertainty_unknown_dropped /\ 0 <= species_not_matched
    /\ 0 <= country_not_matched /\ 0 <= institution_not_matched
    /\ 0 <= uncertainty_unknown_kept <= m.

End Stats.

(** ** What a filtering pass keeps *)

Module Kept.

(** The filter of a configuration that has seen the keys [seen]. *)
Definition filter_at (config : FilterConfig.t) (seen : gset Z) : RecordFilter.t :=
  {| RecordFilter.config := config;
     RecordFilter._seen_keys := seen;
     RecordFilter._species_set := list_to_set (FilterConfig.species_list config) |}.

(** A record meets every criterion of a configuration other than
    deduplication. *)
Definition meets (config : FilterConfig.t) (record : OccurrenceRecord.t) : bool :=
  FilterEngine.passes FilterEngine.criteria (RecordFilter.__init__ config) record.

(** The keys a filter has seen after a record. *)
Definition seen_after (config : FilterConfig.t) (seen : gset Z)
           (record : OccurrenceRecord.t) : gset Z :=
  if FilterConfig.deduplicate config
  then {[OccurrenceRecord.key record]} ∪ seen else seen.

(** A record comes as a duplicate to a filter that has seen [seen]. *)
Definition duplicate (config : FilterConfig.t) (seen : gset Z)
           (record : OccurrenceRecord.t) : bool :=
  FilterConfig.deduplicate config && bool_decide (OccurrenceRecord.key record ∈ seen).

(** The records of a list a filter that has seen [seen] keeps. *)
Fixpoint keep_from (config : FilterConfig.t) (seen : gset Z)
         (records : list OccurrenceRecord.t) : list OccurrenceRecord.t :=
  match records with
  | [] => []
  | record :: records =>
      if duplicate config seen record then keep_from config seen records
      else if meets config record
           then record :: keep_from config (seen_after config seen record) records
           else keep_from config (seen_after config seen record) records
  end.

(** The keys it has seen after them. *)
Definition seen_after_all (config : FilterConfig.t) (seen : gset Z)
           (records : list OccurrenceRecord.t) : gset Z :=
  fold_left (seen_after config) records seen.

End Kept.

(** ** cli.py: the download loop of [run_download] *)

Module cli.

(** [{"total": t, "kept": k, "filtered": f}] *)
Definition stats_of (total kept filtered : Z) : gmap string Z :=
  list_to_map [("total", total); ("kept", kept); ("filtered", filtered)].

(** The body of the loop of [run_download] over the records the generator
    yields. *)
Definition download_step
           (st : RecordFilter.t * list OccurrenceRecord.t * gmap string Z)
           (record : OccurrenceRecord.t)
  : RecordFilter.t * list OccurrenceRecord.t * gmap string Z :=
  let '(record_filter, filtered_records, stats) := st in
  let stats := filters.incr "total" stats in
  let '(result, record_filter) := RecordFilter.apply record_filter record in
  if FilterResult.keep result then
    ((record_filter, (filtered_records ++ [record])%list), filters.incr "kept" stats)
  else
    ((record_filter, filtered_records), filters.incr "filtered" stats).

(** The loop, over the records of a finished generator: the filter as it is
    left, the records kept and the statistics. *)
Definition download_loop (records : list OccurrenceRecord.t) (filter_config : FilterConfig.t)
  : RecordFilter.t * list OccurrenceRecord.t * gmap string Z :=
  fold_left download_step records
            (RecordFilter.__init__ filter_config, [], stats_of 0 0 0).

End cli.


(** ** utils.py: file names *)

Module Filenames.

(** The characters of [unsafe_chars]: less-than, greater-than, colon, double
    quote, slash, backslash, vertical bar, question mark and asterisk. *)
Definition unsafe_chars : list ascii :=
  ["<"%char; ">"%char; ":"%char; ascii_of_nat 34; "/"%char; ascii_of_nat 92;
   "|"%char; "?"%char; "*"%char].

(** [s.replace(old, new)] for one-character [old] and [new]. *)
Definition replace (old new : ascii) (s : string) : string :=
  map_str (fun c => if Ascii.eqb c old then new else c) s.

(** [s.lstrip(chars)], [s.rstrip(chars)] and [s.strip(chars)], with the
    characters to remove given by a test. *)
Fixpoint lstrip_chars (p : ascii -> bool) (s : string) : string :=
  match s with
  | EmptyString => EmptyString
  | String c s' => if p c then lstrip_chars p s' else s
  end.

Fixpoint rstrip_chars (p : ascii -> bool) (s : string) : string :=
  match s with
  | EmptyString => EmptyString
  | String c s' =>
      match rstrip_chars p s' with
      | EmptyString => if p c then EmptyString else String c EmptyString
      | r => String c r
      end
  end.

Definition strip_chars (p : ascii -> bool) (s : string) : string :=
  rstrip_chars p (lstrip_chars p s).

Definition is_dot (c : ascii) : bool := Ascii.eqb c "."%char.

(** [s[:n]], also for a negative [n]. *)
Definition slice_to (n : Z) (s : string) : string :=
  let stop := if 0 <=? n then n else Z.max 0 (Z.of_nat (String.length s) + n) in
  String.substring 0 (Z.to_nat stop) s.

Definition sanitize_filename (name : string) (max_length : Z) : string :=
  (* Replace unsafe characters *)
  let name := fold_left (fun name char => replace char "_"%char name) unsafe_chars name in
  (* Remove leading/trailing whitespace and dots *)
  let name := strip_chars is_dot (strip name) in
  (* Truncate if too long *)
  let name :=
    if Z.of_nat (String.length name) >? max_length then slice_to max_length name
    else name in
  if truthy_str name then name else "unnamed".

(** Every character of a string passes a test. *)
Fixpoint all_chars (p : ascii -> bool) (s : string) : bool :=
  match s with
  | EmptyString => true
  | String c s' => p c && all_chars p s'
  end.

Definition is_safe (c : ascii) : bool := negb (existsb (Ascii.eqb c) unsafe_chars).

(** The first and the last character of a string, if any. *)
Definition first_char (s : string) : option ascii :=
  match s with EmptyString => None | String c _ => Some c end.

Fixpoint last_char (s : string) : option ascii :=
  match s with
  | EmptyString => None
  | String c EmptyString => Some c
  | String _ s' => last_char s'
  end.

End Filenames.

(** ** utils.py: retrying *)

Module Retry.

Section Wrapper.

(** The type of the results of the decorated function, of the exceptions
    it raises and of the delays (Python floats, of which only the
    multiplication is used). *)
Variables A E F : Type.
(** [isinstance(e, exceptions)] *)
Variable catches : E -> bool.
(** [delay * backoff_factor] *)
Variable fmul : F -> F -> F.
(** [sleep(delay)] returns; it raises, a [ValueError] for a negative delay,
    where this is [false]. *)
Variable sleeps : F -> bool.
(** The decorated function with its arguments: what its call does, by the
    number of calls made before. *)
Variable func : nat -> A + E.

(** How a call of the wrapper ends: by the [return] or an exception of the
    function, by the exception of [sleep(delay)], which is raised in the
    [except] block and leaves the wrapper, or by the [RuntimeError] of the
    last line. *)
Inductive outcome : Type :=
| Returns (a : A)
| Raises (e : E)
| SleepRaises (delay : F)
| RaisesRuntimeError.

(** What a call of the wrapper does, in order: the calls of the function,
    the log lines and the calls of [sleep]. *)
Inductive event : Type :=
| Call
| LogWarning (attempt : Z) (e : E) (delay : F)
| LogError (attempts : Z) (e : E)
| Sleep (delay : F).

(** The [for attempt in range(max_retries + 1)] loop over the attempts that
    remain, with the calls made so far and the current delay. *)
Fixpoint attempts (max_retries : Z) (backoff_factor : F) (todo : list Z)
         (calls : nat) (delay : F) : outcome * list event :=
  match todo with
  | [] =>
      (* This should never be reached, but just in case *)
      (RaisesRuntimeError, [])
  | attempt :: todo =>
      match func calls with
      | inl a => (Returns a, [Call])
      | inr e =>
          if catches e then
            if attempt =? max_retries then
              (Raises e, [Call; LogError (max_retries + 1) e])
            else if sleeps delay then
              let '(o, events) :=
                attempts max_retries backoff_factor todo (S calls)
                         (fmul delay backoff_factor) in
              (o, Call :: LogWarning (attempt + 1) e delay :: Sleep delay :: events)
            else
              (SleepRaises delay, [Call; LogWarning (attempt + 1) e delay; Sleep delay])
          else (Raises e, [Call])
      end
  end.

(** The wrapper [retry_with_backoff(max_retries, initial_delay,
    backoff_factor, exceptions)(func)] returns. *)
Definition wrapper (max_retries : Z) (initial_delay backoff_factor : F)
  : outcome * list event :=
  attempts max_retries backoff_factor (range 0 (max_retries + 1)) 0 initial_delay.

(** The calls of the function and the delays [sleep] was called with. *)
Definition calls_of (events : list event) : nat :=
  length (omap (fun e => match e with Call => Some tt | _ => None end) events).

Definition sleeps_of (events : list event) : list F :=
  omap (fun e => match e with Sleep d => Some d | _ => None end) events.

(** The delays [initial_delay * backoff_factor ** i] for [i < n], as the
    loop computes them. *)
Fixpoint delays (backoff_factor : F) (n : nat) (delay : F) : list F :=
  match n with
  | O => []
  | S n => delay :: delays backoff_factor n (fmul delay backoff_factor)
  end.

(** The delay after [n] multiplications, [initial_delay * backoff_factor ** n]. *)
Fixpoint delay_at (backoff_factor : F) (n : nat) (delay : F) : F :=
  match n with
  | O => delay
  | S n => delay_at backoff_factor n (fmul delay backoff_factor)
  end.

End Wrapper.

Arguments Returns {A E F} a.
Arguments Raises {A E F} e.
Arguments SleepRaises {A E F} delay.
Arguments RaisesRuntimeError {A E F}.
Arguments Call {E F}.
Arguments LogWarning {E F} attempt e delay.
Arguments LogError {E F} attempts e.
Arguments Sleep {E F} delay.
Arguments attempts {A E F} catches fmul sleeps func max_retries backoff_factor todo calls delay.
Arguments wrapper {A E F} catches fmul sleeps func max_retries initial_delay backoff_factor.
Arguments calls_of {E F} events.
Arguments sleeps_of {E F} events.
Arguments delays {F} fmul backoff_factor n delay.
Arguments delay_at {F} fmul backoff_factor n delay.

End Retry.

Module RetryExamples.

(** A function that fails to connect twice and then returns 42. *)
Definition flaky : nat -> Z + string :=
  fun calls =>
    match calls with
    | 0%nat | 1%nat => inr "ConnectionError"
    | _ => inl 42
    end.

(** [exceptions=(Exception,)]: every exception is caught. *)
Definition any_exception : string -> bool := fun _ => true.

(** [time.sleep] accepts the delays that are not negative. *)
Definition not_negative : Q -> bool := Qle_bool 0.

(** [retry_with_backoff()(flaky)()], with the default three retries, initial
    delay 1.0 and backoff factor 2.0. *)
Definition flaky_with_retries : Retry.outcome Z string Q * list (Retry.event string Q) :=
  Retry.wrapper any_exception Qmult not_negative flaky 3 1%Q 2%Q.

(** [retry_with_backoff(initial_delay=-1.0)(flaky)()]: the first failure is
    followed by a sleep that raises. *)
Definition flaky_with_negative_delay
  : Retry.outcome Z string Q * list (Retry.event string Q) :=
  Retry.wrapper any_exception Qmult not_negative flaky 3 (-1)%Q 2%Q.

End RetryExamples.

(** ** api.py: the single query *)

Module SingleQuery.
Import World GBIFClient.

(** The lines [iter_occurrences] logs and the calls of its progress
    callback, by their content:
    - [Found]: "Found {total:,} total occurrences"
    - [Progress]: [progress_callback(count, total)]
    - [OffsetLimit]: "Reached GBIF offset limit (100,000). Consider using
      iter_occurrences_by_year for complete data." *)
Inductive note : Type :=
| Found (total : Z)
| Progress (count total : Z)
| OffsetLimit.

(** The local variables of the generator, the world with its requests and
    yields, and its notes. *)
Record gen : Type := {
  total : option Z;
  count : Z;
  world : World.t;
  notes : list note
}.

(** The [params] dictionary [iter_occurrences] starts with. *)
Definition single_query (self : GBIFClient.t) (taxon_key : Z) (basis_of_record : basis)
           (has_coordinate : bool) (year : option Z) (country : option string)
  : search_params :=
  {| taxonKey := taxon_key;
     hasCoordinate := str_lower_bool has_coordinate;
     limit := page_size self;
     offset := Some 0;
     World.year := if truthy_opt_int year then year else None;
     basisOfRecord := if truthy_basis basis_of_record then Some basis_of_record else None;
     World.country := if truthy_opt_str country then country else None |}.

Definition yielded (g : gen) : list OccurrenceRecord.t := yields_of (trace (world g)).
Definition requested (g : gen) : list request := requests_of (trace (world g)).

Section Generator.

Variable session_get : nat -> request -> http_outcome.
Variable self : GBIFClient.t.
Variable progress_callback : bool.

(** The body of [for item in results]. *)
Definition item_step (g : gen) (item : Json.item_json) : gen :=
  let w := emit (EvYield (OccurrenceRecord.from_api_response item)) (world g) in
  let count := count g + 1 in
  {| total := total g;
     count := count;
     world := w;
     notes := if progress_callback
              then (notes g ++ [Progress count (Json.get (total g) 0)])%list
              else notes g |}.

(** One turn of the [while True] loop. *)
Definition page_turn (params : search_params) (g : gen) : turn * gen :=
  let '(r, w) :=
    _make_request session_get self OCCURRENCE_SEARCH_ENDPOINT (SearchParams params)
                  (world g) in
  match r with
  | Raise e =>
      (Propagate e,
       {| total := total g; count := count g; world := w; notes := notes g |})
  | Ok data =>
      let g :=
        match total g with
        | None =>
            let total := Json.get (Json.count (Json.as_search data)) 0 in
            {| total := Some total; count := count g; world := w;
               notes := (notes g ++ [Found total])%list |}
        | Some _ =>
            {| total := total g; count := count g; world := w; notes := notes g |}
        end in
      let results := Json.get (Json.results (Json.as_search data)) [] in
      if negb (truthy_list results) then (Break, g)
      else
        let g := fold_left item_step results g in
        (* Check if we've reached the end or hit the offset limit *)
        if Json.get (Json.endOfRecords (Json.as_search data)) false then (Break, g)
        else
          let params := advance params (page_size self) in
          if Json.get (offset params) 0 >=? MAX_OFFSET
          then (Break,
                {| total := total g; count := count g; world := world g;
                   notes := (notes g ++ [OffsetLimit])%list |})
          else (Continue params, g)
  end.

Fixpoint page_loop (fuel : nat) (params : search_params) (g : gen)
  : option (result unit * gen) :=
  match fuel with
  | O => None
  | S fuel =>
      match page_turn params g with
      | (Break, g) => Some (Ok (), g)
      | (Propagate e, g) => Some (Raise e, g)
      | (Continue params, g) => page_loop fuel params g
      end
  end.

(** [iter_occurrences], consumed to its end; [fuel] bounds the turns of its
    loop. *)
Definition iter_occurrences (fuel : nat) (taxon_key : Z) (basis_of_record : basis)
           (has_coordinate : bool) (year : option Z) (country : option string)
           (w : World.t) : option (result unit * gen) :=
  page_loop fuel
            (single_query self taxon_key basis_of_record has_coordinate year country)
            {| total := None; count := 0; world := w; notes := [] |}.

End Generator.

(** A page after which the loop asks for the next one, and a page after
    which it stops. *)
Definition more_pages (self : GBIFClient.t) (params : search_params) (data : Json.body)
  : Prop :=
  Fetch.results_of data <> []
  /\ Json.get (Json.endOfRecords (Json.as_search data)) false = false
  /\ Json.get (offset params) 0 + page_size self < MAX_OFFSET.

Definition final_page (self : GBIFClient.t) (params : search_params) (data : Json.body)
  : Prop :=
  Fetch.results_of data = []
  \/ Json.get (Json.endOfRecords (Json.as_search data)) false = true
  \/ MAX_OFFSET <= Json.get (offset params) 0 + page_size self.

End SingleQuery.

(** ** exporters/geojson.py: the features *)

Module GeoJSONExporter.

Section Features.

(** The type of the properties of a feature and [_get_properties]. *)
Variable properties_of : Type.
Variable _get_properties : OccurrenceRecord.t -> properties_of.

(** A feature: [{"type": "Feature", "id": ..., "geometry": {"type": "Point",
    "coordinates": [longitude, latitude]}, "properties": ...}]. *)
Record feature : Type := {
  id : string;
  coordinates : pyfloat * pyfloat;
  properties : properties_of
}.

(** The body of the loop over the records: the features so far and the
    number of records skipped. *)
Definition feature_step (st : list feature * Z) (record : OccurrenceRecord.t)
  : list feature * Z :=
  let '(features, skipped) := st in
  (* Skip records without coordinates *)
  match OccurrenceRecord.latitude record, OccurrenceRecord.longitude record with
  | Some latitude, Some longitude =>
      ((features
        ++ [{| id := pretty (OccurrenceRecord.key record);
               coordinates := (longitude, latitude);
               properties := _get_properties record |}])%list,
       skipped)
  | _, _ => (features, skipped + 1)
  end.

(** [_create_feature_collection_manual]: the features and the number of
    records skipped. *)
Definition _create_feature_collection_manual (records : list OccurrenceRecord.t)
  : list feature * Z :=
  fold_left feature_step records ([], 0).

End Features.

Arguments id {properties_of} f.
Arguments coordinates {properties_of} f.
Arguments properties {properties_of} f.
Arguments feature_step {properties_of} _get_properties st record.
Arguments _create_feature_collection_manual {properties_of} _get_properties records.

(** A feature is the feature of a record: its id is the key of the record
    as a string, its coordinates are the longitude and the latitude of the
    record, in this order, and its properties are those of the record. *)
Definition feature_of {properties_of : Type}
           (_get_properties : OccurrenceRecord.t -> properties_of)
           (f : feature properties_of) (record : OccurrenceRecord.t) : Prop :=
  id f = pretty (OccurrenceRecord.key record)
  /\ OccurrenceRecord.longitude record = Some (fst (coordinates f))
  /\ OccurrenceRecord.latitude record = Some (snd (coordinates f))
  /\ properties f = _get_properties record.

(** A record has both coordinates. *)
Definition georeferenced (record : OccurrenceRecord.t) : bool :=
  match OccurrenceRecord.latitude record, OccurrenceRecord.longitude record with
  | Some _, Some _ => true
  | _, _ => false
  end.

End GeoJSONExporter.

(** ** filters.py: configurations as dictionaries *)

Module ConfigDict.
Import FilterConfig.

(** The configuration [__post_init__] leaves when it returns, given the
    fields it was entered with and the last year it settled on. *)
Definition validated (self : FilterConfig.t) (year_end' : Z) : FilterConfig.t :=
  {| genus := genus self;
     species_list := utils.clean_string_list (utils.ItemsList (species_list self));
     family := family self;
     year_start := year_start self;
     year_end := Some year_end';
     uncertainty_max := uncertainty_max self;
     require_year := require_year self;
     require_elevation := require_elevation self;
     keep_unknown_uncertainty := keep_unknown_uncertainty self;
     countries := map upper (utils.clean_string_list (utils.ItemsList (countries self)));
     institutions := utils.clean_string_list (utils.ItemsList (institutions self));
     basis_of_record := basis_of_record self;
     deduplicate := deduplicate self |}.

(** The dictionaries [from_dict] reads and [to_dict] writes, seen through
    the keys [from_dict] looks up, with values of the types the dataclass
    declares. A field is [None] when [dict.get] without default gives [None]
    (the key is absent, or its value is [None]); for the keys that
    [from_dict] reads with a default, [None] is an absent key. *)
Record taxonomy_dict : Type := {
  t_genus : option string;
  t_species : option (list string);
  t_family : option string
}.

Record filters_dict : Type := {
  f_year_start : option Z;
  f_year_end : option Z;
  f_uncertainty_max : option Z;
  f_require_year : option bool;
  f_require_elevation : option bool;
  f_keep_unknown_uncertainty : option bool;
  f_countries : option (list string);
  f_institutions : option (list string);
  f_basis_of_record : option (list string);
  f_deduplicate : option bool
}.

(** The whole dictionary: the nested sections, when present, and the keys
    of the flat layout at the top level. *)
Record data : Type := {
  taxonomy : option taxonomy_dict;
  filters : option filters_dict;
  d_genus : option string;
  d_species_list : option (list string);
  d_family : option string;
  flat : filters_dict
}.

Definition no_taxonomy : taxonomy_dict :=
  {| t_genus := None; t_species := None; t_family := None |}.

Definition no_filters : filters_dict :=
  {| f_year_start := None; f_year_end := None; f_uncertainty_max := None;
     f_require_year := None; f_require_elevation := None;
     f_keep_unknown_uncertainty := None; f_countries := None;
     f_institutions := None; f_basis_of_record := None; f_deduplicate := None |}.

(** [a or b] for optional strings and for optional lists. *)
Definition or_str (a b : option string) : option string :=
  if truthy_opt_str a then a else b.

Definition or_list (a : option (list string)) (b : list string) : list string :=
  match a with
  | Some (x :: l) => x :: l
  | _ => b
  end.

(** [FilterConfig.from_dict]: the arguments it passes to the constructor,
    then [__post_init__]. *)
Definition from_dict (current_year : Z) (d : data) : result FilterConfig.t :=
  (* Handle nested taxonomy section *)
  let taxonomy := Json.get (taxonomy d) no_taxonomy in
  let filters := Json.get (filters d) (flat d) in  (* Support flat or nested *)
  __post_init__ current_year
    {| genus := or_str (t_genus taxonomy) (d_genus d);
       species_list := or_list (t_species taxonomy) (Json.get (d_species_list d) []);
       family := or_str (t_family taxonomy) (d_family d);
       year_start := Json.get (f_year_start filters) 1800;
       year_end := f_year_end filters;
       uncertainty_max := Json.get (f_uncertainty_max filters) 1000;
       require_year := Json.get (f_require_year filters) true;
       require_elevation := Json.get (f_require_elevation filters) true;
       keep_unknown_uncertainty := Json.get (f_keep_unknown_uncertainty filters) true;
       countries := Json.get (f_countries filters) [];
       institutions := Json.get (f_institutions filters) [];
       basis_of_record := Json.get (f_basis_of_record filters) ["PRESERVED_SPECIMEN"];
       deduplicate := Json.get (f_deduplicate filters) true |}.

(** [FilterConfig.to_dict] *)
Definition to_dict (self : FilterConfig.t) : data :=
  {| taxonomy :=
       Some {| t_genus := genus self;
               t_species := Some (species_list self);
               t_family := family self |};
     filters :=
       Some {| f_year_start := Some (year_start self);
               f_year_end := year_end self;
               f_uncertainty_max := Some (uncertainty_max self);
               f_require_year := Some (require_year self);
               f_require_elevation := Some (require_elevation self);
               f_keep_unknown_uncertainty := Some (keep_unknown_uncertainty self);
               f_countries := Some (countries self);
               f_institutions := Some (institutions self);
               f_basis_of_record := Some (basis_of_record self);
               f_deduplicate := Some (deduplicate self) |};
     d_genus := None;
     d_species_list := None;
     d_family := None;
     flat := no_filters |}.

End ConfigDict.

(** ** api.py: a record as a row of the export *)

Module RecordRow.
Import OccurrenceRecord.

(** The values of the dictionary [to_dict] returns, by the type of the
    field they come from. *)
Inductive cell : Type :=
| IntCell (v : option Z)
| StrCell (v : option string)
| FloatCell (v : option pyfloat)
| NumberCell (v : option number_field).

(** [gbif_url] *)
Definition gbif_url (self : t) : string :=
  "https://www.gbif.org/occurrence/" +:+ pretty (key self).

(** [to_dict]: the keys with their values, in the order of the dictionary. *)
Definition to_dict (self : t) : list (string * cell) :=
  [("Year", IntCell (year self));
   ("Date", StrCell (event_date self));
   ("Latitude", FloatCell (latitude self));
   ("Longitude", FloatCell (longitude self));
   ("Uncertainty (m)", NumberCell (coordinate_uncertainty self));
   ("Elevation (m)", FloatCell (elevation self));
   ("Locality", StrCell (locality self));
   ("Genus", StrCell (genus self));
   ("Species", StrCell (species self));
   ("Scientific Name", StrCell (scientific_name self));
   ("Institution", StrCell (institution_code self));
   ("Catalog No", StrCell (catalog_number self));
   ("Recorded By", StrCell (recorded_by self));
   ("Country", StrCell (country self));
   ("State/Province", StrCell (state_province self));
   ("Link", StrCell (Some (gbif_url self)))].

(** The record with its specific epithet and its basis of record replaced. *)
Definition with_unexported (epithet basis : option string) (self : t) : t :=
  {| key := key self; year := year self; event_date := event_date self;
     latitude := latitude self; longitude := longitude self;
     coordinate_uncertainty := coordinate_uncertainty self;
     elevation := elevation self; locality := locality self; genus := genus self;
     species := species self; scientific_name := scientific_name self;
     specific_epithet := epithet;
     institution_code := institution_code self;
     catalog_number := catalog_number self; recorded_by := recorded_by self;
     country := country self; state_province := state_province self;
     basis_of_record := basis |}.

End RecordRow.

(** ** Concrete runs *)

Module FetchExamples.
Import World ExampleResponses.

(** A server that answers the count and then every request with status
    429. *)
Definition rate_limited_after_count : nat -> request -> http_outcome :=
  fun n _ =>
    match n with
    | 0%nat => Response 200 (count_body 5)
    | _ => Response 429 (count_body 0)
    end.

(** A server that answers every request with the same page of one record,
    never marked as the last. *)
Definition endless : nat -> request -> http_outcome :=
  fun _ _ => Response 200 (page_body 1 [item 1 2020] false).

(** [GBIFClient(page_size=0)] *)
Definition client_zero : GBIFClient.t := GBIFClient.__init__ GBIFClient.DEFAULT_TIMEOUT 3 0.

(** The count and two pages that share the record of key 2. *)
Definition overlapping : list Json.body :=
  [count_body 3;
   page_body 3 [item 1 2020; item 2 2020] false;
   page_body 3 [item 2 2020; item 3 2020] true].

(** The item [{"year": y}], without a key. *)
Definition keyless (y : Z) : Json.item_json :=
  {| Json.key := None; Json.year := Some y; Json.eventDate := None;
     Json.decimalLatitude := None; Json.decimalLongitude := None;
     Json.coordinateUncertaintyInMeters := None; Json.elevation := None;
     Json.locality := None; Json.i_genus := None; Json.species := None;
     Json.i_scientificName := None; Json.specificEpithet := None;
     Json.institutionCode := None; Json.catalogNumber := None;
     Json.recordedBy := None; Json.country := None; Json.stateProvince := None;
     Json.basisOfRecord := None |}.

(** Two pages of a single query: the first repeats a record, the second is
    marked as the last. *)
Definition repeating_pages : list Json.body :=
  [page_body 3 [item 1 2020; item 1 2020] false;
   page_body 3 [item 3 2020] true].

(** The state [iter_occurrences] starts in. *)
Definition single_start : SingleQuery.gen :=
  {| SingleQuery.total := None; SingleQuery.count := 0;
     SingleQuery.world := World.initial; SingleQuery.notes := [] |}.

(** A stop check that asks to stop from the first time it is asked. *)
Definition stop_now : nat -> bool := fun _ => true.

(** The run of the year 2020 for the taxon 1035566 with the defaults of
    [iter_occurrences_by_year], against a server and with a client. *)
Definition run_2020 (session_get : nat -> request -> http_outcome) (self : GBIFClient.t)
           (stop_check : option (nat -> bool)) (fuel : nat)
  : option (result unit * GBIFClient.gen) :=
  GBIFClient.iter_occurrences_by_year
    session_get 2026 fuel self 1035566 2020 (Some 2020)
    (BasisStr "PRESERVED_SPECIMEN") true None false stop_check World.initial.

End FetchExamples.

(** * Properties *)

(** ** The filter chain *)

Section FilterChain.

Implicit Types (self : RecordFilter.t) (record : OccurrenceRecord.t).
Implicit Types (c : FilterEngine.check) (cs : list FilterEngine.check).

Lemma mark_seen_config self record :
  RecordFilter.config (FilterEngine.mark_seen self record) = RecordFilter.config self.
Proof. unfold FilterEngine.mark_seen. by destruct (FilterConfig.deduplicate _). Qed.

Lemma mark_seen_species_set self record :
  RecordFilter._species_set (FilterEngine.mark_seen self record)
  = RecordFilter._species_set self.
Proof. unfold FilterEngine.mark_seen. by destruct (FilterConfig.deduplicate _). Qed.

Lemma check_uncertainty_mark_seen self record r :
  RecordFilter._check_uncertainty (FilterEngine.mark_seen self record) r
  = RecordFilter._check_uncertainty self r.
Proof. unfold RecordFilter._check_uncertainty. by rewrite mark_seen_config. Qed.

Lemma matches_species_mark_seen self record r :
  RecordFilter._matches_species (FilterEngine.mark_seen self record) r
  = RecordFilter._matches_species self r.
Proof. unfold RecordFilter._matches_species. by rewrite mark_seen_species_set. Qed.

(** With deduplication enabled the key is in the set once the record went
    past the first step. *)
Lemma mark_seen_key self record :
  FilterConfig.deduplicate (RecordFilter.config self) = true ->
  OccurrenceRecord.key record ∈ RecordFilter._seen_keys (FilterEngine.mark_seen self record).
Proof.
  intros Hd. unfold FilterEngine.mark_seen. rewrite Hd. cbn. set_solver.
Qed.

Lemma mark_seen_off self record :
  FilterConfig.deduplicate (RecordFilter.config self) = false ->
  FilterEngine.mark_seen self record = self.
Proof. intros Hd. unfold FilterEngine.mark_seen. by rewrite Hd. Qed.

(** [apply] computes what the ordered chain prescribes. *)
Lemma apply_evaluate self record :
  fst (RecordFilter.apply self record) = FilterEngine.evaluate self record.
Proof.
  unfold RecordFilter.apply, FilterEngine.evaluate, FilterEngine.decide_by,
    FilterEngine.chain, FilterEngine.criteria.
  fold (FilterEngine.mark_seen self record).
  rewrite !check_uncertainty_mark_seen, matches_species_mark_seen,
    mark_seen_species_set.
  cbn [FilterEngine.before_uncertainty FilterEngine.uncertainty_checks
       FilterEngine.later_checks app List.find FilterEngine.fails
       FilterEngine.deduplication FilterEngine.required_year
       FilterEngine.year_range_low FilterEngine.year_range_high
       FilterEngine.required_elevation FilterEngine.uncertainty_exceeded
       FilterEngine.uncertainty_unknown FilterEngine.species
       FilterEngine.country FilterEngine.institution
       FilterEngine.reports_status FilterEngine.reason_code].
  repeat (match goal with
          | |- context [if ?b then _ else _] =>
              lazymatch b with
              | context [if _ then _ else _] => fail
              | _ => destruct b eqn:?; cbn [fst]; try reflexivity
              end
          end).
Qed.

(** The instance [apply] leaves behind: unchanged on a duplicate, with the
    key recorded otherwise, whatever the later checks decide. *)
Lemma apply_state self record :
  snd (RecordFilter.apply self record)
  = if FilterEngine.fails FilterEngine.deduplication self record
    then self else FilterEngine.mark_seen self record.
Proof.
  unfold RecordFilter.apply. fold (FilterEngine.mark_seen self record).
  cbn [FilterEngine.fails FilterEngine.deduplication].
  by destruct (_ && _).
Qed.

(** No criterion other than deduplication looks at the seen keys. *)
Lemma criteria_mark_seen self record r c :
  In c FilterEngine.criteria ->
  FilterEngine.fails c (FilterEngine.mark_seen self record) r
  = FilterEngine.fails c self r.
Proof.
  unfold FilterEngine.criteria, FilterEngine.before_uncertainty,
    FilterEngine.uncertainty_checks, FilterEngine.later_checks.
  cbn [app In].
  intros H; repeat (destruct H as [<-|H]); try contradiction;
    cbn [FilterEngine.fails FilterEngine.required_year
         FilterEngine.year_range_low FilterEngine.year_range_high
         FilterEngine.required_elevation FilterEngine.uncertainty_exceeded
         FilterEngine.uncertainty_unknown FilterEngine.species
         FilterEngine.country FilterEngine.institution];
    rewrite ?check_uncertainty_mark_seen, ?matches_species_mark_seen,
      ?mark_seen_species_set, ?mark_seen_config; reflexivity.
Qed.

Lemma passes_criteria_mark_seen self record r :
  FilterEngine.passes FilterEngine.criteria (FilterEngine.mark_seen self record) r
  = FilterEngine.passes FilterEngine.criteria self r.
Proof.
  unfold FilterEngine.passes.
  assert (Hall : forall c, In c FilterEngine.criteria ->
                   FilterEngine.fails c (FilterEngine.mark_seen self record) r
                   = FilterEngine.fails c self r)
    by (intros; by apply criteria_mark_seen).
  induction FilterEngine.criteria as [|c cs IH]; [done|].
  cbn [forallb]. rewrite Hall by (left; reflexivity).
  f_equal. apply IH. intros c' Hc'. apply Hall. by right.
Qed.

Lemma passes_find_none cs self record :
  FilterEngine.passes cs self record = true ->
  List.find (fun c => FilterEngine.fails c self record) cs = None.
Proof.
  unfold FilterEngine.passes.
  induction cs as [|c cs IH]; [done|].
  cbn [forallb List.find]. intros [Hc Hcs]%andb_prop.
  apply negb_true_iff in Hc. rewrite Hc. auto.
Qed.

Lemma passes_app cs1 cs2 self record :
  FilterEngine.passes (cs1 ++ cs2) self record
  = FilterEngine.passes cs1 self record && FilterEngine.passes cs2 self record.
Proof. unfold FilterEngine.passes. apply forallb_app. Qed.

Lemma find_app_none {A} (f : A -> bool) (l1 l2 : list A) :
  List.find f l1 = None -> List.find f (l1 ++ l2) = List.find f l2.
Proof.
  induction l1 as [|a l1 IH]; [done|].
  cbn [List.find app]. destruct (f a); [done|auto].
Qed.

(** A record that meets every criterion is kept unless it is a duplicate. *)
Lemma evaluate_kept self record :
  FilterEngine.fails FilterEngine.deduplication self record = false ->
  FilterEngine.passes FilterEngine.criteria self record = true ->
  FilterEngine.evaluate self record
  = FilterResult.kept (RecordFilter._check_uncertainty self record).
Proof.
  intros Hd Hp. unfold FilterEngine.evaluate, FilterEngine.decide_by, FilterEngine.chain.
  cbn [List.find]. rewrite Hd. by rewrite (passes_find_none _ _ _ Hp).
Qed.

Lemma evaluate_duplicate self record :
  FilterEngine.fails FilterEngine.deduplication self record = true ->
  FilterEngine.evaluate self record = FilterResult.drop "duplicate".
Proof.
  intros Hd. unfold FilterEngine.evaluate, FilterEngine.decide_by, FilterEngine.chain.
  cbn [List.find]. by rewrite Hd.
Qed.

(** What the chain gives once the first checks of it are passed. *)
Lemma decide_by_passed cs1 cs2 self record :
  FilterEngine.passes cs1 self record = true ->
  FilterEngine.decide_by (cs1 ++ cs2) self record
  = FilterEngine.decide_by cs2 self record.
Proof.
  intros Hp. unfold FilterEngine.decide_by.
  by rewrite (find_app_none _ _ _ (passes_find_none _ _ _ Hp)).
Qed.

Lemma evaluate_new self record :
  FilterEngine.fails FilterEngine.deduplication self record = false ->
  FilterEngine.evaluate self record
  = FilterEngine.decide_by FilterEngine.criteria self record.
Proof.
  intros Hd. apply (decide_by_passed [FilterEngine.deduplication]).
  unfold FilterEngine.passes. cbn [forallb]. by rewrite Hd.
Qed.

Lemma evaluate_from_uncertainty self record :
  FilterEngine.passes (FilterEngine.deduplication :: FilterEngine.before_uncertainty)
                      self record = true ->
  FilterEngine.evaluate self record
  = FilterEngine.decide_by
      (FilterEngine.uncertainty_checks ++ FilterEngine.later_checks) self record.
Proof.
  intros Hp.
  apply (decide_by_passed
           (FilterEngine.deduplication :: FilterEngine.before_uncertainty)
           (FilterEngine.uncertainty_checks ++ FilterEngine.later_checks) _ _ Hp).
Qed.

Lemma decide_by_criteria_mark_seen self record r :
  FilterEngine.decide_by FilterEngine.criteria (FilterEngine.mark_seen self record) r
  = FilterEngine.decide_by FilterEngine.criteria self r.
Proof.
  unfold FilterEngine.decide_by. rewrite check_uncertainty_mark_seen.
  assert (Hall : forall c, In c FilterEngine.criteria ->
                   FilterEngine.fails c (FilterEngine.mark_seen self record) r
                   = FilterEngine.fails c self r)
    by (intros; by apply criteria_mark_seen).
  induction FilterEngine.criteria as [|c cs IH]; [done|].
  cbn [List.find]. rewrite Hall by (left; reflexivity).
  destruct (FilterEngine.fails c self r); [done|].
  apply IH. intros c' Hc'. apply Hall. by right.
Qed.

Lemma check_uncertainty_at_most self record q :
  OccurrenceRecord.coordinate_uncertainty record = Some (Number (Finite q)) ->
  Qle q (inject_Z (FilterConfig.uncertainty_max (RecordFilter.config self))) ->
  RecordFilter._check_uncertainty self record = "known".
Proof.
  intros Hu Hq. unfold RecordFilter._check_uncertainty. rewrite Hu.
  cbn [float_le_int]. apply Qle_bool_iff in Hq. by rewrite Hq.
Qed.

Lemma check_uncertainty_above self record q :
  OccurrenceRecord.coordinate_uncertainty record = Some (Number (Finite q)) ->
  Qlt (inject_Z (FilterConfig.uncertainty_max (RecordFilter.config self))) q ->
  RecordFilter._check_uncertainty self record = "exceeded".
Proof.
  intros Hu Hq. unfold RecordFilter._check_uncertainty. rewrite Hu.
  cbn [float_le_int].
  destruct (Qle_bool q _) eqn:Hle; [|done].
  apply Qle_bool_iff in Hle. exfalso. eapply Qlt_not_le; eauto.
Qed.

Lemma check_uncertainty_absent self record :
  OccurrenceRecord.coordinate_uncertainty record = None
  \/ OccurrenceRecord.coordinate_uncertainty record = Some NonNumeric ->
  RecordFilter._check_uncertainty self record = "unknown".
Proof.
  unfold RecordFilter._check_uncertainty. by intros [-> | ->].
Qed.

End FilterChain.

(** ** Claims on the filter *)

Section FilterClaims.

Import RecordFilter.
Implicit Types (self : RecordFilter.t) (record : OccurrenceRecord.t).

(** C5, as stated, fails on a record that is applied a second time: the
    sample record without year and elevation goes through a new filter
    twice, with both requirements on; the second application gives
    [duplicate], not [missing_year]. *)
Lemma reason_precedence_counterexample :
  let self := RecordFilter.__init__ (ExampleConfigs.nebria_validated 2026) in
  let record := ExampleRecords.undated in
  FilterConfig.require_year (config self) = true
  /\ FilterConfig.require_elevation (config self) = true
  /\ OccurrenceRecord.year record = None
  /\ OccurrenceRecord.elevation record = None
  /\ fst (apply self record) = FilterResult.drop "missing_year"
  /\ fst (apply (snd (apply self record)) record) = FilterResult.drop "duplicate"
  /\ fst (apply (snd (apply self record)) record) <> FilterResult.drop "missing_year".
Proof. vm_compute. repeat split; congruence. Qed.

(** C5, amended: [apply] evaluates the checks in the fixed order
    deduplication, required-year, year-range, required-elevation,
    coordinate-uncertainty, species, country, institution, and the first
    failing check determines the reason code; in particular a record with
    both year and elevation absent, under [require_year] and
    [require_elevation], is dropped with reason [missing_year] unless the
    deduplication check drops it first as [duplicate], and never with
    [missing_elevation]. *)
Theorem reason_precedence :
  (forall self record,
      fst (apply self record) = FilterEngine.evaluate self record)
  /\ (forall self record,
         FilterConfig.require_year (config self) = true ->
         FilterConfig.require_elevation (config self) = true ->
         OccurrenceRecord.year record = None ->
         OccurrenceRecord.elevation record = None ->
         fst (apply self record)
         = (if FilterEngine.fails FilterEngine.deduplication self record
            then FilterResult.drop "duplicate"
            else FilterResult.drop "missing_year")
         /\ FilterResult.reason (fst (apply self record)) <> Some "missing_elevation").
Proof.
  split; [apply apply_evaluate|].
  intros self record Hy He Hyear Helev.
  rewrite apply_evaluate.
  destruct (FilterEngine.fails FilterEngine.deduplication self record) eqn:Hd.
  - rewrite (evaluate_duplicate _ _ Hd). split; [done|]. cbn. congruence.
  - rewrite (evaluate_new _ _ Hd).
    unfold FilterEngine.decide_by, FilterEngine.criteria.
    cbn [List.find FilterEngine.before_uncertainty app].
    cbn [FilterEngine.fails FilterEngine.required_year].
    rewrite Hy, Hyear. cbn. split; [done|congruence].
Qed.

Lemma reason_precedence_witness :
  let self := RecordFilter.__init__ (ExampleConfigs.nebria_validated 2026) in
  let record := ExampleRecords.undated in
  (FilterConfig.require_year (config self) = true
   /\ FilterConfig.require_elevation (config self) = true
   /\ OccurrenceRecord.year record = None
   /\ OccurrenceRecord.elevation record = None)
  /\ fst (apply self record) = FilterEngine.evaluate self record
  /\ fst (apply self record)
     = (if FilterEngine.fails FilterEngine.deduplication self record
        then FilterResult.drop "duplicate"
        else FilterResult.drop "missing_year")
  /\ FilterResult.reason (fst (apply self record)) <> Some "missing_elevation".
Proof.
  intros self record.
  split; [repeat split; reflexivity|].
  split; [apply (proj1 reason_precedence self record)|].
  apply (proj2 reason_precedence self record); reflexivity.
Defined.

(** C6, as stated, fails on a record that a later check rejects: the
    record is at the uncertainty limit and passes deduplication, year and
    elevation, but its species is not on the list, so it is not kept. *)
Lemma uncertainty_boundary_counterexample :
  let self := RecordFilter.__init__ ExampleConfigs.germarii_only in
  let record := ExampleRecords.alpina_at_limit in
  FilterEngine.passes (FilterEngine.deduplication :: FilterEngine.before_uncertainty)
                      self record = true
  /\ OccurrenceRecord.coordinate_uncertainty record
     = Some (Number (Finite (inject_Z (FilterConfig.uncertainty_max (config self)))))
  /\ _check_uncertainty self record = "known"
  /\ fst (apply self record) = FilterResult.drop "species_not_matched"
  /\ FilterResult.keep (fst (apply self record)) = false.
Proof. vm_compute. repeat split. Qed.

(** C6, amended: for every record passing the checks before it, a
    coordinate uncertainty equal to [uncertainty_max] is classified
    [known] and is not dropped by the uncertainty check, so that the record
    is kept when it also passes the species, country and institution
    checks; an uncertainty one unit above is dropped with reason
    [uncertainty_exceeded]; an absent or non-numeric uncertainty is
    classified [unknown], it is dropped with reason [uncertainty_unknown]
    exactly when [keep_unknown_uncertainty] is false, and when that is true
    the record is kept, with status [unknown], if it passes the later
    checks. *)
Theorem uncertainty_boundary self record :
  FilterEngine.passes (FilterEngine.deduplication :: FilterEngine.before_uncertainty)
                      self record = true ->
  let max := FilterConfig.uncertainty_max (config self) in
  let keep_unknown := FilterConfig.keep_unknown_uncertainty (config self) in
  let later := FilterEngine.passes FilterEngine.later_checks self record in
  (forall q,
      OccurrenceRecord.coordinate_uncertainty record = Some (Number (Finite q)) ->
      Qeq q (inject_Z max) ->
      _check_uncertainty self record = "known"
      /\ FilterResult.reason (fst (apply self record)) <> Some "uncertainty_exceeded"
      /\ (later = true -> fst (apply self record) = FilterResult.kept "known"))
  /\ (forall q,
         OccurrenceRecord.coordinate_uncertainty record = Some (Number (Finite q)) ->
         Qeq q (inject_Z (max + 1)) ->
         fst (apply self record)
         = FilterResult.drop_with "uncertainty_exceeded" "exceeded")
  /\ (OccurrenceRecord.coordinate_uncertainty record = None
      \/ OccurrenceRecord.coordinate_uncertainty record = Some NonNumeric ->
      _check_uncertainty self record = "unknown"
      /\ (FilterResult.reason (fst (apply self record)) = Some "uncertainty_unknown"
          <-> keep_unknown = false)
      /\ (keep_unknown = false ->
          fst (apply self record)
          = FilterResult.drop_with "uncertainty_unknown" "unknown")
      /\ (keep_unknown = true -> later = true ->
          fst (apply self record) = FilterResult.kept "unknown")).
Proof.
  intros Hearly max keep_unknown later.
  rewrite apply_evaluate, (evaluate_from_uncertainty _ _ Hearly).
  unfold FilterEngine.decide_by, FilterEngine.uncertainty_checks.
  cbn [app List.find].
  cbn [FilterEngine.fails FilterEngine.uncertainty_exceeded
       FilterEngine.uncertainty_unknown].
  fold keep_unknown.
  assert (Hlater : later = true ->
            List.find (fun c => FilterEngine.fails c self record)
                      FilterEngine.later_checks = None)
    by (intros H; by apply passes_find_none).
  assert (Hreason : forall s,
            (s = "uncertainty_exceeded" \/ s = "uncertainty_unknown") ->
            match List.find (fun c => FilterEngine.fails c self record)
                            FilterEngine.later_checks with
            | Some c => Some (FilterEngine.reason_code c)
            | None => None
            end <> Some s).
  { intros s Hs. unfold FilterEngine.later_checks. cbn [List.find].
    repeat (match goal with
            | |- context [if ?b then _ else _] => destruct b
            end);
      cbn; destruct Hs as [-> | ->]; congruence. }
  split; [|split].
  - intros q Hu Hq.
    assert (Hk : _check_uncertainty self record = "known").
    { eapply check_uncertainty_at_most; [exact Hu|]. rewrite Hq. apply Qle_refl. }
    rewrite Hk. cbn [String.eqb Ascii.eqb Bool.eqb andb].
    split; [done|]. split.
    + specialize (Hreason "uncertainty_exceeded" (or_introl eq_refl)).
      destruct (List.find _ FilterEngine.later_checks); cbn in *; congruence.
    + intros Hl. by rewrite (Hlater Hl).
  - intros q Hu Hq.
    assert (Hk : _check_uncertainty self record = "exceeded").
    { eapply check_uncertainty_above; [exact Hu|]. rewrite Hq.
      rewrite <- Zlt_Qlt. fold max. lia. }
    by rewrite Hk.
  - intros Hu.
    assert (Hk : _check_uncertainty self record = "unknown")
      by (by apply check_uncertainty_absent).
    rewrite Hk. cbn [String.eqb Ascii.eqb Bool.eqb andb].
    split; [done|].
    destruct keep_unknown; cbn [negb].
    + split; [|split; [done|]].
      * split; [|done]. intros H. exfalso.
        specialize (Hreason "uncertainty_unknown" (or_intror eq_refl)).
        destruct (List.find _ FilterEngine.later_checks); cbn in *; congruence.
      * intros _ Hl. by rewrite (Hlater Hl).
    + split; [done|]. split; [done|]. intros; congruence.
Qed.

Lemma uncertainty_boundary_witness :
  let self := RecordFilter.__init__ (ExampleConfigs.nebria_validated 2026) in
  let with_uncertainty unc :=
    ExampleRecords.sample_with 1 (Some 2020) unc
                               (Some (Finite (inject_Z 1500))) (Some "germarii") in
  FilterEngine.passes (FilterEngine.deduplication :: FilterEngine.before_uncertainty)
                      self (with_uncertainty None) = true
  /\ fst (apply self (with_uncertainty (ExampleRecords.metres 1000)))
     = FilterResult.kept "known"
  /\ fst (apply self (with_uncertainty (ExampleRecords.metres 1001)))
     = FilterResult.drop_with "uncertainty_exceeded" "exceeded"
  /\ fst (apply self (with_uncertainty None)) = FilterResult.kept "unknown"
  /\ fst (apply self (with_uncertainty (Some NonNumeric))) = FilterResult.kept "unknown".
Proof.
  intros self with_uncertainty.
  split; [reflexivity|]. split; [|split; [|split]].
  - destruct (uncertainty_boundary self (with_uncertainty (ExampleRecords.metres 1000))
                                   eq_refl) as [Hat _].
    refine (proj2 (proj2 (Hat (inject_Z 1000) eq_refl _)) eq_refl).
    reflexivity.
  - destruct (uncertainty_boundary self (with_uncertainty (ExampleRecords.metres 1001))
                                   eq_refl) as (_ & Habove & _).
    refine (Habove (inject_Z 1001) eq_refl _).
    reflexivity.
  - destruct (uncertainty_boundary self (with_uncertainty None) eq_refl)
      as (_ & _ & Hunknown).
    refine (proj2 (proj2 (proj2 (Hunknown (or_introl eq_refl)))) eq_refl eq_refl).
  - destruct (uncertainty_boundary self (with_uncertainty (Some NonNumeric)) eq_refl)
      as (_ & _ & Hunknown).
    refine (proj2 (proj2 (proj2 (Hunknown (or_intror eq_refl)))) eq_refl eq_refl).
Defined.

End FilterClaims.

Section Deduplication.

Import RecordFilter.
Implicit Types (self : RecordFilter.t) (record : OccurrenceRecord.t).

Lemma fails_deduplication_off self record :
  FilterConfig.deduplicate (config self) = false ->
  FilterEngine.fails FilterEngine.deduplication self record = false.
Proof. intros Hd. cbn. by rewrite Hd. Qed.

Lemma fails_deduplication_new self record :
  OccurrenceRecord.key record ∉ _seen_keys self ->
  FilterEngine.fails FilterEngine.deduplication self record = false.
Proof.
  intros Hk. cbn. rewrite (bool_decide_eq_false_2 _ Hk). apply andb_false_r.
Qed.

Lemma fails_deduplication_seen self record :
  FilterConfig.deduplicate (config self) = true ->
  OccurrenceRecord.key record ∈ _seen_keys self ->
  FilterEngine.fails FilterEngine.deduplication self record = true.
Proof. intros Hd Hk. cbn. by rewrite Hd, (bool_decide_eq_true_2 _ Hk). Qed.

(** With deduplication on, whatever the first application decides, a
    second application of the same key is a duplicate. *)
Lemma second_apply_duplicate self r1 r2 :
  FilterConfig.deduplicate (config self) = true ->
  OccurrenceRecord.key r1 = OccurrenceRecord.key r2 ->
  OccurrenceRecord.key r1 ∈ _seen_keys (snd (apply self r1))
  /\ fst (apply (snd (apply self r1)) r2) = FilterResult.drop "duplicate".
Proof.
  intros Hd Hk.
  assert (Hin : OccurrenceRecord.key r1 ∈ _seen_keys (snd (apply self r1))).
  { rewrite apply_state.
    destruct (FilterEngine.fails FilterEngine.deduplication self r1) eqn:Hf.
    - cbn in Hf. rewrite Hd in Hf. cbn in Hf. by apply bool_decide_eq_true_1 in Hf.
    - by apply mark_seen_key. }
  split; [exact Hin|].
  rewrite apply_evaluate. apply evaluate_duplicate.
  apply fails_deduplication_seen.
  - rewrite apply_state. destruct (FilterEngine.fails _ _ _); [done|].
    by rewrite mark_seen_config.
  - by rewrite <- Hk.
Qed.

(** C8: two records with the same identifier that satisfy every criterion
    other than deduplication go through one filter instance, the first of
    them being the first record with that identifier the instance sees.
    With deduplication enabled the first application keeps its record and
    the second drops its record with reason [duplicate]; with deduplication
    disabled both applications keep their record. *)
Theorem deduplication_toggle self r1 r2 :
  OccurrenceRecord.key r1 = OccurrenceRecord.key r2 ->
  FilterEngine.passes FilterEngine.criteria self r1 = true ->
  FilterEngine.passes FilterEngine.criteria self r2 = true ->
  (FilterConfig.deduplicate (config self) = true ->
   OccurrenceRecord.key r1 ∉ _seen_keys self ->
   FilterResult.keep (fst (apply self r1)) = true
   /\ FilterResult.reason (fst (apply self r1)) = None
   /\ fst (apply (snd (apply self r1)) r2) = FilterResult.drop "duplicate")
  /\ (FilterConfig.deduplicate (config self) = false ->
      FilterResult.keep (fst (apply self r1)) = true
      /\ FilterResult.keep (fst (apply (snd (apply self r1)) r2)) = true).
Proof.
  intros Hk Hp1 Hp2. split.
  - intros Hd Hnew.
    rewrite apply_evaluate,
      (evaluate_kept _ _ (fails_deduplication_new _ _ Hnew) Hp1).
    repeat split. by apply second_apply_duplicate.
  - intros Hd.
    rewrite !apply_evaluate, apply_state,
      (fails_deduplication_off _ _ Hd), (mark_seen_off _ _ Hd).
    rewrite !evaluate_kept by (by auto using fails_deduplication_off).
    done.
Qed.

Lemma deduplication_toggle_witness :
  let on_ := RecordFilter.__init__ (ExampleConfigs.nebria_validated 2026) in
  let off := RecordFilter.__init__ ExampleConfigs.no_dedup in
  let record := ExampleRecords.sample_record in
  (FilterResult.keep (fst (apply on_ record)) = true
   /\ FilterResult.reason (fst (apply on_ record)) = None
   /\ fst (apply (snd (apply on_ record)) record) = FilterResult.drop "duplicate")
  /\ (FilterResult.keep (fst (apply off record)) = true
      /\ FilterResult.keep (fst (apply (snd (apply off record)) record)) = true).
Proof.
  intros on_ off record. split.
  - refine (proj1 (deduplication_toggle on_ record record eq_refl eq_refl eq_refl)
                  eq_refl _).
    apply not_elem_of_empty.
  - exact (proj2 (deduplication_toggle off record record eq_refl eq_refl eq_refl)
                 eq_refl).
Defined.

(** C10: with deduplication enabled, [apply] puts the key of the record in
    the set of seen keys before any later check runs: the key is in the set
    after the call whatever the call decides, and a second application of
    any record with the same key is dropped with reason [duplicate]; this
    is so also when the first application dropped its record for a later
    reason such as [missing_year], so that no record with that key was ever
    kept. *)
Theorem seen_before_later_checks self r1 r2 :
  FilterConfig.deduplicate (config self) = true ->
  OccurrenceRecord.key r1 = OccurrenceRecord.key r2 ->
  OccurrenceRecord.key r1 ∈ _seen_keys (snd (apply self r1))
  /\ fst (apply (snd (apply self r1)) r2) = FilterResult.drop "duplicate"
  /\ (OccurrenceRecord.key r1 ∉ _seen_keys self ->
      FilterConfig.require_year (config self) = true ->
      OccurrenceRecord.year r1 = None ->
      fst (apply self r1) = FilterResult.drop "missing_year"
      /\ fst (apply (snd (apply self r1)) r2) = FilterResult.drop "duplicate").
Proof.
  intros Hd Hk.
  destruct (second_apply_duplicate self r1 r2 Hd Hk) as [Hin Hdup].
  split; [done|]. split; [done|].
  intros Hnew Hy Hyear. split; [|done].
  rewrite apply_evaluate, (evaluate_new _ _ (fails_deduplication_new _ _ Hnew)).
  unfold FilterEngine.decide_by, FilterEngine.criteria.
  cbn [List.find FilterEngine.before_uncertainty app].
  cbn [FilterEngine.fails FilterEngine.required_year].
  by rewrite Hy, Hyear.
Qed.

Lemma seen_before_later_checks_witness :
  let self := RecordFilter.__init__ (ExampleConfigs.nebria_validated 2026) in
  let first := ExampleRecords.undated in
  let second := ExampleRecords.sample_record in
  (FilterConfig.deduplicate (config self) = true
   /\ OccurrenceRecord.key first = OccurrenceRecord.key second)
  /\ fst (apply self first) = FilterResult.drop "missing_year"
  /\ fst (apply (snd (apply self first)) second) = FilterResult.drop "duplicate".
Proof.
  intros self first second.
  split; [split; reflexivity|].
  refine (proj2 (proj2 (seen_before_later_checks self first second eq_refl eq_refl))
                _ eq_refl eq_refl).
  apply not_elem_of_empty.
Defined.

End Deduplication.

(** ** The batch operation *)

Section Batch.

Import RecordFilter.
Implicit Types (self : RecordFilter.t) (record : OccurrenceRecord.t).

Lemma apply_pair self record :
  apply self record
  = (FilterEngine.evaluate self record,
     if FilterEngine.fails FilterEngine.deduplication self record
     then self else FilterEngine.mark_seen self record).
Proof.
  rewrite <- apply_evaluate, <- apply_state. apply surjective_pairing.
Qed.

(** One turn of the loop of [filter_records] on a record that is kept. *)
Lemma filter_step_kept self self' filtered stats record status :
  apply self record = (FilterResult.kept status, self') ->
  filters.filter_step (self, filtered, stats) record
  = (self', (filtered ++ [record])%list,
     (if String.eqb status "unknown"
      then filters.incr "uncertainty_unknown_kept"
             (filters.incr "kept" (filters.incr "total" stats))
      else filters.incr "kept" (filters.incr "total" stats))).
Proof. intros H. unfold filters.filter_step. rewrite H. reflexivity. Qed.

(** One turn of the loop on a record that is dropped for a counted
    reason other than [uncertainty_unknown]. *)
Lemma filter_step_dropped self self' filtered stats record reason status n :
  apply self record
  = ({| FilterResult.keep := false; FilterResult.reason := Some reason;
        FilterResult.uncertainty_status := status |}, self') ->
  truthy_str reason = true ->
  String.eqb reason "uncertainty_unknown" = false ->
  filters.incr "total" stats !! reason = Some n ->
  filters.filter_step (self, filtered, stats) record
  = (self', filtered, filters.incr reason (filters.incr "total" stats)).
Proof.
  intros H Ht Hu Hn. unfold filters.filter_step. rewrite H.
  cbn [FilterResult.keep FilterResult.reason]. rewrite Ht, Hu, Hn.
  reflexivity.
Qed.

End Batch.

(** ** Construction of the configuration *)

Section Construction.

Import FilterConfig.
Variable current_year : Z.

Lemma validate_year_ok year field :
  1700 <= year <= current_year + 1 ->
  utils.validate_year current_year year field = Ok year.
Proof.
  intros [Hlo Hhi]. unfold utils.validate_year.
  destruct (Z.ltb_spec year 1700); [lia|].
  rewrite Z.gtb_ltb. destruct (Z.ltb_spec (current_year + 1) year); [lia|done].
Qed.

Lemma validate_year_small year field :
  year < 1700 -> is_ValueError (utils.validate_year current_year year field).
Proof.
  intros H. unfold utils.validate_year.
  destruct (Z.ltb_spec year 1700); [done|lia].
Qed.

Lemma validate_year_future year field :
  current_year + 1 < year ->
  is_ValueError (utils.validate_year current_year year field).
Proof.
  intros H. unfold utils.validate_year.
  destruct (year <? 1700); [done|].
  rewrite Z.gtb_ltb. destruct (Z.ltb_spec (current_year + 1) year); [done|lia].
Qed.

Lemma validate_year_inv year field y :
  utils.validate_year current_year year field = Ok y ->
  y = year /\ 1700 <= year <= current_year + 1.
Proof.
  unfold utils.validate_year.
  destruct (Z.ltb_spec year 1700); [done|].
  rewrite Z.gtb_ltb. destruct (Z.ltb_spec (current_year + 1) year); [done|].
  intros [= <-]. lia.
Qed.

(** Every exception of [__post_init__] is a [ValueError]. *)
Lemma post_init_raises_ValueError self e :
  __post_init__ current_year self = Raise e -> exists msg, e = ValueError msg.
Proof.
  unfold __post_init__, utils.validate_year, utils.validate_positive_int.
  cbn [mbind result_bind].
  repeat (match goal with
          | |- context [if ?b then _ else _] =>
              lazymatch b with
              | context [if _ then _ else _] => fail
              | _ => destruct b
              end
          end; cbn [mbind result_bind]);
    intros [= <-]; eauto.
Qed.

(** What a successful construction establishes about the years. *)
Lemma post_init_years self config :
  __post_init__ current_year self = Ok config ->
  exists year_end', year_end config = Some year_end'
                    /\ year_start config <= year_end'
                    /\ year_start config = year_start self.
Proof.
  unfold __post_init__.
  destruct (negb _ && negb _); [done|].
  assert (Hys : forall r,
             (if truthy_int (year_start self)
              then utils.validate_year current_year (year_start self) "year_start"
              else Ok (year_start self)) = Ok r -> r = year_start self).
  { intros r. destruct (truthy_int _).
    - by intros [-> _]%validate_year_inv.
    - congruence. }
  destruct (if truthy_int _ then _ else _) as [ys|]; [|done].
  specialize (Hys ys eq_refl) as ->.
  destruct (if truthy_opt_int (year_end self) then _ else _) as [ye|]; [|done].
  cbn [mbind result_bind].
  destruct (Z.gtb_spec (year_start self) ye); [done|].
  destruct (utils.validate_positive_int _ _ _); [|done].
  cbn [mbind result_bind].
  intros [= <-]. cbn. eexists; repeat split; lia.
Qed.

(** A [year_start] below 1700 is refused, unless it is 0. *)
Lemma post_init_year_start_small self :
  year_start self < 1700 -> year_start self <> 0 ->
  is_ValueError (__post_init__ current_year self).
Proof.
  intros Hlt Hnz. unfold __post_init__.
  destruct (negb _ && negb _); [done|].
  unfold truthy_int. destruct (Z.eqb_spec (year_start self) 0); [done|].
  cbn [negb].
  pose proof (validate_year_small (year_start self) "year_start" Hlt) as Hv.
  destruct (utils.validate_year _ _ _) as [|[]]; done.
Qed.

(** A [year_end] beyond the year after the current one is refused. *)
Lemma post_init_year_end_future self y :
  0 <= current_year ->
  year_end self = Some y -> current_year + 1 < y ->
  is_ValueError (__post_init__ current_year self).
Proof.
  intros Hcy Hy Hgt.
  destruct (__post_init__ current_year self) as [config|e] eqn:Hres.
  - exfalso. revert Hres. unfold __post_init__.
    destruct (negb _ && negb _); [done|].
    destruct (if truthy_int _ then _ else _); [|done].
    cbn [mbind result_bind].
    rewrite Hy. cbn [truthy_opt_int Json.get]. unfold truthy_int.
    destruct (Z.eqb_spec y 0); [lia|]. cbn [negb].
    pose proof (validate_year_future y "year_end" Hgt) as Hv.
    destruct (utils.validate_year _ y _) as [|[]]; done.
  - apply post_init_raises_ValueError in Hres as [msg ->]. done.
Qed.

(** The scenario configuration is valid from 2023 on, and construction
    leaves it as it is. *)
Lemma post_init_scenario :
  2023 <= current_year ->
  __post_init__ current_year ExampleConfigs.scenario = Ok ExampleConfigs.scenario.
Proof.
  intros H. unfold __post_init__. cbn [mbind result_bind].
  change (negb _ && negb _) with false. cbv iota.
  change (truthy_int _) with true. cbv iota.
  change (truthy_opt_int _) with true. cbv iota.
  change (year_start ExampleConfigs.scenario) with 1900.
  change (Json.get (year_end ExampleConfigs.scenario) 0) with 2024.
  rewrite !validate_year_ok by lia.
  reflexivity.
Qed.

Lemma post_init_nebria :
  1800 <= current_year ->
  __post_init__ current_year ExampleConfigs.nebria
  = Ok (ExampleConfigs.nebria_validated current_year).
Proof.
  intros H. unfold __post_init__. cbn [mbind result_bind].
  change (negb _ && negb _) with false. cbv iota.
  change (truthy_int _) with true. cbv iota.
  change (truthy_opt_int _) with false. cbv iota.
  change (year_start ExampleConfigs.nebria) with 1800.
  rewrite !validate_year_ok by lia. cbn [mbind result_bind].
  destruct (Z.gtb_spec 1800 current_year); [lia|].
  reflexivity.
Qed.

End Construction.

(** ** Claims on the batch operation and on construction *)

Section ScenarioClaims.

Import OccurrenceRecord.

(** C3: the configuration [FilterConfig(genus="Nebria", year_start=1900,
    year_end=2024, uncertainty_max=1000, require_year=True,
    require_elevation=False, keep_unknown_uncertainty=True)] is accepted
    (in any year from 2023 on), and [filter_records] with it, on three
    records with distinct keys of which the first has year 2020,
    uncertainty 50 and elevation 1500, the second has no year and the third
    has year 2020 and uncertainty 5000, returns exactly the first record
    and statistics with [total] 3, [kept] 1, [missing_year] 1 and
    [uncertainty_exceeded] 1 (every other counter being 0). *)
Theorem end_to_end_scenario (current_year : Z) (r1 r2 r3 : OccurrenceRecord.t) :
  2023 <= current_year ->
  NoDup [key r1; key r2; key r3] ->
  year r1 = Some 2020 ->
  coordinate_uncertainty r1 = ExampleRecords.metres 50 ->
  elevation r1 = Some (Finite (inject_Z 1500)) ->
  year r2 = None ->
  year r3 = Some 2020 ->
  coordinate_uncertainty r3 = ExampleRecords.metres 5000 ->
  exists config stats,
    FilterConfig.__post_init__ current_year ExampleConfigs.scenario = Ok config
    /\ filters.filter_records [r1; r2; r3] config = ([r1], stats)
    /\ stats !! "total" = Some 3
    /\ stats !! "kept" = Some 1
    /\ stats !! "missing_year" = Some 1
    /\ stats !! "uncertainty_exceeded" = Some 1
    /\ stats = list_to_map
                 [("total", 3); ("kept", 1); ("duplicate", 0); ("missing_year", 1);
                  ("year_too_old", 0); ("year_too_new", 0); ("missing_elevation", 0);
                  ("uncertainty_exceeded", 1); ("uncertainty_unknown_kept", 0);
                  ("uncertainty_unknown_dropped", 0); ("species_not_matched", 0);
                  ("country_not_matched", 0); ("institution_not_matched", 0)].
Proof.
  intros Hcy Hkeys Hy1 Hu1 He1 Hy2 Hy3 Hu3.
  apply NoDup_cons in Hkeys as [Hk1 Hkeys].
  apply NoDup_cons in Hkeys as [Hk2 _].
  apply not_elem_of_cons in Hk1 as [Hk12 Hk1].
  apply not_elem_of_cons in Hk1 as [Hk13 _].
  apply not_elem_of_cons in Hk2 as [Hk23 _].
  set (f0 := RecordFilter.__init__ ExampleConfigs.scenario).
  set (f1 := FilterEngine.mark_seen f0 r1).
  set (f2 := FilterEngine.mark_seen f1 r2).
  set (f3 := FilterEngine.mark_seen f2 r3).
  assert (A1 : RecordFilter.apply f0 r1 = (FilterResult.kept "known", f1)).
  { rewrite apply_pair, fails_deduplication_new by apply not_elem_of_empty.
    rewrite evaluate_new by (apply fails_deduplication_new, not_elem_of_empty).
    f_equal. clear -Hy1 Hu1 He1. destruct r1; cbn in *; subst.
    vm_compute. reflexivity. }
  assert (A2 : RecordFilter.apply f1 r2 = (FilterResult.drop "missing_year", f2)).
  { assert (Hnew : key r2 ∉ RecordFilter._seen_keys f1).
    { subst f1 f0. cbn.
      rewrite not_elem_of_union, not_elem_of_singleton.
      split; [congruence|apply not_elem_of_empty]. }
    rewrite apply_pair, (fails_deduplication_new _ _ Hnew).
    rewrite (evaluate_new _ _ (fails_deduplication_new _ _ Hnew)).
    subst f1. rewrite decide_by_criteria_mark_seen.
    f_equal. clear -Hy2. destruct r2; cbn in *; subst.
    vm_compute. reflexivity. }
  assert (A3 : RecordFilter.apply f2 r3
               = (FilterResult.drop_with "uncertainty_exceeded" "exceeded", f3)).
  { assert (Hnew : key r3 ∉ RecordFilter._seen_keys f2).
    { subst f2 f1 f0. cbn.
      rewrite !not_elem_of_union, !not_elem_of_singleton.
      repeat split; [congruence..|apply not_elem_of_empty]. }
    rewrite apply_pair, (fails_deduplication_new _ _ Hnew).
    rewrite (evaluate_new _ _ (fails_deduplication_new _ _ Hnew)).
    subst f2 f1. rewrite !decide_by_criteria_mark_seen.
    f_equal. clear -Hy3 Hu3. destruct r3; cbn in *; subst.
    vm_compute. reflexivity. }
  eexists ExampleConfigs.scenario, _.
  split; [by apply post_init_scenario|].
  unfold filters.filter_records. cbn [fold_left]. fold f0.
  rewrite (filter_step_kept _ _ _ _ _ _ A1).
  rewrite (filter_step_dropped _ _ _ _ _ _ _ 0 A2) by reflexivity.
  rewrite (filter_step_dropped _ _ _ _ _ _ _ 0 A3) by reflexivity.
  split; [reflexivity|].
  repeat split; vm_compute; reflexivity.
Qed.

Lemma end_to_end_scenario_witness :
  let r1 := ExampleRecords.sample_with 1 (Some 2020) (ExampleRecords.metres 50)
              (Some (Finite (inject_Z 1500))) (Some "germarii") in
  let r2 := ExampleRecords.sample_with 2 None (ExampleRecords.metres 50)
              (Some (Finite (inject_Z 1000))) (Some "germarii") in
  let r3 := ExampleRecords.sample_with 3 (Some 2020) (ExampleRecords.metres 5000)
              (Some (Finite (inject_Z 1000))) (Some "germarii") in
  exists config stats,
    FilterConfig.__post_init__ 2026 ExampleConfigs.scenario = Ok config
    /\ filters.filter_records [r1; r2; r3] config = ([r1], stats)
    /\ stats !! "total" = Some 3
    /\ stats !! "kept" = Some 1
    /\ stats !! "missing_year" = Some 1
    /\ stats !! "uncertainty_exceeded" = Some 1
    /\ stats = list_to_map
                 [("total", 3); ("kept", 1); ("duplicate", 0); ("missing_year", 1);
                  ("year_too_old", 0); ("year_too_new", 0); ("missing_elevation", 0);
                  ("uncertainty_exceeded", 1); ("uncertainty_unknown_kept", 0);
                  ("uncertainty_unknown_dropped", 0); ("species_not_matched", 0);
                  ("country_not_matched", 0); ("institution_not_matched", 0)].
Proof.
  intros r1 r2 r3.
  apply (end_to_end_scenario 2026 r1 r2 r3); try reflexivity; [lia|].
  apply (bool_decide_unpack _). reflexivity.
Defined.

End ScenarioClaims.

Section ConstructionClaims.

Import FilterConfig.

(** C4 at the input [FilterConfig(genus="Nebria", year_start=0)]: the
    claim has construction raise a [ValueError] for every [year_start]
    below 1700; the guard [if self.year_start:] skips [validate_year] for
    0, and construction succeeds with [year_start = 0]. *)
Theorem year_start_zero_accepted (current_year : Z) :
  0 <= current_year ->
  exists config,
    __post_init__ current_year ExampleConfigs.year_start_zero = Ok config
    /\ year_start config = 0
    /\ year_start config < 1700
    /\ year_end config = Some current_year.
Proof.
  intros H. eexists. split.
  - unfold __post_init__.
    change (negb _ && negb _) with false. cbv iota.
    change (truthy_int _) with false. cbv iota.
    change (truthy_opt_int _) with false. cbv iota.
    cbn [mbind result_bind].
    change (year_start ExampleConfigs.year_start_zero) with 0.
    destruct (Z.gtb_spec 0 current_year); [lia|].
    reflexivity.
  - cbn. repeat split.
Qed.

Lemma year_start_zero_accepted_witness :
  0 <= 2026
  /\ exists config,
      __post_init__ 2026 ExampleConfigs.year_start_zero = Ok config
      /\ year_start config = 0
      /\ year_start config < 1700
      /\ year_end config = Some 2026.
Proof.
  split; [lia|]. apply (year_start_zero_accepted 2026). lia.
Defined.

(** What holds of C4 on the code: after a successful construction
    [year_start <= year_end]; a [year_start] below 1700 other than 0 and a
    [year_end] above the current year plus 1 raise a [ValueError]. *)
Lemma year_validation (current_year : Z) (self : t) :
  0 <= current_year ->
  (forall config,
      __post_init__ current_year self = Ok config ->
      exists year_end', year_end config = Some year_end'
                        /\ year_start config <= year_end')
  /\ (year_start self < 1700 -> year_start self <> 0 ->
      is_ValueError (__post_init__ current_year self))
  /\ (forall y, year_end self = Some y -> current_year + 1 < y ->
                is_ValueError (__post_init__ current_year self)).
Proof.
  intros Hcy. split; [|split].
  - intros config Hok.
    destruct (post_init_years _ _ _ Hok) as (ye & ? & ? & _). eauto.
  - apply post_init_year_start_small.
  - intros y. by apply post_init_year_end_future.
Qed.

(** C9, as stated, fails when both anchors are supplied:
    [FilterConfig(genus="Nebria", family="Carabidae")] is constructed
    without error. *)
Lemma taxonomic_anchor_counterexample :
  truthy_opt_str (genus ExampleConfigs.genus_and_family) = true
  /\ truthy_opt_str (family ExampleConfigs.genus_and_family) = true
  /\ exists config,
      __post_init__ 2026 ExampleConfigs.genus_and_family = Ok config
      /\ genus config = Some "Nebria"
      /\ family config = Some "Carabidae".
Proof.
  split; [reflexivity|]. split; [reflexivity|].
  eexists. split; [vm_compute; reflexivity|]. split; reflexivity.
Qed.

Lemma post_init_set_family (current_year : Z) (self config : t) (f : option string) :
  truthy_opt_str (genus self) = true ->
  __post_init__ current_year self = Ok config ->
  __post_init__ current_year (FilterConfig.with_family f self)
  = Ok (FilterConfig.with_family f config).
Proof.
  intros Hg. unfold __post_init__.
  cbn [FilterConfig.with_family genus family year_start year_end uncertainty_max
       species_list countries institutions require_year require_elevation
       keep_unknown_uncertainty basis_of_record deduplicate].
  rewrite Hg. cbn [negb andb].
  destruct (if truthy_int _ then _ else _); [|done].
  destruct (if truthy_opt_int _ then _ else _); [|done].
  cbn [mbind result_bind].
  destruct (_ >? _); [done|].
  destruct (utils.validate_positive_int _ _ _); [|done].
  cbn [mbind result_bind]. by intros [= <-].
Qed.

Lemma post_init_set_genus (current_year : Z) (self config : t) (g : option string) :
  truthy_opt_str (family self) = true ->
  __post_init__ current_year self = Ok config ->
  __post_init__ current_year (FilterConfig.with_genus g self)
  = Ok (FilterConfig.with_genus g config).
Proof.
  intros Hf. unfold __post_init__.
  cbn [FilterConfig.with_genus genus family year_start year_end uncertainty_max
       species_list countries institutions require_year require_elevation
       keep_unknown_uncertainty basis_of_record deduplicate].
  rewrite Hf. cbn [negb]. rewrite !andb_false_r.
  destruct (if truthy_int _ then _ else _); [|done].
  destruct (if truthy_opt_int _ then _ else _); [|done].
  cbn [mbind result_bind].
  destruct (_ >? _); [done|].
  destruct (utils.validate_positive_int _ _ _); [|done].
  cbn [mbind result_bind]. by intros [= <-].
Qed.

(** C9, amended: construction succeeds only when at least one of genus and
    family is non-empty, and raises a [ValueError], at construction, when
    neither is supplied; supplying both is not an error: a configuration
    that is accepted with one anchor is accepted with the other anchor
    added to it. *)
Theorem taxonomic_anchor (current_year : Z) (self : t) :
  (truthy_opt_str (genus self) = false ->
   truthy_opt_str (family self) = false ->
   __post_init__ current_year self
   = Raise (ValueError "Either genus or family must be specified"))
  /\ (forall config,
         __post_init__ current_year self = Ok config ->
         truthy_opt_str (genus self) = true \/ truthy_opt_str (family self) = true)
  /\ (forall config f,
         truthy_opt_str (genus self) = true ->
         __post_init__ current_year self = Ok config ->
         __post_init__ current_year (FilterConfig.with_family f self)
         = Ok (FilterConfig.with_family f config))
  /\ (forall config g,
         truthy_opt_str (family self) = true ->
         __post_init__ current_year self = Ok config ->
         __post_init__ current_year (FilterConfig.with_genus g self)
         = Ok (FilterConfig.with_genus g config)).
Proof.
  split; [|split; [|split]].
  - intros Hg Hf. unfold __post_init__. by rewrite Hg, Hf.
  - intros config. unfold __post_init__.
    destruct (truthy_opt_str (genus self)); [by left|].
    destruct (truthy_opt_str (family self)); [by right|].
    done.
  - intros config f. apply post_init_set_family.
  - intros config g. apply post_init_set_genus.
Qed.

Lemma taxonomic_anchor_witness :
  __post_init__ 2026 FilterConfig.defaults
  = Raise (ValueError "Either genus or family must be specified")
  /\ __post_init__ 2026 (FilterConfig.with_family (Some "Carabidae") ExampleConfigs.nebria)
     = Ok (FilterConfig.with_family (Some "Carabidae")
                                     (ExampleConfigs.nebria_validated 2026)).
Proof.
  split.
  - exact (proj1 (taxonomic_anchor 2026 FilterConfig.defaults) eq_refl eq_refl).
  - exact (proj1 (proj2 (proj2 (taxonomic_anchor 2026 ExampleConfigs.nebria)))
                 (ExampleConfigs.nebria_validated 2026) (Some "Carabidae")
                 eq_refl eq_refl).
Defined.

End ConstructionClaims.

(** ** Taxon resolution *)

Import World GBIFClient.

Section TaxonResolution.

Variable session_get : nat -> request -> http_outcome.

(** A request that [session.get] answers with a body and a good status
    returns that body. *)
Lemma make_request_delivers self endpoint query w data :
  delivers (session_get (requests_made w) {| endpoint := endpoint; query := query |})
           data ->
  _make_request session_get self endpoint query w
  = (Ok data, asked {| endpoint := endpoint; query := query |} w).
Proof.
  intros (status_code & Hget & H429 & Hbad). unfold _make_request. rewrite Hget.
  destruct (Z.eqb_spec status_code 429); [done|].
  destruct (Z.leb_spec 400 status_code), (Z.ltb_spec status_code 600);
    cbn [andb]; first [lia | reflexivity].
Qed.

Lemma append_assoc (a b c : string) : (a +:+ b) +:+ c = a +:+ (b +:+ c).
Proof.
  induction a as [|x a IH]; [reflexivity|].
  change (String x ((a +:+ b) +:+ c) = String x (a +:+ (b +:+ c))).
  by rewrite IH.
Qed.

(** C7: for a response of the name-match endpoint, [match_taxon] raises
    [TaxonNotFoundError] whenever the match type is NONE; in strict mode
    with an expected rank it also raises [TaxonNotFoundError] when the
    returned rank differs from the expected one, with a message that names
    the rank that was matched, and when the returned canonical name differs
    from the requested name up to case; in non-strict mode neither
    validation is made and the match is returned. *)
Theorem taxon_resolution (self : GBIFClient.t) (name : string) (rank : option string)
        (kingdom : string) (class_name : option string) (strict : bool)
        (w : World.t) (data : Json.body) :
  delivers (session_get (requests_made w)
              {| endpoint := SPECIES_MATCH_ENDPOINT;
                 query := MatchParams (match_query name kingdom class_name) |})
           data ->
  let found := TaxonMatch.from_api_response (Json.as_match data) in
  let outcome :=
    fst (match_taxon session_get self name rank kingdom class_name strict w) in
  (TaxonMatch.match_type found = "NONE" -> is_TaxonNotFoundError outcome)
  /\ (strict = true -> truthy_opt_str rank = true ->
      (Some (TaxonMatch.rank found) <> rank ->
       is_TaxonNotFoundError outcome
       /\ (TaxonMatch.match_type found <> "NONE" ->
           exists before after,
             outcome = Raise (TaxonNotFoundError
                                (before +:+ "matched as " +:+ TaxonMatch.rank found
                                        +:+ after))))
      /\ (lower (TaxonMatch.canonical_name found) <> lower name ->
          is_TaxonNotFoundError outcome))
  /\ (strict = false -> TaxonMatch.match_type found <> "NONE" ->
      outcome = Ok found).
Proof.
  intros Hget found outcome. subst outcome. unfold match_taxon.
  rewrite (make_request_delivers self _ _ (log DEBUG (Matching name) w) data Hget).
  fold found.
  destruct (String.eqb_spec (TaxonMatch.match_type found) "NONE") as [Hnone|Hsome].
  { split; [done|]. split; [|done].
    intros _ _. split; [|done]. intros _. split; done. }
  split; [done|]. split.
  - intros -> Hrank. cbn [andb]. rewrite Hrank. cbn [andb].
    destruct rank as [rk|]; [|done]. cbn [Json.get].
    destruct (String.eqb_spec (TaxonMatch.rank found) rk) as [Heq|Hne]; cbn [negb].
    + split; [intros H; congruence|].
      intros Hname.
      destruct (String.eqb_spec (lower (TaxonMatch.canonical_name found)) (lower name));
        done.
    + split; [|done]. intros _. split; [done|]. intros _.
      exists ("'" +:+ name +:+ "' "),
        (" (" +:+ TaxonMatch.canonical_name found +:+ "), but expected " +:+ rk
              +:+ ". Please check the spelling.").
      cbn [fst]. do 2 f_equal.
      rewrite !append_assoc. reflexivity.
  - intros -> _. reflexivity.
Qed.

End TaxonResolution.

Lemma taxon_resolution_witness :
  let resolve body name strict :=
    fst (match_taxon (ExampleResponses.replay [body]) ExampleResponses.client name
                     (Some "GENUS") "Animalia" None strict World.initial) in
  is_TaxonNotFoundError (resolve ExampleResponses.none_match "InvalidGenus" true)
  /\ (exists before after,
         resolve ExampleResponses.insecta "InvalidGenusXYZ" true
         = Raise (TaxonNotFoundError (before +:+ "matched as " +:+ "CLASS" +:+ after)))
  /\ is_TaxonNotFoundError (resolve ExampleResponses.nebria_fuzzy "Nebra" true)
  /\ resolve ExampleResponses.insecta "InvalidGenusXYZ" false
     = Ok (TaxonMatch.from_api_response (Json.as_match ExampleResponses.insecta)).
Proof.
  intros resolve.
  assert (Hget : forall body name,
             delivers
               (ExampleResponses.replay [body] (requests_made World.initial)
                  {| endpoint := SPECIES_MATCH_ENDPOINT;
                     query := MatchParams (match_query name "Animalia" None) |})
               body).
  { intros body name. exists 200. split; [reflexivity|]. split; lia. }
  split; [|split; [|split]].
  - exact (proj1 (taxon_resolution (ExampleResponses.replay [ExampleResponses.none_match])
                                   ExampleResponses.client "InvalidGenus" (Some "GENUS")
                                   "Animalia" None true World.initial
                                   ExampleResponses.none_match (Hget _ _))
                 eq_refl).
  - destruct (proj1 (proj1 (proj2 (taxon_resolution
                                     (ExampleResponses.replay [ExampleResponses.insecta])
                                     ExampleResponses.client "InvalidGenusXYZ"
                                     (Some "GENUS") "Animalia" None true
                                     World.initial ExampleResponses.insecta (Hget _ _)))
                           eq_refl eq_refl))
      as [_ Hmsg]; [discriminate|].
    apply Hmsg. discriminate.
  - refine (proj2 (proj1 (proj2 (taxon_resolution
                                   (ExampleResponses.replay [ExampleResponses.nebria_fuzzy])
                                   ExampleResponses.client "Nebra" (Some "GENUS")
                                   "Animalia" None true World.initial
                                   ExampleResponses.nebria_fuzzy (Hget _ _)))
                         eq_refl eq_refl) _).
    discriminate.
  - refine (proj2 (proj2 (taxon_resolution
                            (ExampleResponses.replay [ExampleResponses.insecta])
                            ExampleResponses.client "InvalidGenusXYZ" (Some "GENUS")
                            "Animalia" None false World.initial
                            ExampleResponses.insecta (Hget _ _)))
                  eq_refl _).
    discriminate.
Defined.

(** ** The year-bucketed fetch *)

Section Traces.

Lemma yields_of_app tr1 tr2 : yields_of (tr1 ++ tr2) = (yields_of tr1 ++ yields_of tr2)%list.
Proof. apply omap_app. Qed.

Lemma requests_of_app tr1 tr2 :
  requests_of (tr1 ++ tr2) = (requests_of tr1 ++ requests_of tr2)%list.
Proof. apply omap_app. Qed.

Lemma warnings_of_app tr1 tr2 :
  warnings_of (tr1 ++ tr2) = (warnings_of tr1 ++ warnings_of tr2)%list.
Proof. apply omap_app. Qed.

(** The records that deduplication lets through have distinct keys, none of
    them seen before. *)
Lemma fresh_records_keys seen items :
  NoDup (map OccurrenceRecord.key (Deduplicator.fresh_records seen items))
  /\ forall r, r ∈ Deduplicator.fresh_records seen items -> OccurrenceRecord.key r ∉ seen.
Proof.
  revert seen. induction items as [|item items IH]; intros seen; cbn.
  - split; [constructor|]. intros r Hr. by apply elem_of_nil in Hr.
  - case_bool_decide as Hseen; [apply IH|].
    destruct (IH ({[OccurrenceRecord.key (OccurrenceRecord.from_api_response item)]} ∪ seen))
      as [Hnd Hnew].
    split.
    + cbn. constructor; [|exact Hnd].
      intros (r & Hk & Hr)%list_elem_of_fmap.
      apply (Hnew r Hr). rewrite <- Hk. apply elem_of_union_l, elem_of_singleton. done.
    + intros r [-> | Hr]%elem_of_cons; [done|].
      intros Hin. apply (Hnew r Hr). by apply elem_of_union_r.
Qed.

(** Items whose keys are distinct and not seen before all get through. *)
Lemma fresh_records_all seen items :
  NoDup (Deduplicator.keys_of items) ->
  (forall k, k ∈ Deduplicator.keys_of items -> k ∉ seen) ->
  Deduplicator.fresh_records seen items = map OccurrenceRecord.from_api_response items.
Proof.
  revert seen. induction items as [|item items IH]; intros seen Hnd Hnew; [done|].
  cbn in *. apply NoDup_cons in Hnd as [Hhd Hnd].
  rewrite bool_decide_eq_false_2 by (apply Hnew; by left).
  f_equal. apply IH; [done|].
  intros k Hk [->%elem_of_singleton | Hin]%elem_of_union; [done|].
  apply (Hnew k); [by right|done].
Qed.

Lemma fresh_records_app seen items1 items2 :
  Deduplicator.fresh_records seen (items1 ++ items2)
  = (Deduplicator.fresh_records seen items1
     ++ Deduplicator.fresh_records
          (list_to_set (Deduplicator.keys_of items1) ∪ seen) items2)%list.
Proof.
  revert seen. induction items1 as [|item items IH]; intros seen; cbn.
  - f_equal. by rewrite (left_id_L ∅ (∪)).
  - case_bool_decide as Hseen.
    + rewrite IH. do 2 f_equal.
      apply set_eq. intros k. rewrite !elem_of_union, elem_of_singleton.
      split; [tauto|]. intros [[-> | ?] | ?]; tauto.
    + cbn. f_equal. rewrite IH. do 2 f_equal.
      apply set_eq. intros k. rewrite !elem_of_union, elem_of_singleton. tauto.
Qed.

End Traces.

Section Pages.

Variable session_get : nat -> request -> http_outcome.
Variable self : GBIFClient.t.
Variable progress_callback : bool.
Variable stop_check : option (nat -> bool).
Variable total_estimate : Z.

(** What the loop over the items of a page does to the run. *)
Lemma fold_items year items g :
  let g' := fold_left (item_step progress_callback total_estimate year) items g in
  yielded g' = (yielded g ++ Deduplicator.fresh_records (seen_keys g) items)%list
  /\ requested g' = requested g
  /\ warned g' = warned g
  /\ seen_keys g' = list_to_set (Deduplicator.keys_of items) ∪ seen_keys g
  /\ requests_made (world g') = requests_made (world g)
  /\ polls (world g') = polls (world g)
  /\ trace (world g) `prefix_of` trace (world g').
Proof.
  revert g. induction items as [|item items IH]; intros g; cbn [fold_left].
  - cbn. rewrite app_nil_r, (left_id_L ∅ (∪)). by repeat split.
  - destruct (IH (item_step progress_callback total_estimate year g item))
      as (Hy & Hr & Hw & Hs & Hn & Hp & Hpre).
    cbn zeta. rewrite Hy, Hr, Hw, Hs, Hn, Hp. clear IH Hy Hr Hw Hs Hn Hp.
    unfold item_step in *. cbn [Deduplicator.fresh_records Deduplicator.keys_of map].
    case_bool_decide as Hseen.
    + repeat split; try done.
      apply set_eq. intros k. cbn. rewrite !elem_of_union, elem_of_singleton.
      split; [tauto|]. intros [[-> | ?] | ?]; tauto.
    + unfold yielded, requested, warned in *. cbn [world seen_keys] in *.
      destruct progress_callback; cbn [emit trace requests_made polls] in *;
        rewrite ?yields_of_app, ?requests_of_app, ?warnings_of_app; cbn;
        rewrite ?app_nil_r, <- ?app_assoc; cbn;
        (repeat split; try done;
         [ apply set_eq; intros k; cbn;
           rewrite !elem_of_union, elem_of_singleton; tauto
         | etrans; [|exact Hpre]; rewrite <- ?app_assoc; by eexists ]).
Qed.

End Pages.

Section Turns.

Variable session_get : nat -> request -> http_outcome.
Variable self : GBIFClient.t.
Variable progress_callback : bool.
Variable stop_check : option (nat -> bool).
Variable total_estimate : Z.

(** A turn of the page loop whose request is answered. *)
Lemma page_turn_delivered year params g w data :
  poll stop_check (world g) = (false, w) ->
  delivers (session_get (requests_made w) (search params)) data ->
  page_turn session_get self progress_callback stop_check total_estimate year params g
  = let results := Json.get (Json.results (Json.as_search data)) [] in
    if negb (truthy_list results) then (Break, with_world g (asked (search params) w))
    else
      let g' := fold_left (item_step progress_callback total_estimate year) results
                          (with_world g (asked (search params) w)) in
      if Json.get (Json.endOfRecords (Json.as_search data)) false
         || (Z.of_nat (length results) <? page_size self)
      then (Break, g')
      else if Json.get (offset params) 0 + page_size self >=? MAX_OFFSET
           then (Break, with_world g' (log WARNING (YearOver100K year) (world g')))
           else (Continue (advance params (page_size self)), g').
Proof.
  intros Hpoll Hget. unfold page_turn. rewrite Hpoll.
  rewrite (make_request_delivers session_get self _ _ w data Hget).
  reflexivity.
Qed.

(** A turn of the page loop whose request raises [APIError]. *)
Lemma page_turn_api_error year params g w w' e :
  poll stop_check (world g) = (false, w) ->
  _make_request session_get self OCCURRENCE_SEARCH_ENDPOINT (SearchParams params) w
  = (Raise (APIError e), w') ->
  page_turn session_get self progress_callback stop_check total_estimate year params g
  = (Break, with_world g (log WARNING (ErrorFetchingYear year (APIError e)) w')).
Proof.
  intros Hpoll Hreq. unfold page_turn. by rewrite Hpoll, Hreq.
Qed.

(** When a delivered page ends the loop of its year, and how the loop goes
    on otherwise. *)
Lemma page_turn_stops year params g w data :
  poll stop_check (world g) = (false, w) ->
  delivers (session_get (requests_made w) (search params)) data ->
  let results := Json.get (Json.results (Json.as_search data)) [] in
  let turn :=
    fst (page_turn session_get self progress_callback stop_check total_estimate
                   year params g) in
  (turn = Break <->
   results = []
   \/ Json.get (Json.endOfRecords (Json.as_search data)) false = true
   \/ Z.of_nat (length results) < page_size self
   \/ MAX_OFFSET <= Json.get (offset params) 0 + page_size self)
  /\ (turn <> Break -> turn = Continue (advance params (page_size self))).
Proof.
  intros Hpoll Hget results turn. subst turn.
  rewrite (page_turn_delivered _ _ _ _ _ Hpoll Hget). cbn zeta. fold results.
  destruct results as [|item items] eqn:Hres; cbn [truthy_list negb].
  { split; [|done]. split; [by left|done]. }
  destruct (Json.get (Json.endOfRecords (Json.as_search data)) false); cbn [orb].
  { split; [|done]. split; [by right; left|done]. }
  destruct (Z.ltb_spec (Z.of_nat (length (item :: items))) (page_size self)).
  { split; [|done]. split; [by right; right; left|done]. }
  rewrite Z.geb_leb.
  destruct (Z.leb_spec MAX_OFFSET (Json.get (offset params) 0 + page_size self)).
  { split; [|done]. split; [by right; right; right|done]. }
  cbn [fst]. split; [|done].
  split; [done|]. intros [? | [? | [? | ?]]]; [done|done|lia|lia].
Qed.

End Turns.

Section Runs.

Variable session_get : nat -> request -> http_outcome.
Variable current_year : Z.

Lemma range_single (y : Z) : range y (y + 1) = [y].
Proof.
  unfold range. replace (y + 1 - y) with 1 by lia.
  change (Z.to_nat 1) with 1%nat. cbn [seq map]. f_equal. apply Z.add_0_r.
Qed.

Lemma yielded_with_world_log g l m w :
  yielded (with_world g (log l m w)) = yields_of (trace w).
Proof.
  unfold yielded, log, emit. cbn. rewrite yields_of_app. cbn. apply app_nil_r.
Qed.

Lemma requested_with_world_log g l m w :
  requested (with_world g (log l m w)) = requests_of (trace w).
Proof.
  unfold requested, log, emit. cbn. rewrite requests_of_app. cbn. apply app_nil_r.
Qed.

Lemma yielded_with_world_asked g req w :
  yielded (with_world g (asked req w)) = yields_of (trace w).
Proof.
  unfold yielded, asked. cbn. rewrite yields_of_app. cbn. apply app_nil_r.
Qed.

Lemma requested_with_world_asked g req w :
  requested (with_world g (asked req w)) = (requests_of (trace w) ++ [req])%list.
Proof.
  unfold requested, asked. cbn. by rewrite requests_of_app.
Qed.

(** Two turns of the page loop: a full page that is not the last, then a
    page that reports the end of the records. *)
Lemma page_loop_two_pages (self : GBIFClient.t) (progress_callback : bool)
      (total_estimate year : Z) (params : search_params) (g : gen)
      (data1 data2 : Json.body) (items1 : list Json.item_json) (fuel : nat) :
  let items2 := Json.get (Json.results (Json.as_search data2)) [] in
  let second := advance params (page_size self) in
  0 < page_size self ->
  Json.get (offset params) 0 + page_size self < MAX_OFFSET ->
  delivers (session_get (requests_made (world g)) (search params)) data1 ->
  delivers (session_get (S (requests_made (world g))) (search second)) data2 ->
  Json.results (Json.as_search data1) = Some items1 ->
  Z.of_nat (length items1) = page_size self ->
  Json.get (Json.endOfRecords (Json.as_search data1)) false = false ->
  Json.endOfRecords (Json.as_search data2) = Some true ->
  exists g',
    page_loop session_get self progress_callback None total_estimate
              (S (S fuel)) year params g
    = Some (Ok (), g')
    /\ yielded g'
       = (yielded g ++ Deduplicator.fresh_records (seen_keys g) (items1 ++ items2))%list
    /\ requested g' = (requested g ++ [search params; search second])%list.
Proof.
  intros items2 second Hps Hoff H1 H2 Hres1 Hlen1 Hend1 Hend2.
  cbn [page_loop].
  rewrite (page_turn_delivered session_get self progress_callback None total_estimate
             year params g (world g) data1 eq_refl H1).
  cbn zeta. rewrite Hres1. cbn [Json.get].
  assert (Hne : truthy_list items1 = true).
  { destruct items1; [cbn in Hlen1; lia|done]. }
  rewrite Hne, Hend1. cbn [negb orb].
  destruct (Z.ltb_spec (Z.of_nat (length items1)) (page_size self)); [lia|].
  rewrite Z.geb_leb.
  destruct (Z.leb_spec MAX_OFFSET (Json.get (offset params) 0 + page_size self)); [lia|].
  fold second.
  set (g1 := fold_left (item_step progress_callback total_estimate year) items1
                       (with_world g (asked (search params) (world g)))).
  destruct (fold_items progress_callback total_estimate year items1
                       (with_world g (asked (search params) (world g))))
    as (Hy1 & Hr1 & _ & Hs1 & Hn1 & _ & _).
  fold g1 in Hy1, Hr1, Hs1, Hn1.
  cbn [with_world seen_keys world asked requests_made] in Hs1, Hn1.
  rewrite yielded_with_world_asked in Hy1. rewrite requested_with_world_asked in Hr1.
  rewrite <- Hn1 in H2.
  rewrite (page_turn_delivered session_get self progress_callback None total_estimate
             year second g1 (world g1) data2 eq_refl H2).
  cbn zeta. fold items2. rewrite Hend2. cbn [Json.get orb].
  rewrite fresh_records_app, app_assoc.
  destruct items2 as [|item items] eqn:Hitems; cbn [truthy_list negb].
  - eexists. split; [reflexivity|].
    rewrite yielded_with_world_asked, requested_with_world_asked.
    fold (yielded g1). fold (requested g1). rewrite Hy1, Hr1.
    cbn [Deduplicator.fresh_records]. unfold yielded, requested.
    by rewrite app_nil_r, <- !app_assoc.
  - eexists. split; [reflexivity|].
    destruct (fold_items progress_callback total_estimate year (item :: items)
                         (with_world g1 (asked (search second) (world g1))))
      as (Hy2 & Hr2 & _).
    rewrite Hy2, Hr2, yielded_with_world_asked, requested_with_world_asked.
    fold (yielded g1). fold (requested g1). rewrite Hy1, Hr1.
    cbn [with_world seen_keys]. rewrite Hs1. unfold yielded, requested.
    by rewrite <- !app_assoc.
Qed.

(** The run of a client that is given the count and two pages of one
    year. *)
Lemma two_page_run (timeout : Z * Z) (max_retries page_size_arg : Z)
      (taxon_key year : Z) (basis_of_record : basis) (has_coordinate : bool)
      (country : option string) (progress_callback : bool)
      (data0 data1 data2 : Json.body) (items1 : list Json.item_json) (fuel : nat) :
  let self := GBIFClient.__init__ timeout max_retries page_size_arg in
  let first := year_query self taxon_key basis_of_record has_coordinate country year in
  let second := advance first (page_size self) in
  let items2 := Json.get (Json.results (Json.as_search data2)) [] in
  0 < page_size_arg ->
  delivers (session_get 0%nat
              (search (count_query taxon_key basis_of_record has_coordinate None country)))
           data0 ->
  delivers (session_get 1%nat (search first)) data1 ->
  delivers (session_get 2%nat (search second)) data2 ->
  Json.results (Json.as_search data1) = Some items1 ->
  Z.of_nat (length items1) = page_size self ->
  Json.get (Json.endOfRecords (Json.as_search data1)) false = false ->
  Json.endOfRecords (Json.as_search data2) = Some true ->
  (2 <= fuel)%nat ->
  exists g,
    iter_occurrences_by_year session_get current_year fuel self taxon_key
                             year (Some year) basis_of_record has_coordinate country
                             progress_callback None World.initial
    = Some (Ok (), g)
    /\ yielded g = Deduplicator.fresh_records ∅ (items1 ++ items2)
    /\ requested g
       = [search (count_query taxon_key basis_of_record has_coordinate None country);
          search first; search second].
Proof.
  intros self first second items2 Hps H0 H1 H2 Hres1 Hlen1 Hend1 Hend2 Hfuel.
  assert (Hsize : 0 < page_size self <= 300).
  { subst self. cbn. lia. }
  unfold iter_occurrences_by_year, count_occurrences.
  rewrite (make_request_delivers session_get self _ _ World.initial data0 H0).
  rewrite range_single. cbn [year_loop poll world with_world count seen_keys].
  fold first.
  destruct fuel as [|[|fuel]]; [lia|lia|].
  set (total_estimate := Json.get (Json.count (Json.as_search data0)) 0).
  match goal with
  | |- context [page_loop _ _ _ _ _ _ _ _ ?g] => set (g0 := g)
  end.
  destruct (page_loop_two_pages self progress_callback total_estimate year first g0
                                data1 data2 items1 fuel)
    as (g' & Hrun & Hy & Hr); try done.
  { lia. }
  { change (Json.get (offset first) 0) with 0. unfold MAX_OFFSET. lia. }
  fold second in Hrun, Hr. fold items2 in Hy.
  rewrite Hrun. eexists. split; [reflexivity|].
  rewrite yielded_with_world_log, requested_with_world_log.
  fold (yielded g'). fold (requested g'). rewrite Hy, Hr.
  split; reflexivity.
Qed.

End Runs.

Section Containment.

Variable session_get : nat -> request -> http_outcome.
Variable self : GBIFClient.t.
Variable progress_callback : bool.
Variable stop_check : option (nat -> bool).
Variable total_estimate : Z.

(** A request leaves the world with one more request made, whatever comes
    back. *)
Lemma make_request_world endpoint query w :
  snd (_make_request session_get self endpoint query w)
  = asked {| endpoint := endpoint; query := query |} w.
Proof.
  unfold _make_request.
  destruct (session_get _ _) as [status_code json| | |]; try reflexivity.
  destruct (status_code =? 429); [reflexivity|].
  by destruct (_ && _).
Qed.

(** Without rate limiting a request returns a body or raises [APIError]. *)
Lemma make_request_outcome endpoint query w :
  never_rate_limited session_get ->
  (exists data, fst (_make_request session_get self endpoint query w) = Ok data)
  \/ (exists e, fst (_make_request session_get self endpoint query w) = Raise (APIError e)).
Proof.
  intros Hnever. unfold _make_request.
  destruct (session_get _ _) as [status_code json| | |] eqn:Hget;
    try (right; eexists; reflexivity).
  destruct (Z.eqb_spec status_code 429) as [->|_].
  { by apply Hnever in Hget. }
  destruct (_ && _); [right|left]; eexists; reflexivity.
Qed.

Lemma poll_trace w : trace (snd (poll stop_check w)) = trace w.
Proof. unfold poll. by destruct stop_check. Qed.

Lemma prefix_of_log (tr : list event) l m w :
  tr `prefix_of` trace w -> tr `prefix_of` trace (log l m w).
Proof. intros H. etrans; [exact H|]. by eexists. Qed.

Lemma prefix_of_asked (tr : list event) req w :
  tr `prefix_of` trace w -> tr `prefix_of` trace (asked req w).
Proof. intros H. etrans; [exact H|]. by eexists. Qed.

(** A turn that is not stopped adds its request to the trace, and what it
    adds after it. *)
Lemma page_turn_asked year params g w :
  poll stop_check (world g) = (false, w) ->
  trace (asked (search params) w)
  `prefix_of` trace (world (snd (page_turn session_get self progress_callback stop_check
                                           total_estimate year params g))).
Proof.
  intros Hpoll. unfold page_turn. rewrite Hpoll.
  pose proof (make_request_world OCCURRENCE_SEARCH_ENDPOINT (SearchParams params) w) as Hw.
  destruct (_make_request _ _ _ _ w) as [r w']. cbn [snd] in Hw. subst w'.
  fold (search params).
  destruct r as [data|e].
  - destruct (negb _); [done|].
    match goal with
    | |- context [fold_left ?f ?items ?g0] =>
        destruct (fold_items progress_callback total_estimate year items g0)
          as (_ & _ & _ & _ & _ & _ & Hpre)
    end.
    cbn [with_world world] in Hpre.
    destruct (_ || _); [exact Hpre|].
    destruct (_ >=? _); [|exact Hpre].
    cbn [snd with_world world]. by apply prefix_of_log.
  - destruct e; cbn [snd with_world world]; try done.
    by apply prefix_of_log.
Qed.

(** A turn of the page loop only adds to the trace. *)
Lemma page_turn_prefix year params g :
  trace (world g)
  `prefix_of` trace (world (snd (page_turn session_get self progress_callback stop_check
                                           total_estimate year params g))).
Proof.
  pose proof (poll_trace (world g)) as Hpoll.
  pose proof (page_turn_asked year params g) as Hasked.
  destruct (poll stop_check (world g)) as [[] w] eqn:Hp; cbn [snd] in Hpoll.
  - unfold page_turn. rewrite Hp. cbn. by rewrite Hpoll.
  - etrans; [|exact (Hasked w eq_refl)]. apply prefix_of_asked. by rewrite Hpoll.
Qed.

(** A turn that continues has moved the offset up by the page size, and
    not up to [MAX_OFFSET]. *)
Lemma page_turn_continue year params g params' g' :
  page_turn session_get self progress_callback stop_check total_estimate year params g
  = (Continue params', g') ->
  params' = advance params (page_size self)
  /\ Json.get (offset params) 0 + page_size self < MAX_OFFSET.
Proof.
  unfold page_turn.
  destruct (poll stop_check (world g)) as [[] w]; [done|].
  destruct (_make_request _ _ _ _ w) as [[data|[]] w']; try done.
  destruct (negb _); [done|].
  destruct (_ || _); [done|].
  cbn [advance offset Json.get].
  destruct (Z.geb_spec (Json.get (offset params) 0 + page_size self) MAX_OFFSET); [done|].
  intros [= <- <-]. split; [reflexivity|lia].
Qed.

(** Without rate limiting no exception leaves a turn of the page loop. *)
Lemma page_turn_contains year params g e :
  never_rate_limited session_get ->
  fst (page_turn session_get self progress_callback stop_check total_estimate year params g)
  <> Propagate e.
Proof.
  intros Hnever. unfold page_turn.
  destruct (poll stop_check (world g)) as [[] w]; [done|].
  destruct (make_request_outcome OCCURRENCE_SEARCH_ENDPOINT (SearchParams params) w Hnever)
    as [[data Hr]|[msg Hr]];
    destruct (_make_request _ _ _ _ w) as [r w']; cbn [fst] in Hr; subst r; [|done].
  destruct (negb _); [done|].
  destruct (_ || _); [done|].
  by destruct (_ >=? _).
Qed.

(** With a positive page size the page loop of a year ends within the
    turns that the distance of the offset from [MAX_OFFSET] allows, and
    without rate limiting it ends normally. *)
Lemma page_loop_returns fuel year params g :
  never_rate_limited session_get ->
  0 < page_size self ->
  (Z.to_nat (MAX_OFFSET - Json.get (offset params) 0%Z) < fuel)%nat ->
  exists g',
    page_loop session_get self progress_callback stop_check total_estimate
              fuel year params g = Some (Ok (), g')
    /\ trace (world g) `prefix_of` trace (world g')
    /\ (forall w, poll stop_check (world g) = (false, w) ->
                  EvRequest (search params) ∈ trace (world g')).
Proof.
  intros Hnever Hps. revert params g.
  induction fuel as [|fuel IH]; intros params g Hfuel; [lia|].
  cbn [page_loop].
  pose proof (page_turn_prefix year params g) as Hpre.
  pose proof (page_turn_asked year params g) as Hasked.
  pose proof (page_turn_contains year params g) as Hcontains.
  pose proof (page_turn_continue year params g) as Hcontinue.
  destruct (page_turn _ _ _ _ _ _ _ _) as [[|params'|e] g1]; cbn [fst snd] in *.
  - eexists. split; [reflexivity|]. split; [done|].
    intros w Hw. eapply elem_of_prefix; [|exact (Hasked w Hw)].
    cbn. apply elem_of_app. right. by left.
  - destruct (Hcontinue params' g1 eq_refl) as [-> Hlt].
    destruct (IH (advance params (page_size self)) g1) as (g' & Hrun & Hpre' & _).
    { cbn [advance offset Json.get]. lia. }
    exists g'. split; [exact Hrun|]. split; [by etrans|].
    intros w Hw. eapply elem_of_prefix; [|exact Hpre'].
    eapply elem_of_prefix; [|exact (Hasked w Hw)].
    cbn. apply elem_of_app. right. by left.
  - by destruct (Hcontains e Hnever).
Qed.

(** The turn of the failure: a page request that raises [APIError]
    ends the loop of its year normally, with a warning, and leaves what the
    run has yielded and counted as it was. *)
Lemma page_loop_api_error fuel year params g w e :
  poll stop_check (world g) = (false, w) ->
  fst (_make_request session_get self OCCURRENCE_SEARCH_ENDPOINT (SearchParams params) w)
  = Raise (APIError e) ->
  exists g',
    page_loop session_get self progress_callback stop_check total_estimate
              (S fuel) year params g = Some (Ok (), g')
    /\ yielded g' = yielded g
    /\ count g' = count g
    /\ seen_keys g' = seen_keys g
    /\ warned g' = (warned g ++ [ErrorFetchingYear year (APIError e)])%list
    /\ requested g' = (requested g ++ [search params])%list.
Proof.
  intros Hpoll Hreq. cbn [page_loop].
  pose proof (make_request_world OCCURRENCE_SEARCH_ENDPOINT (SearchParams params) w) as Hw.
  destruct (_make_request _ _ _ _ w) as [r w'] eqn:Hmr. cbn [fst snd] in *. subst r w'.
  rewrite (page_turn_api_error session_get self progress_callback stop_check total_estimate
             year params g w _ e Hpoll Hmr).
  eexists. split; [reflexivity|].
  assert (Htr : trace w = trace (world g)).
  { rewrite <- (poll_trace (world g)). by rewrite Hpoll. }
  unfold yielded, warned, requested, log, emit, asked.
  cbn [with_world world trace count seen_keys].
  rewrite !yields_of_app, !warnings_of_app, !requests_of_app, Htr. cbn.
  by rewrite !app_nil_r.
Qed.

End Containment.

Section Years.

Variable session_get : nat -> request -> http_outcome.
Variable self : GBIFClient.t.
Variable progress_callback : bool.
Variable total_estimate : Z.

Lemma elem_of_range (a b y : Z) : y ∈ range a b <-> a <= y < b.
Proof.
  unfold range. rewrite list_elem_of_fmap. split.
  - intros (i & -> & Hi%elem_of_seq). lia.
  - intros Hy. exists (Z.to_nat (y - a)). split; [lia|].
    apply elem_of_seq. lia.
Qed.

(** Without cancellation and without rate limiting the loop over the years
    goes through every year it is given, whatever the requests of the other
    years did: each year is announced in the log and its first page is
    requested, and the loop ends normally. *)
Lemma year_loop_returns fuel taxon_key basis_of_record has_coordinate country years g :
  never_rate_limited session_get ->
  0 < page_size self ->
  (Z.to_nat MAX_OFFSET < fuel)%nat ->
  exists g',
    year_loop session_get self progress_callback None total_estimate fuel
              taxon_key basis_of_record has_coordinate country years g
    = Some (Ok (), g')
    /\ trace (world g) `prefix_of` trace (world g')
    /\ forall y, y ∈ years ->
                 EvLog DEBUG (ProcessingYear y) ∈ trace (world g')
                 /\ EvRequest (search (year_query self taxon_key basis_of_record
                                                  has_coordinate country y))
                    ∈ trace (world g').
Proof.
  intros Hnever Hps Hfuel. revert g.
  induction years as [|year years IH]; intros g.
  - eexists. split; [reflexivity|]. split; [done|].
    intros y Hy. by apply elem_of_nil in Hy.
  - cbn [year_loop poll].
    set (g1 := with_world g (log DEBUG (ProcessingYear year) (world g))).
    set (first := year_query self taxon_key basis_of_record has_coordinate country year).
    destruct (page_loop_returns session_get self progress_callback None total_estimate
                                fuel year first g1 Hnever Hps)
      as (g2 & Hrun & Hpre2 & Hreq2).
    { change (Json.get (offset first) 0) with 0. rewrite Z.sub_0_r. exact Hfuel. }
    rewrite Hrun.
    destruct (IH g2) as (g' & Hrest & Hpre' & Hall).
    exists g'. split; [exact Hrest|].
    assert (Hlog : EvLog DEBUG (ProcessingYear year) ∈ trace (world g1)).
    { subst g1. cbn. apply elem_of_app. right. by left. }
    split.
    + etrans; [|exact Hpre']. etrans; [|exact Hpre2]. subst g1. cbn. by eexists.
    + intros y [-> | Hy]%elem_of_cons; [|by apply Hall].
      split.
      * eapply elem_of_prefix; [|exact Hpre']. eapply elem_of_prefix; [|exact Hpre2]. done.
      * eapply elem_of_prefix; [|exact Hpre']. by apply (Hreq2 (world g1)).
Qed.

End Years.

(** The whole run, when the count request is answered: without cancellation
    and without rate limiting the generator returns normally, whatever the
    page requests did, and has gone through every year of the range. *)
Lemma run_returns (session_get : nat -> request -> http_outcome) (current_year : Z)
      (self : GBIFClient.t) (progress_callback : bool)
      (taxon_key year_start : Z) (year_end : option Z) (basis_of_record : basis)
      (has_coordinate : bool) (country : option string) (data0 : Json.body) :
  never_rate_limited session_get ->
  0 < page_size self ->
  delivers (session_get 0%nat
              (search (count_query taxon_key basis_of_record has_coordinate None country)))
           data0 ->
  exists g,
    iter_occurrences_by_year session_get current_year enough_fuel self taxon_key
                             year_start year_end basis_of_record has_coordinate country
                             progress_callback None World.initial
    = Some (Ok (), g)
    /\ forall y, year_start <= y <= Json.get year_end current_year ->
                 EvLog DEBUG (ProcessingYear y) ∈ trace (world g)
                 /\ EvRequest (search (year_query self taxon_key basis_of_record
                                                  has_coordinate country y))
                    ∈ trace (world g).
Proof.
  intros Hnever Hps H0.
  unfold iter_occurrences_by_year, count_occurrences.
  rewrite (make_request_delivers session_get self _ _ World.initial data0 H0).
  match goal with
  | |- context [year_loop _ _ _ _ ?te ?fuel ?k ?b ?h ?c ?years ?g0] =>
      destruct (year_loop_returns session_get self progress_callback te fuel k b h c
                                  years g0 Hnever Hps)
        as (g' & Hrun & _ & Hall); [unfold enough_fuel; lia|]
  end.
  rewrite Hrun. eexists. split; [reflexivity|].
  intros y Hy.
  destruct (Hall y) as [Hlog Hreq].
  { apply elem_of_range. destruct year_end; cbn in *; lia. }
  cbn [with_world world log emit trace].
  split; apply elem_of_app; by left.
Qed.

(** ** Claims on the fetch *)

Lemma replay_delivers (bodies : list Json.body) (n : nat) (req : request) (b : Json.body) :
  nth_error bodies n = Some b -> delivers (ExampleResponses.replay bodies n req) b.
Proof.
  intros H. exists 200. unfold ExampleResponses.replay. rewrite H.
  split; [reflexivity|]. split; lia.
Qed.

Lemma replay_never_rate_limited (bodies : list Json.body) :
  never_rate_limited (ExampleResponses.replay bodies).
Proof.
  intros n req json. unfold ExampleResponses.replay.
  destruct (nth_error bodies n); congruence.
Qed.

(** C1, as stated, fails on two pages of which the first is short: the
    client with the default page size of 300 is given the count, a first
    page of two records that does not report the end of the records and a
    last page of one record that does. The first page has fewer results
    than the page size, so the page loop stops after it: the run makes the
    count request and one page request, and yields the two records of the
    first page, not the record of the last page. *)
Lemma page_protocol_counterexample :
  let session := ExampleResponses.replay ExampleResponses.two_pages in
  let self := ExampleResponses.default_client in
  let first := year_query self 1035566 (BasisStr "PRESERVED_SPECIMEN") true None 2020 in
  nth_error ExampleResponses.two_pages 2
  = Some (ExampleResponses.page_body 3 [ExampleResponses.item 3 2020] true)
  /\ page_size self = 300
  /\ exists g,
      iter_occurrences_by_year session 2026 enough_fuel self 1035566 2020 (Some 2020)
                               (BasisStr "PRESERVED_SPECIMEN") true None false None
                               World.initial
      = Some (Ok (), g)
      /\ yielded g
         = map OccurrenceRecord.from_api_response
               [ExampleResponses.item 1 2020; ExampleResponses.item 2 2020]
      /\ yielded g
         <> map OccurrenceRecord.from_api_response
                [ExampleResponses.item 1 2020; ExampleResponses.item 2 2020;
                 ExampleResponses.item 3 2020]
      /\ requested g
         = [search (count_query 1035566 (BasisStr "PRESERVED_SPECIMEN") true None None);
            search first].
Proof.
  intros session self first. split; [reflexivity|]. split; [reflexivity|].
  eexists. split; [vm_compute; reflexivity|].
  split; [reflexivity|]. split; [|reflexivity]. vm_compute. congruence.
Qed.

(** C1, amended: a client is given the count and then, for a single year,
    two pages: a first page of exactly the page size that does not report
    the end of the records, and a last page that does. Then
    [iter_occurrences_by_year] returns after yielding the records of the two
    pages in page order, each key once: exactly the records of the two pages
    when their keys are distinct. Its requests after the count are the
    year's query at offset 0 and the same query at offset page size. In
    every year a turn of the page loop that gets a response ends the loop
    exactly when the response has no results, reports the end of the
    records, has fewer results than the page size, or when the offset
    advanced by the page size reaches [MAX_OFFSET] = 100000; otherwise the
    loop goes on with the offset advanced by the page size. *)
Theorem page_protocol :
  (forall (session_get : nat -> request -> http_outcome) (current_year : Z)
          (timeout : Z * Z) (max_retries page_size_arg : Z)
          (taxon_key year : Z) (basis_of_record : basis) (has_coordinate : bool)
          (country : option string) (progress_callback : bool)
          (data0 data1 data2 : Json.body) (items1 : list Json.item_json) (fuel : nat),
      let self := GBIFClient.__init__ timeout max_retries page_size_arg in
      let first := year_query self taxon_key basis_of_record has_coordinate country year in
      let second := advance first (page_size self) in
      let items2 := Json.get (Json.results (Json.as_search data2)) [] in
      0 < page_size_arg ->
      delivers (session_get 0%nat
                  (search (count_query taxon_key basis_of_record has_coordinate None country)))
               data0 ->
      delivers (session_get 1%nat (search first)) data1 ->
      delivers (session_get 2%nat (search second)) data2 ->
      Json.results (Json.as_search data1) = Some items1 ->
      Z.of_nat (length items1) = page_size self ->
      Json.get (Json.endOfRecords (Json.as_search data1)) false = false ->
      Json.endOfRecords (Json.as_search data2) = Some true ->
      (2 <= fuel)%nat ->
      exists g,
        iter_occurrences_by_year session_get current_year fuel self taxon_key
                                 year (Some year) basis_of_record has_coordinate country
                                 progress_callback None World.initial
        = Some (Ok (), g)
        /\ yielded g = Deduplicator.fresh_records ∅ (items1 ++ items2)
        /\ NoDup (map OccurrenceRecord.key (yielded g))
        /\ (NoDup (Deduplicator.keys_of (items1 ++ items2)) ->
            yielded g = map OccurrenceRecord.from_api_response (items1 ++ items2))
        /\ requested g
           = [search (count_query taxon_key basis_of_record has_coordinate None country);
              search first; search second]
        /\ offset first = Some 0
        /\ offset second = Some (page_size self))
  /\ (forall (session_get : nat -> request -> http_outcome) (self : GBIFClient.t)
             (progress_callback : bool) (stop_check : option (nat -> bool))
             (total_estimate year : Z) (params : search_params) (g : gen)
             (w : World.t) (data : Json.body),
         poll stop_check (world g) = (false, w) ->
         delivers (session_get (requests_made w) (search params)) data ->
         let results := Json.get (Json.results (Json.as_search data)) [] in
         let turn :=
           fst (page_turn session_get self progress_callback stop_check total_estimate
                          year params g) in
         (turn = Break <->
          results = []
          \/ Json.get (Json.endOfRecords (Json.as_search data)) false = true
          \/ Z.of_nat (length results) < page_size self
          \/ MAX_OFFSET <= Json.get (offset params) 0 + page_size self)
         /\ (turn <> Break -> turn = Continue (advance params (page_size self)))
         /\ offset (advance params (page_size self))
            = Some (Json.get (offset params) 0 + page_size self)).
Proof.
  split.
  - intros session_get current_year timeout max_retries page_size_arg taxon_key year
           basis_of_record has_coordinate country progress_callback data0 data1 data2
           items1 fuel self first second items2 Hps H0 H1 H2 Hres1 Hlen1 Hend1 Hend2 Hfuel.
    destruct (two_page_run session_get current_year timeout max_retries page_size_arg
                           taxon_key year basis_of_record has_coordinate country
                           progress_callback data0 data1 data2 items1 fuel
                           Hps H0 H1 H2 Hres1 Hlen1 Hend1 Hend2 Hfuel)
      as (g & Hrun & Hy & Hr).
    exists g. split; [exact Hrun|]. split; [exact Hy|].
    split; [|split; [|split; [exact Hr|split; reflexivity]]].
    + rewrite Hy. apply fresh_records_keys.
    + intros Hnd. rewrite Hy. apply fresh_records_all; [exact Hnd|].
      intros k _. apply not_elem_of_empty.
  - intros session_get self progress_callback stop_check total_estimate year params g
           w data Hpoll Hget results turn.
    destruct (page_turn_stops session_get self progress_callback stop_check total_estimate
                              year params g w data Hpoll Hget) as [Hiff Hcont].
    split; [exact Hiff|]. split; [exact Hcont|reflexivity].
Qed.

Lemma page_protocol_witness :
  let session := ExampleResponses.replay ExampleResponses.two_pages in
  let self := GBIFClient.__init__ DEFAULT_TIMEOUT 3 2 in
  let first := year_query self 1035566 (BasisStr "PRESERVED_SPECIMEN") true None 2020 in
  (exists g,
      iter_occurrences_by_year session 2026 enough_fuel self 1035566 2020 (Some 2020)
                               (BasisStr "PRESERVED_SPECIMEN") true None false None
                               World.initial
      = Some (Ok (), g)
      /\ yielded g
         = map OccurrenceRecord.from_api_response
               [ExampleResponses.item 1 2020; ExampleResponses.item 2 2020;
                ExampleResponses.item 3 2020]
      /\ requested g
         = [search (count_query 1035566 (BasisStr "PRESERVED_SPECIMEN") true None None);
            search first; search (advance first 2)])
  /\ fst (page_turn session self false None 3 2020 first ExampleResponses.counted)
     = Continue (advance first 2).
Proof.
  intros session self first. split.
  - destruct (proj1 page_protocol session 2026 DEFAULT_TIMEOUT 3 2 1035566 2020
                    (BasisStr "PRESERVED_SPECIMEN") true None false
                    (ExampleResponses.count_body 3)
                    (ExampleResponses.page_body
                       3 [ExampleResponses.item 1 2020; ExampleResponses.item 2 2020] false)
                    (ExampleResponses.page_body 3 [ExampleResponses.item 3 2020] true)
                    [ExampleResponses.item 1 2020; ExampleResponses.item 2 2020]
                    enough_fuel)
      as (g & Hrun & _ & _ & Hall & Hreq & _);
      try reflexivity; try (apply replay_delivers; reflexivity).
    + unfold enough_fuel, MAX_OFFSET. lia.
    + exists g. split; [exact Hrun|]. split; [|exact Hreq].
      apply Hall. apply (bool_decide_unpack _). reflexivity.
  - destruct (proj2 page_protocol session self false None 3 2020 first
                    ExampleResponses.counted (world ExampleResponses.counted)
                    (ExampleResponses.page_body
                       3 [ExampleResponses.item 1 2020; ExampleResponses.item 2 2020] false)
                    eq_refl (replay_delivers ExampleResponses.two_pages 1 (search first) _ eq_refl))
      as (_ & Hcontinue & _).
    apply Hcontinue. vm_compute. discriminate.
Defined.

(** C2, as stated, fails on a run that yields nothing: the count is
    answered and every page request of the years 2000 and 2001 fails to
    connect, which [_make_request] turns into [APIError]. The generator
    yields no record and returns normally: the two errors are in the log as
    warnings and none is raised to the caller. *)
Lemma year_error_counterexample :
  let session := ExampleResponses.count_then_down 5 in
  let down := APIError "Connection error: no more responses" in
  exists g,
    iter_occurrences_by_year session 2026 enough_fuel ExampleResponses.client
                             1035566 2000 (Some 2001) (BasisStr "PRESERVED_SPECIMEN")
                             true None false None World.initial
    = Some (Ok (), g)
    /\ yielded g = []
    /\ warned g = [ErrorFetchingYear 2000 down; ErrorFetchingYear 2001 down]
    /\ iter_occurrences_by_year session 2026 enough_fuel ExampleResponses.client
                                1035566 2000 (Some 2001) (BasisStr "PRESERVED_SPECIMEN")
                                true None false None World.initial
       <> Some (Raise down, g).
Proof.
  intros session down. eexists. split; [vm_compute; reflexivity|].
  split; [reflexivity|]. split; [reflexivity|]. vm_compute. congruence.
Qed.

(** A year that fails does not take the next year with it: the request
    of the year 2000 fails to connect, the year 2001 delivers its page, and
    the run yields the record of 2001 after logging the error of 2000. *)
Lemma partial_results_example :
  exists g,
    iter_occurrences_by_year ExampleResponses.down_then_page 2026 enough_fuel
                             ExampleResponses.client 1035566 2000 (Some 2001)
                             (BasisStr "PRESERVED_SPECIMEN") true None false None
                             World.initial
    = Some (Ok (), g)
    /\ yielded g = [OccurrenceRecord.from_api_response (ExampleResponses.item 9 2001)]
    /\ warned g = [ErrorFetchingYear 2000 (APIError "Connection error: no connection")].
Proof.
  eexists. split; [vm_compute; reflexivity|]. split; reflexivity.
Qed.

(** C2, amended: a page request that raises [APIError] ends the page loop
    of its year normally, with the error logged as a warning and with what
    the run has yielded, counted and seen left as it was; and, with no
    cancellation and no rate limiting, a run whose count request is answered
    goes through every year of its range, whatever the page requests of the
    other years did, and returns normally: the errors of page requests are
    only logged and none is raised to the caller, also when the run yields
    no record. *)
Theorem year_error_containment :
  (forall (session_get : nat -> request -> http_outcome) (self : GBIFClient.t)
          (progress_callback : bool) (stop_check : option (nat -> bool))
          (total_estimate : Z) (fuel : nat) (year : Z) (params : search_params)
          (g : gen) (w : World.t) (e : string),
      poll stop_check (world g) = (false, w) ->
      fst (_make_request session_get self OCCURRENCE_SEARCH_ENDPOINT (SearchParams params) w)
      = Raise (APIError e) ->
      exists g',
        page_loop session_get self progress_callback stop_check total_estimate
                  (S fuel) year params g = Some (Ok (), g')
        /\ yielded g' = yielded g
        /\ count g' = count g
        /\ seen_keys g' = seen_keys g
        /\ warned g' = (warned g ++ [ErrorFetchingYear year (APIError e)])%list
        /\ requested g' = (requested g ++ [search params])%list)
  /\ (forall (session_get : nat -> request -> http_outcome) (current_year : Z)
             (self : GBIFClient.t) (progress_callback : bool)
             (taxon_key year_start : Z) (year_end : option Z) (basis_of_record : basis)
             (has_coordinate : bool) (country : option string) (data0 : Json.body),
         never_rate_limited session_get ->
         0 < page_size self ->
         delivers (session_get 0%nat
                     (search (count_query taxon_key basis_of_record has_coordinate
                                          None country)))
                  data0 ->
         exists g,
           iter_occurrences_by_year session_get current_year enough_fuel self taxon_key
                                    year_start year_end basis_of_record has_coordinate
                                    country progress_callback None World.initial
           = Some (Ok (), g)
           /\ forall y, year_start <= y <= Json.get year_end current_year ->
                        EvLog DEBUG (ProcessingYear y) ∈ trace (world g)
                        /\ EvRequest (search (year_query self taxon_key basis_of_record
                                                         has_coordinate country y))
                           ∈ trace (world g)).
Proof.
  split.
  - intros. by eapply page_loop_api_error.
  - intros. by eapply run_returns.
Qed.

Lemma year_error_containment_witness :
  let session := ExampleResponses.count_then_down 5 in
  let first :=
    year_query ExampleResponses.client 1035566 (BasisStr "PRESERVED_SPECIMEN") true None
               2000 in
  (exists g',
      page_loop session ExampleResponses.client false None 5 1 2000 first
                ExampleResponses.counted
      = Some (Ok (), g')
      /\ yielded g' = yielded ExampleResponses.counted
      /\ warned g'
         = [ErrorFetchingYear 2000 (APIError "Connection error: no more responses")])
  /\ (exists g,
         iter_occurrences_by_year session 2026 enough_fuel ExampleResponses.client
                                  1035566 2000 (Some 2001) (BasisStr "PRESERVED_SPECIMEN")
                                  true None false None World.initial
         = Some (Ok (), g)
         /\ EvLog DEBUG (ProcessingYear 2001) ∈ trace (world g)).
Proof.
  intros session first. split.
  - destruct (proj1 year_error_containment session ExampleResponses.client false None 5
                    0%nat 2000 first ExampleResponses.counted
                    (world ExampleResponses.counted)
                    "Connection error: no more responses" eq_refl eq_refl)
      as (g' & Hrun & Hy & _ & _ & Hw & _).
    exists g'. split; [exact Hrun|]. split; [exact Hy|exact Hw].
  - destruct (proj2 year_error_containment session 2026 ExampleResponses.client false
                    1035566 2000 (Some 2001) (BasisStr "PRESERVED_SPECIMEN") true None
                    (ExampleResponses.count_body 5)
                    (replay_never_rate_limited _))
      as (g & Hrun & Hall).
    + reflexivity.
    + apply replay_delivers. reflexivity.
    + exists g. split; [exact Hrun|]. apply Hall. cbn. lia.
Defined.

(** * Further properties *)

(** ** The generator's bookkeeping *)

Section Bookkeeping.

Variable session_get : nat -> request -> http_outcome.
Variable self : GBIFClient.t.
Variable progress_callback : bool.
Variable stop_check : option (nat -> bool).
Variable total_estimate : Z.

Lemma yields_of_log l m w : yields_of (trace (log l m w)) = yields_of (trace w).
Proof. unfold log, emit. cbn. rewrite yields_of_app. cbn. apply app_nil_r. Qed.

Lemma yields_of_asked req w : yields_of (trace (asked req w)) = yields_of (trace w).
Proof. unfold asked. cbn. rewrite yields_of_app. cbn. apply app_nil_r. Qed.

Lemma requests_of_log l m w : requests_of (trace (log l m w)) = requests_of (trace w).
Proof. unfold log, emit. cbn. rewrite requests_of_app. cbn. apply app_nil_r. Qed.

Lemma requests_of_asked req w :
  requests_of (trace (asked req w)) = (requests_of (trace w) ++ [req])%list.
Proof. unfold asked. cbn. by rewrite requests_of_app. Qed.

Lemma poll_false_trace w w' b : poll stop_check w = (b, w') -> trace w' = trace w.
Proof. intros H. rewrite <- (poll_trace stop_check w). by rewrite H. Qed.

(** A cancelled turn only breaks. *)
Lemma page_turn_cancelled year params g w :
  poll stop_check (world g) = (true, w) ->
  page_turn session_get self progress_callback stop_check total_estimate year params g
  = (Break, with_world g w).
Proof. intros Hpoll. unfold page_turn. by rewrite Hpoll. Qed.

(** A turn that is not cancelled ends in one of the ways of [turn_ends]. *)
Lemma page_turn_ends year params g w :
  poll stop_check (world g) = (false, w) ->
  Fetch.turn_ends self progress_callback total_estimate year params g w
    (page_turn session_get self progress_callback stop_check total_estimate year params g).
Proof.
  intros Hpoll. unfold page_turn. rewrite Hpoll.
  pose proof (make_request_world session_get self OCCURRENCE_SEARCH_ENDPOINT
                                 (SearchParams params) w) as Hw.
  assert (Hexn : forall e,
             fst (_make_request session_get self OCCURRENCE_SEARCH_ENDPOINT
                                (SearchParams params) w) = Raise e ->
             (exists msg, e = APIError msg) \/ (exists msg, e = RateLimitError msg)).
  { intros e. unfold _make_request.
    destruct (session_get _ _) as [status_code json| | |]; cbn;
      try (intros [= <-]; left; eauto).
    destruct (status_code =? 429); [intros [= <-]; right; eauto|].
    destruct (_ && _); [intros [= <-]; left; eauto|done]. }
  destruct (_make_request _ _ _ _ w) as [r w']. cbn [fst snd] in *. subst w'.
  fold (search params).
  destruct r as [data|e].
  - destruct (negb _); [constructor|].
    destruct (_ || _); [constructor|].
    cbn [advance offset Json.get].
    destruct (Z.geb_spec (Json.get (offset params) 0 + page_size self) MAX_OFFSET).
    + apply Fetch.ends_at_ceiling. lia.
    + by apply Fetch.ends_continue.
  - destruct (Hexn e eq_refl) as [[msg ->]|[msg ->]]; constructor.
Qed.

End Bookkeeping.

Section Consistency.

Variable session_get : nat -> request -> http_outcome.
Variable self : GBIFClient.t.
Variable progress_callback : bool.
Variable stop_check : option (nat -> bool).
Variable total_estimate : Z.

Lemma consistent_with_world g w :
  yields_of (trace w) = yielded g ->
  Fetch.consistent g -> Fetch.consistent (with_world g w).
Proof.
  intros Hw (Hnd & Hseen & Hcount). unfold Fetch.consistent, yielded in *.
  cbn [with_world world seen_keys count]. by rewrite Hw.
Qed.

Lemma consistent_item_step year g item :
  Fetch.consistent g ->
  Fetch.consistent (item_step progress_callback total_estimate year g item).
Proof.
  intros (Hnd & Hseen & Hcount). unfold item_step.
  case_bool_decide as Hin; [done|].
  set (record := OccurrenceRecord.from_api_response item) in *.
  assert (Hy : yielded {| count := count g + 1;
                          seen_keys := {[OccurrenceRecord.key record]} ∪ seen_keys g;
                          world := if progress_callback
                                   then emit (EvProgress (count g + 1) total_estimate year)
                                             (emit (EvYield record) (world g))
                                   else emit (EvYield record) (world g) |}
               = (yielded g ++ [record])%list).
  { unfold yielded, emit. cbn [world].
    destruct progress_callback; cbn [trace]; rewrite ?yields_of_app; cbn;
      by rewrite ?app_nil_r. }
  unfold Fetch.consistent. rewrite Hy. cbn [seen_keys count].
  rewrite map_app, length_app. cbn [map length]. split; [|split].
  - apply NoDup_app. split; [done|]. split; [|apply NoDup_singleton].
    intros k Hk ->%list_elem_of_singleton. apply Hin. by apply Hseen.
  - intros k. rewrite elem_of_union, elem_of_singleton, elem_of_app, list_elem_of_singleton.
    rewrite Hseen. tauto.
  - rewrite Hcount. lia.
Qed.

Lemma consistent_fold year items g :
  Fetch.consistent g ->
  Fetch.consistent (fold_left (item_step progress_callback total_estimate year) items g).
Proof.
  revert g. induction items as [|item items IH]; intros g Hg; [done|].
  cbn [fold_left]. by apply IH, consistent_item_step.
Qed.

Lemma consistent_asked g req w :
  trace w = trace (world g) ->
  Fetch.consistent g -> Fetch.consistent (with_world g (asked req w)).
Proof.
  intros Hw. apply consistent_with_world. by rewrite yields_of_asked, Hw.
Qed.

(** A turn of the page loop keeps the bookkeeping consistent. *)
Lemma consistent_page_turn year params g :
  Fetch.consistent g ->
  Fetch.consistent
    (snd (page_turn session_get self progress_callback stop_check total_estimate
                    year params g)).
Proof.
  intros Hg.
  destruct (poll stop_check (world g)) as [[] w] eqn:Hpoll.
  - rewrite (page_turn_cancelled _ _ _ _ _ _ _ _ _ Hpoll). cbn [snd].
    apply consistent_with_world; [|done].
    by rewrite (poll_false_trace _ _ _ _ Hpoll).
  - pose proof (poll_false_trace _ _ _ _ Hpoll) as Hw.
    destruct (page_turn_ends session_get self progress_callback stop_check total_estimate
                             year params g w Hpoll); cbn [snd].
    + apply consistent_with_world; [|done].
      by rewrite yields_of_log, yields_of_asked, Hw.
    + by apply consistent_asked.
    + by apply consistent_asked.
    + by apply consistent_fold, consistent_asked.
    + apply consistent_with_world; [by rewrite yields_of_log|].
      by apply consistent_fold, consistent_asked.
    + by apply consistent_fold, consistent_asked.
Qed.

Lemma consistent_page_loop fuel year params g r g' :
  page_loop session_get self progress_callback stop_check total_estimate fuel year params g
  = Some (r, g') ->
  Fetch.consistent g -> Fetch.consistent g'.
Proof.
  revert params g. induction fuel as [|fuel IH]; intros params g; [done|].
  cbn [page_loop]. intros Hrun Hg.
  pose proof (consistent_page_turn year params g Hg) as Hturn.
  destruct (page_turn _ _ _ _ _ _ _ _) as [[|params'|e] g1]; cbn [snd] in Hturn.
  - by injection Hrun as <- <-.
  - by eapply IH.
  - by injection Hrun as <- <-.
Qed.

Lemma consistent_year_loop fuel taxon_key basis_of_record has_coordinate country years
      g r g' :
  year_loop session_get self progress_callback stop_check total_estimate fuel
            taxon_key basis_of_record has_coordinate country years g
  = Some (r, g') ->
  Fetch.consistent g -> Fetch.consistent g'.
Proof.
  revert g. induction years as [|year years IH]; intros g; cbn [year_loop].
  - by intros [= <- <-].
  - destruct (poll stop_check (world g)) as [stop w] eqn:Hpoll.
    pose proof (poll_false_trace _ _ _ _ Hpoll) as Hw.
    destruct stop.
    + intros [= <- <-] Hg. apply consistent_with_world; [|done].
      by rewrite yields_of_log, Hw.
    + intros Hrun Hg.
      assert (Hg1 : Fetch.consistent (with_world g (log DEBUG (ProcessingYear year) w))).
      { apply consistent_with_world; [|done]. by rewrite yields_of_log, Hw. }
      destruct (page_loop _ _ _ _ _ _ _ _ _) as [[[[]|e] g2]|] eqn:Hpages; [| |done].
      * eapply IH; [exact Hrun|]. by eapply consistent_page_loop.
      * injection Hrun as <- <-. by eapply consistent_page_loop.
Qed.

End Consistency.

(** Every run leaves a consistent bookkeeping. *)
Lemma run_consistent (session_get : nat -> request -> http_outcome) (current_year : Z)
      (fuel : nat) (self : GBIFClient.t) (taxon_key year_start : Z)
      (year_end : option Z) (basis_of_record : basis) (has_coordinate : bool)
      (country : option string) (progress_callback : bool)
      (stop_check : option (nat -> bool)) (r : result unit) (g : gen) :
  iter_occurrences_by_year session_get current_year fuel self taxon_key year_start year_end
                           basis_of_record has_coordinate country progress_callback
                           stop_check World.initial
  = Some (r, g) ->
  Fetch.consistent g.
Proof.
  unfold iter_occurrences_by_year, count_occurrences.
  pose proof (make_request_world
                session_get self OCCURRENCE_SEARCH_ENDPOINT
                (SearchParams (count_query taxon_key basis_of_record has_coordinate
                                           None country)) World.initial) as Hw.
  destruct (_make_request _ _ _ _ _) as [[data|e] w]; cbn [snd] in Hw; subst w.
  - match goal with
    | |- context [year_loop _ _ _ _ _ _ _ _ _ _ _ ?g] => set (g0 := g)
    end.
    assert (Hstart : Fetch.consistent g0).
    { unfold Fetch.consistent, yielded, g0. cbn [world seen_keys count].
      rewrite yields_of_log, yields_of_asked. cbn. split; [constructor|]. split; [|done].
      intros k. split; [by intros ?%not_elem_of_empty|by intros ?%elem_of_nil]. }
    destruct (year_loop _ _ _ _ _ _ _ _ _ _ _ _) as [[[[]|e] g1]|] eqn:Hyears; [| |done].
    + intros [= <- <-].
      pose proof (consistent_year_loop _ _ _ _ _ _ _ _ _ _ _ _ _ _ Hyears Hstart) as Hg1.
      apply consistent_with_world; [|done]. by rewrite yields_of_log.
    + intros [= <- <-].
      exact (consistent_year_loop _ _ _ _ _ _ _ _ _ _ _ _ _ _ Hyears Hstart).
  - intros [= <- <-].
    unfold Fetch.consistent, yielded. cbn [world seen_keys count].
    rewrite yields_of_asked. cbn. split; [constructor|]. split; [|done].
    intros k. split; [by intros ?%not_elem_of_empty|by intros ?%elem_of_nil].
Qed.

(** X1. Whatever the server answers, whenever the run is cancelled and
    however it ends, the records [iter_occurrences_by_year] has yielded have
    pairwise distinct keys, its set of seen keys holds exactly their keys and
    its counter is their number; a run that returns normally ends by logging
    that number as the number of records downloaded. *)
Theorem unique_records (session_get : nat -> request -> http_outcome) (current_year : Z)
        (fuel : nat) (self : GBIFClient.t) (taxon_key year_start : Z)
        (year_end : option Z) (basis_of_record : basis) (has_coordinate : bool)
        (country : option string) (progress_callback : bool)
        (stop_check : option (nat -> bool)) (r : result unit) (g : gen) :
  iter_occurrences_by_year session_get current_year fuel self taxon_key year_start year_end
                           basis_of_record has_coordinate country progress_callback
                           stop_check World.initial
  = Some (r, g) ->
  NoDup (map OccurrenceRecord.key (yielded g))
  /\ (forall k, k ∈ seen_keys g <-> k ∈ map OccurrenceRecord.key (yielded g))
  /\ count g = Z.of_nat (length (yielded g))
  /\ (r = Ok () ->
      last (trace (world g)) = Some (EvLog INFO (Downloaded (Z.of_nat (length (yielded g)))))).
Proof.
  intros Hrun.
  destruct (run_consistent _ _ _ _ _ _ _ _ _ _ _ _ _ _ Hrun) as (Hnd & Hseen & Hcount).
  split; [done|]. split; [done|]. split; [done|].
  intros ->. rewrite <- Hcount. revert Hrun. unfold iter_occurrences_by_year.
  destruct (count_occurrences _ _ _ _ _ _ _ _) as [[total|e] w]; [|done].
  destruct (year_loop _ _ _ _ _ _ _ _ _ _ _ _) as [[[[]|e] g1]|]; [|done|done].
  intros [= <-]. cbn [with_world world count log emit trace]. apply last_snoc.
Qed.

(** ** The requests of a run *)

Section Requests.

Variable session_get : nat -> request -> http_outcome.
Variable self : GBIFClient.t.
Variable progress_callback : bool.
Variable stop_check : option (nat -> bool).
Variable total_estimate : Z.

Lemma requested_fold year items g :
  requested (fold_left (item_step progress_callback total_estimate year) items g)
  = requested g.
Proof. apply (fold_items progress_callback total_estimate year items g). Qed.

Lemma requested_asked g req w :
  trace w = trace (world g) ->
  requested (with_world g (asked req w)) = (requested g ++ [req])%list.
Proof. intros Hw. rewrite requested_with_world_asked. unfold requested. by rewrite Hw. Qed.

(** A turn makes no request, when it is cancelled, or the one request of
    its parameters. *)
Lemma requested_page_turn year params g :
  let g' := snd (page_turn session_get self progress_callback stop_check total_estimate
                           year params g) in
  requested g' = requested g \/ requested g' = (requested g ++ [search params])%list.
Proof.
  destruct (poll stop_check (world g)) as [[] w] eqn:Hpoll.
  - rewrite (page_turn_cancelled _ _ _ _ _ _ _ _ _ Hpoll). cbn [snd]. left.
    unfold requested. cbn [with_world world].
    by rewrite (poll_false_trace _ _ _ _ Hpoll).
  - pose proof (poll_false_trace _ _ _ _ Hpoll) as Hw. right.
    destruct (page_turn_ends session_get self progress_callback stop_check total_estimate
                             year params g w Hpoll); cbn [snd].
    + rewrite requested_with_world_log, requests_of_asked. unfold requested. by rewrite Hw.
    + by apply requested_asked.
    + by apply requested_asked.
    + rewrite requested_fold. by apply requested_asked.
    + rewrite requested_with_world_log.
      change (requests_of (trace (world ?g))) with (requested g).
      rewrite requested_fold. by apply requested_asked.
    + rewrite requested_fold. by apply requested_asked.
Qed.

Variable taxon_key : Z.
Variable basis_of_record : basis.
Variable has_coordinate : bool.
Variable country : option string.
Variables year_start year_stop : Z.

Lemma advance_advance year (k : nat) :
  advance (advance (year_query self taxon_key basis_of_record has_coordinate country year)
                   (Z.of_nat k * page_size self))
          (page_size self)
  = advance (year_query self taxon_key basis_of_record has_coordinate country year)
            (Z.of_nat (S k) * page_size self).
Proof. unfold advance. cbn. do 2 f_equal. lia. Qed.

Lemma requests_page_loop fuel year (k : nat) g r g' :
  year_start <= year < year_stop ->
  Z.of_nat k * page_size self < MAX_OFFSET ->
  page_loop session_get self progress_callback stop_check total_estimate fuel year
            (advance (year_query self taxon_key basis_of_record has_coordinate country year)
                     (Z.of_nat k * page_size self)) g
  = Some (r, g') ->
  exists pages,
    requested g' = (requested g ++ pages)%list
    /\ Forall (Fetch.page_request self taxon_key basis_of_record has_coordinate country
                                  year_start year_stop) pages.
Proof.
  intros Hyear. revert k g. induction fuel as [|fuel IH]; intros k g Hk; [done|].
  cbn [page_loop].
  set (params := advance _ _).
  assert (Hreq : Fetch.page_request self taxon_key basis_of_record has_coordinate country
                                    year_start year_stop (search params)).
  { exists year, k. done. }
  pose proof (requested_page_turn year params g) as Hturn.
  assert (Hone : forall g1,
             requested g1 = requested g
             \/ requested g1 = (requested g ++ [search params])%list ->
             exists pages,
               requested g1 = (requested g ++ pages)%list
               /\ Forall (Fetch.page_request self taxon_key basis_of_record has_coordinate
                                             country year_start year_stop) pages).
  { intros g1 [->| ->].
    - exists []. by rewrite app_nil_r.
    - exists [search params]. split; [done|]. by constructor. }
  destruct (page_turn _ _ _ _ _ _ _ _) as [[|params'|e] g1] eqn:Hpt; cbn [snd] in Hturn.
  - intros [= <- <-]. by apply Hone.
  - destruct (page_turn_continue _ _ _ _ _ _ _ _ _ _ Hpt) as [-> Hlt].
    subst params. rewrite advance_advance. intros Hrun.
    destruct (IH (S k) g1) as (pages & Hpages & Hall); [|exact Hrun|].
    + unfold advance, year_query in Hlt. cbn [offset Json.get] in Hlt. lia.
    + destruct (Hone g1 Hturn) as (first & Hfirst & Hall1).
      exists (first ++ pages)%list. split.
      * by rewrite Hpages, Hfirst, app_assoc.
      * by apply Forall_app.
  - intros [= <- <-]. by apply Hone.
Qed.

Lemma requests_year_loop fuel years g r g' :
  Forall (fun year => year_start <= year < year_stop) years ->
  year_loop session_get self progress_callback stop_check total_estimate fuel
            taxon_key basis_of_record has_coordinate country years g
  = Some (r, g') ->
  exists pages,
    requested g' = (requested g ++ pages)%list
    /\ Forall (Fetch.page_request self taxon_key basis_of_record has_coordinate country
                                  year_start year_stop) pages.
Proof.
  revert g. induction years as [|year years IH]; intros g Hyears; cbn [year_loop].
  - intros [= <- <-]. exists []. by rewrite app_nil_r.
  - apply Forall_cons in Hyears as [Hyear Hyears].
    destruct (poll stop_check (world g)) as [stop w] eqn:Hpoll.
    pose proof (poll_false_trace _ _ _ _ Hpoll) as Hw.
    destruct stop.
    + intros [= <- <-]. exists []. rewrite app_nil_r, requested_with_world_log.
      unfold requested. by rewrite Hw.
    + set (g0 := with_world g _).
      assert (Hg0 : requested g0 = requested g).
      { unfold g0. rewrite requested_with_world_log. unfold requested. by rewrite Hw. }
      change (year_query self taxon_key basis_of_record has_coordinate country year)
        with (advance (year_query self taxon_key basis_of_record has_coordinate country year)
                      (Z.of_nat 0 * page_size self)).
      assert (H0 : Z.of_nat 0 * page_size self < MAX_OFFSET) by done.
      destruct (page_loop _ _ _ _ _ _ _ _ _) as [[[[]|e] g1]|] eqn:Hpages; [| |done].
      * intros Hrun.
        destruct (requests_page_loop _ _ _ _ _ _ Hyear H0 Hpages)
          as (first & Hfirst & Hall1).
        destruct (IH g1 Hyears Hrun) as (pages & Hpages' & Hall).
        exists (first ++ pages)%list. split.
        -- by rewrite Hpages', Hfirst, Hg0, app_assoc.
        -- by apply Forall_app.
      * intros [= <- <-].
        destruct (requests_page_loop _ _ _ _ _ _ Hyear H0 Hpages)
          as (first & Hfirst & Hall1).
        exists first. by rewrite Hfirst, Hg0.
Qed.

End Requests.

Lemma range_bounds (a b : Z) : Forall (fun y => a <= y < b) (range a b).
Proof. apply Forall_forall. intros y. by rewrite elem_of_range. Qed.

(** X2. The requests of a run of [iter_occurrences_by_year], however it
    ends: first the count request, with limit 0; then only page requests,
    each the query of a year of the requested range, with the client's page
    size as limit and an offset that is a multiple of the page size below
    [MAX_OFFSET]. *)
Theorem requests_of_a_run (session_get : nat -> request -> http_outcome) (current_year : Z)
        (fuel : nat) (self : GBIFClient.t) (taxon_key year_start : Z)
        (year_end : option Z) (basis_of_record : basis) (has_coordinate : bool)
        (country : option string) (progress_callback : bool)
        (stop_check : option (nat -> bool)) (r : result unit) (g : gen) :
  iter_occurrences_by_year session_get current_year fuel self taxon_key year_start year_end
                           basis_of_record has_coordinate country progress_callback
                           stop_check World.initial
  = Some (r, g) ->
  exists pages,
    requested g
    = search (count_query taxon_key basis_of_record has_coordinate None country) :: pages
    /\ Forall (Fetch.page_request self taxon_key basis_of_record has_coordinate country
                                  year_start (Json.get year_end current_year + 1)) pages.
Proof.
  unfold iter_occurrences_by_year, count_occurrences.
  pose proof (make_request_world
                session_get self OCCURRENCE_SEARCH_ENDPOINT
                (SearchParams (count_query taxon_key basis_of_record has_coordinate
                                           None country)) World.initial) as Hw.
  destruct (_make_request _ _ _ _ _) as [[data|e] w]; cbn [snd] in Hw; subst w.
  - match goal with
    | |- context [year_loop _ _ _ _ _ _ _ _ _ _ _ ?g0] => set (g0' := g0)
    end.
    assert (Hg0 : requested g0'
                  = [search (count_query taxon_key basis_of_record has_coordinate
                                         None country)]).
    { unfold g0', requested. cbn [world]. by rewrite requests_of_log, requests_of_asked. }
    replace (match year_end with Some y => y | None => current_year end)
      with (Json.get year_end current_year) by by destruct year_end.
    destruct (year_loop _ _ _ _ _ _ _ _ _ _ _ _) as [[[[]|e] g1]|] eqn:Hyears; [| |done].
    + intros [= <- <-].
      destruct (requests_year_loop _ _ _ _ _ _ _ _ _ _ _ _ _ _ _ _
                                   (range_bounds _ _) Hyears) as (pages & Hpages & Hall).
      exists pages. split; [|done].
      rewrite requested_with_world_log.
      change (requests_of (trace (world g1))) with (requested g1).
      by rewrite Hpages, Hg0.
    + intros [= <- <-].
      destruct (requests_year_loop _ _ _ _ _ _ _ _ _ _ _ _ _ _ _ _
                                   (range_bounds _ _) Hyears) as (pages & Hpages & Hall).
      exists pages. split; [|done]. by rewrite Hpages, Hg0.
  - intros [= <- <-]. exists []. split; [|done].
    unfold requested. cbn [world]. by rewrite requests_of_asked.
Qed.

(** ** Exceptions, cancellation and termination *)

Section Endings.

Variable session_get : nat -> request -> http_outcome.
Variable self : GBIFClient.t.
Variable progress_callback : bool.
Variable stop_check : option (nat -> bool).
Variable total_estimate : Z.

(** How a request can fail: with [RateLimitError] on status 429, with
    [APIError] otherwise. *)
Lemma make_request_raises endpoint query w e :
  fst (_make_request session_get self endpoint query w) = Raise e ->
  (e = RateLimitError "GBIF rate limit exceeded. Please wait and retry."
   /\ exists json,
       session_get (requests_made w) {| endpoint := endpoint; query := query |}
       = Response 429 json)
  \/ (exists msg, e = APIError msg).
Proof.
  unfold _make_request.
  destruct (session_get _ _) as [status_code json| | |]; cbn [fst];
    try (intros [= <-]; right; eauto).
  destruct (Z.eqb_spec status_code 429) as [->|_].
  - intros [= <-]. left. eauto.
  - destruct (_ && _); [|done]. intros [= <-]. right. eauto.
Qed.

Lemma page_turn_propagates year params g e g' :
  page_turn session_get self progress_callback stop_check total_estimate year params g
  = (Propagate e, g') ->
  Fetch.rate_limited_at session_get g' e.
Proof.
  unfold page_turn.
  destruct (poll stop_check (world g)) as [[] w]; [done|].
  pose proof (make_request_world session_get self OCCURRENCE_SEARCH_ENDPOINT
                                 (SearchParams params) w) as Hw.
  pose proof (make_request_raises OCCURRENCE_SEARCH_ENDPOINT (SearchParams params) w)
    as Hexn.
  destruct (_make_request _ _ _ _ w) as [[data|e'] w']; cbn [fst snd] in *; subst w'.
  - destruct (negb _); [done|]. destruct (_ || _); [done|]. by destruct (_ >=? _).
  - destruct (Hexn e' eq_refl) as [[-> (json & Hjson)]|[msg ->]]; [|done].
    intros [= <- <-]. split; [done|].
    exists (requests_made w), (search params), json.
    split; [done|]. split; [|done].
    cbn [with_world world asked trace]. apply last_snoc.
Qed.

Lemma page_loop_raises fuel year params g e g' :
  page_loop session_get self progress_callback stop_check total_estimate fuel year params g
  = Some (Raise e, g') ->
  Fetch.rate_limited_at session_get g' e.
Proof.
  revert params g. induction fuel as [|fuel IH]; intros params g; [done|].
  cbn [page_loop].
  destruct (page_turn _ _ _ _ _ _ _ _) as [[|params'|e'] g1] eqn:Hpt.
  - done.
  - apply IH.
  - intros [= <- <-]. by eapply page_turn_propagates.
Qed.

Lemma year_loop_raises fuel taxon_key basis_of_record has_coordinate country years g e g' :
  year_loop session_get self progress_callback stop_check total_estimate fuel
            taxon_key basis_of_record has_coordinate country years g
  = Some (Raise e, g') ->
  Fetch.rate_limited_at session_get g' e.
Proof.
  revert g. induction years as [|year years IH]; intros g; cbn [year_loop]; [done|].
  destruct (poll stop_check (world g)) as [[] w]; [done|].
  destruct (page_loop _ _ _ _ _ _ _ _ _) as [[[[]|e'] g1]|] eqn:Hpages; [| |done].
  - apply IH.
  - intros [= <- <-]. by eapply page_loop_raises.
Qed.

(** With a positive page size the page loop of a year ends within the
    turns that are left up to [MAX_OFFSET]. *)
Lemma page_loop_ends fuel year params g :
  0 < page_size self ->
  (Z.to_nat (MAX_OFFSET - Json.get (offset params) 0%Z) < fuel)%nat ->
  exists r g',
    page_loop session_get self progress_callback stop_check total_estimate
              fuel year params g = Some (r, g').
Proof.
  intros Hps. revert params g. induction fuel as [|fuel IH]; intros params g Hfuel; [lia|].
  cbn [page_loop].
  destruct (page_turn _ _ _ _ _ _ _ _) as [[|params'|e] g1] eqn:Hpt; [by eauto| |by eauto].
  destruct (page_turn_continue _ _ _ _ _ _ _ _ _ _ Hpt) as [-> Hlt].
  apply IH. cbn [advance offset Json.get]. lia.
Qed.

(** More turns than the page loop needs do not change its outcome. *)
Lemma page_loop_fuel fuel fuel' year params g x :
  page_loop session_get self progress_callback stop_check total_estimate fuel year params g
  = Some x ->
  (fuel <= fuel')%nat ->
  page_loop session_get self progress_callback stop_check total_estimate fuel' year params g
  = Some x.
Proof.
  revert fuel' params g. induction fuel as [|fuel IH]; intros fuel' params g; [done|].
  intros Hrun Hle. destruct fuel' as [|fuel']; [lia|].
  cbn [page_loop] in *.
  destruct (page_turn _ _ _ _ _ _ _ _) as [[|params'|e] g1]; [done| |done].
  apply IH; [done|lia].
Qed.

Lemma year_loop_ends fuel taxon_key basis_of_record has_coordinate country years g :
  0 < page_size self ->
  (enough_fuel <= fuel)%nat ->
  exists r g',
    year_loop session_get self progress_callback stop_check total_estimate fuel
              taxon_key basis_of_record has_coordinate country years g
    = Some (r, g').
Proof.
  intros Hps Hfuel. revert g. induction years as [|year years IH]; intros g;
    cbn [year_loop]; [by eauto|].
  destruct (poll stop_check (world g)) as [[] w]; [by eauto|].
  match goal with
  | |- context [page_loop _ _ _ _ _ _ ?y ?p ?g0] =>
      destruct (page_loop_ends fuel y p g0 Hps) as (r & g1 & ->)
  end.
  - unfold enough_fuel, MAX_OFFSET in *. cbn [year_query offset Json.get]. lia.
  - destruct r as [[]|e]; [apply IH|by eauto].
Qed.

Lemma year_loop_fuel fuel fuel' taxon_key basis_of_record has_coordinate country years g x :
  year_loop session_get self progress_callback stop_check total_estimate fuel
            taxon_key basis_of_record has_coordinate country years g
  = Some x ->
  (fuel <= fuel')%nat ->
  year_loop session_get self progress_callback stop_check total_estimate fuel'
            taxon_key basis_of_record has_coordinate country years g
  = Some x.
Proof.
  intros Hrun Hle. revert g Hrun. induction years as [|year years IH]; intros g;
    cbn [year_loop]; [done|].
  destruct (poll stop_check (world g)) as [[] w]; [done|].
  destruct (page_loop _ _ _ _ _ fuel _ _ _) as [[r g1]|] eqn:Hpages; [|done].
  rewrite (page_loop_fuel _ _ _ _ _ _ Hpages Hle).
  destruct r as [[]|e]; [apply IH|done].
Qed.

(** With a page size that is not positive, no cancellation, and a server
    that answers every request with a page of results that is not marked
    as the last, the page loop of a year never ends. *)
Lemma page_loop_diverges fuel year params g :
  stop_check = None ->
  page_size self <= 0 ->
  Json.get (offset params) 0 <= 0 ->
  (forall n req, exists data,
        delivers (session_get n req) data
        /\ Json.get (Json.results (Json.as_search data)) [] <> []
        /\ Json.get (Json.endOfRecords (Json.as_search data)) false = false) ->
  page_loop session_get self progress_callback stop_check total_estimate fuel year params g
  = None.
Proof.
  intros Hstop Hps Hoff Hserver. revert params g Hoff.
  induction fuel as [|fuel IH]; intros params g Hoff; [done|].
  cbn [page_loop].
  assert (Hpoll : poll stop_check (world g) = (false, world g)) by by rewrite Hstop.
  destruct (Hserver (requests_made (world g)) (search params)) as (data & Hdata & Hres & Hend).
  rewrite (page_turn_delivered _ _ _ _ _ _ _ _ _ _ Hpoll Hdata). cbn zeta.
  destruct (Json.get (Json.results (Json.as_search data)) []) as [|item items] eqn:Hitems;
    [done|].
  cbn [truthy_list negb]. rewrite Hend. cbn [orb].
  destruct (Z.ltb_spec (Z.of_nat (length (item :: items))) (page_size self)) as [Hlt|_].
  { cbn [length] in Hlt. lia. }
  destruct (Z.geb_spec (Json.get (offset params) 0 + page_size self) MAX_OFFSET) as [Hge|_].
  { unfold MAX_OFFSET in Hge. lia. }
  apply IH. cbn [advance offset Json.get]. lia.
Qed.

End Endings.

Lemma range_cons (a b : Z) : a < b -> range a b = a :: range (a + 1) b.
Proof.
  intros Hlt. unfold range.
  replace (Z.to_nat (b - a)) with (S (Z.to_nat (b - (a + 1)))) by lia.
  cbn [seq map]. f_equal; [lia|].
  rewrite <- seq_shift, map_map. apply map_ext. intros i. lia.
Qed.

(** X3. A run of [iter_occurrences_by_year] lets an exception escape only
    right after a request: [RateLimitError], when that request was answered
    with status 429, or [APIError], when it was the count request at the
    start, before anything was yielded. The errors of page requests other
    than rate limiting never reach the caller. *)
Theorem exceptions_of_a_run (session_get : nat -> request -> http_outcome)
        (current_year : Z) (fuel : nat) (self : GBIFClient.t) (taxon_key year_start : Z)
        (year_end : option Z) (basis_of_record : basis) (has_coordinate : bool)
        (country : option string) (progress_callback : bool)
        (stop_check : option (nat -> bool)) (e : exn) (g : gen) :
  iter_occurrences_by_year session_get current_year fuel self taxon_key year_start year_end
                           basis_of_record has_coordinate country progress_callback
                           stop_check World.initial
  = Some (Raise e, g) ->
  Fetch.rate_limited_at session_get g e
  \/ ((exists msg, e = APIError msg)
      /\ trace (world g)
         = [EvRequest (search (count_query taxon_key basis_of_record has_coordinate
                                           None country))]).
Proof.
  unfold iter_occurrences_by_year, count_occurrences.
  pose proof (make_request_world
                session_get self OCCURRENCE_SEARCH_ENDPOINT
                (SearchParams (count_query taxon_key basis_of_record has_coordinate
                                           None country)) World.initial) as Hw.
  pose proof (make_request_raises
                session_get self OCCURRENCE_SEARCH_ENDPOINT
                (SearchParams (count_query taxon_key basis_of_record has_coordinate
                                           None country)) World.initial) as Hexn.
  destruct (_make_request _ _ _ _ _) as [[data|e'] w]; cbn [fst snd] in *; subst w.
  - destruct (year_loop _ _ _ _ _ _ _ _ _ _ _ _) as [[[[]|e'] g1]|] eqn:Hyears; [done| |done].
    intros [= <- <-]. left. by eapply year_loop_raises.
  - intros [= <- <-].
    destruct (Hexn e' eq_refl) as [[-> (json & Hjson)]|Hapi].
    + left. split; [done|]. by eexists 0%nat, _, json.
    + by right.
Qed.

(** X4. With a positive page size a run of [iter_occurrences_by_year]
    ends, whatever the server answers and whenever it is cancelled: once the
    page loop of each year is given [enough_fuel] turns, the run has an
    outcome, and more turns do not change it. *)
Theorem run_terminates (session_get : nat -> request -> http_outcome) (current_year : Z)
        (self : GBIFClient.t) (taxon_key year_start : Z)
        (year_end : option Z) (basis_of_record : basis) (has_coordinate : bool)
        (country : option string) (progress_callback : bool)
        (stop_check : option (nat -> bool)) :
  0 < page_size self ->
  exists r g,
    forall fuel, (enough_fuel <= fuel)%nat ->
      iter_occurrences_by_year session_get current_year fuel self taxon_key year_start
                               year_end basis_of_record has_coordinate country
                               progress_callback stop_check World.initial
      = Some (r, g).
Proof.
  intros Hps. unfold iter_occurrences_by_year.
  destruct (count_occurrences _ _ _ _ _ _ _ _) as [[total|e] w]; [|by eauto].
  match goal with
  | |- context [year_loop _ _ _ _ ?te _ ?k ?b ?h ?c ?years ?g0] =>
      destruct (year_loop_ends session_get self progress_callback stop_check te
                               enough_fuel k b h c years g0 Hps (le_n _))
        as (r & g1 & Hrun)
  end.
  destruct r as [[]|e].
  - eexists _, _. intros fuel Hfuel.
    by rewrite (year_loop_fuel _ _ _ _ _ _ _ _ _ _ _ _ _ _ Hrun Hfuel).
  - eexists _, _. intros fuel Hfuel.
    by rewrite (year_loop_fuel _ _ _ _ _ _ _ _ _ _ _ _ _ _ Hrun Hfuel).
Qed.

(** X5. The page size is not checked: with a page size that is zero or
    negative, no cancellation, at least one year to fetch, and a server that
    answers every request with a page of results not marked as the last, the
    run never ends, however many turns its page loop is given. *)
Theorem run_diverges (session_get : nat -> request -> http_outcome) (current_year : Z)
        (self : GBIFClient.t) (taxon_key year_start : Z)
        (year_end : option Z) (basis_of_record : basis) (has_coordinate : bool)
        (country : option string) (progress_callback : bool) (fuel : nat) :
  page_size self <= 0 ->
  year_start <= Json.get year_end current_year ->
  (forall n req, exists data,
        delivers (session_get n req) data
        /\ Json.get (Json.results (Json.as_search data)) [] <> []
        /\ Json.get (Json.endOfRecords (Json.as_search data)) false = false) ->
  iter_occurrences_by_year session_get current_year fuel self taxon_key year_start
                           year_end basis_of_record has_coordinate country
                           progress_callback None World.initial
  = None.
Proof.
  intros Hps Hyears Hserver. unfold iter_occurrences_by_year, count_occurrences.
  destruct (Hserver 0%nat (search (count_query taxon_key basis_of_record has_coordinate
                                               None country))) as (data0 & H0 & _).
  rewrite (make_request_delivers session_get self _ _ World.initial data0 H0).
  replace (match year_end with Some y => y | None => current_year end)
    with (Json.get year_end current_year) by by destruct year_end.
  rewrite range_cons by lia. cbn [year_loop poll].
  rewrite page_loop_diverges; done.
Qed.

(** X6. A stop request that is already there when the run starts: after a
    count request that is answered, and with at least one year to fetch, the
    run makes no page request and yields nothing; it logs the estimate, that
    it was stopped and that 0 records were downloaded, and returns. *)
Theorem cancelled_at_start (session_get : nat -> request -> http_outcome)
        (current_year : Z) (fuel : nat) (self : GBIFClient.t) (taxon_key year_start : Z)
        (year_end : option Z) (basis_of_record : basis) (has_coordinate : bool)
        (country : option string) (progress_callback : bool)
        (stop_check : nat -> bool) (data0 : Json.body) :
  stop_check 0%nat = true ->
  year_start <= Json.get year_end current_year ->
  delivers (session_get 0%nat
              (search (count_query taxon_key basis_of_record has_coordinate None country)))
           data0 ->
  exists g,
    iter_occurrences_by_year session_get current_year fuel self taxon_key year_start
                             year_end basis_of_record has_coordinate country
                             progress_callback (Some stop_check) World.initial
    = Some (Ok (), g)
    /\ trace (world g)
       = [EvRequest (search (count_query taxon_key basis_of_record has_coordinate
                                         None country));
          EvLog INFO (EstimatedTotal (Json.get (Json.count (Json.as_search data0)) 0));
          EvLog INFO Stopped;
          EvLog INFO (Downloaded 0)].
Proof.
  intros Hstop Hyears H0. unfold iter_occurrences_by_year, count_occurrences.
  rewrite (make_request_delivers session_get self _ _ World.initial data0 H0).
  replace (match year_end with Some y => y | None => current_year end)
    with (Json.get year_end current_year) by by destruct year_end.
  rewrite range_cons by lia. cbn [year_loop poll world polls asked log emit World.initial].
  rewrite Hstop. eexists. split; reflexivity.
Qed.

(** ** Pages *)

Section Pagination.

Variable session_get : nat -> request -> http_outcome.
Variable self : GBIFClient.t.
Variable progress_callback : bool.
Variable total_estimate : Z.

Lemma fresh_records_keyless seen items :
  Forall (fun item => Json.key item = None) items ->
  Deduplicator.fresh_records seen items
  = if bool_decide (0 ∈ seen) then []
    else take 1 (map OccurrenceRecord.from_api_response items).
Proof.
  revert seen. induction items as [|item items IH]; intros seen Hitems.
  - by case_bool_decide.
  - apply Forall_cons in Hitems as [Hitem Hitems].
    cbn [Deduplicator.fresh_records OccurrenceRecord.from_api_response OccurrenceRecord.key].
    rewrite Hitem. cbn [Json.get]. rewrite !IH by done.
    destruct (decide (0 ∈ seen)) as [Hseen|Hseen].
    + by rewrite !bool_decide_eq_true_2 by done.
    + rewrite !(bool_decide_eq_false_2 (0 ∈ seen)) by done.
      rewrite bool_decide_eq_true_2 by (apply elem_of_union_l, elem_of_singleton; done).
      done.
Qed.

(** What a delivered page adds to the run, whether the loop goes on after
    it or not. *)
Lemma page_turn_adds year params g data :
  delivers (session_get (requests_made (world g)) (search params)) data ->
  let g' := snd (page_turn session_get self progress_callback None total_estimate
                           year params g) in
  yielded g'
  = (yielded g ++ Deduplicator.fresh_records (seen_keys g) (Fetch.results_of data))%list
  /\ requested g' = (requested g ++ [search params])%list
  /\ seen_keys g'
     = list_to_set (Deduplicator.keys_of (Fetch.results_of data)) ∪ seen_keys g
  /\ requests_made (world g') = S (requests_made (world g)).
Proof.
  intros Hdata.
  rewrite (page_turn_delivered session_get self progress_callback None total_estimate
                               year params g (world g) data eq_refl Hdata).
  fold (Fetch.results_of data). cbn zeta.
  pose proof (fold_items progress_callback total_estimate year (Fetch.results_of data)
                         (with_world g (asked (search params) (world g))))
    as (Hy & Hr & _ & Hs & Hn & _).
  rewrite yielded_with_world_asked, requested_with_world_asked in *.
  cbn [with_world seen_keys world asked requests_made] in *.
  destruct (Fetch.results_of data) as [|item items] eqn:Hitems.
  - cbn [truthy_list negb snd].
    rewrite yielded_with_world_asked, requested_with_world_asked.
    cbn [Deduplicator.fresh_records Deduplicator.keys_of map list_to_set
           with_world seen_keys world asked requests_made].
    rewrite app_nil_r. repeat split; try done; by rewrite (left_id_L ∅ (∪)).
  - cbn [truthy_list negb].
    destruct (_ || _); [done|].
    destruct (_ >=? _); [|done]. cbn [snd].
    rewrite yielded_with_world_log, requested_with_world_log.
    cbn [with_world seen_keys world log emit requests_made]. done.
Qed.

Lemma nth_page_succ params i :
  Fetch.nth_page self params (S i)
  = Fetch.nth_page self (advance params (page_size self)) i.
Proof.
  unfold Fetch.nth_page. induction i as [|i IH]; [done|].
  set (f := fun p => advance p (page_size self)) in *.
  change (f (Nat.iter (S i) f params) = f (Nat.iter i f (f params))).
  by rewrite IH.
Qed.

Lemma page_turn_final year params g data :
  delivers (session_get (requests_made (world g)) (search params)) data ->
  Fetch.final_page self params data ->
  fst (page_turn session_get self progress_callback None total_estimate year params g)
  = Break.
Proof.
  intros Hdata Hfinal.
  by apply (page_turn_stops session_get self progress_callback None total_estimate
                            year params g (world g) data eq_refl Hdata).
Qed.

Lemma page_turn_more year params g data :
  delivers (session_get (requests_made (world g)) (search params)) data ->
  Fetch.more_pages self params data ->
  fst (page_turn session_get self progress_callback None total_estimate year params g)
  = Continue (advance params (page_size self)).
Proof.
  intros Hdata (Hres & Hend & Hlen & Hoff).
  destruct (page_turn_stops session_get self progress_callback None total_estimate
                            year params g (world g) data eq_refl Hdata) as [Hbreak Hcont].
  apply Hcont. intros Hb. apply Hbreak in Hb.
  fold (Fetch.results_of data) in Hb.
  destruct Hb as [?|[?|[?|?]]]; [done|congruence|lia|lia].
Qed.

End Pagination.

(** X7. Items that come without a ["key"] all get the key 0, so that the
    deduplication of the generator takes them for one record: of a page of
    such items only the first is yielded, and none once a record of key 0 was
    seen. *)
Theorem keyless_items_collapse (progress_callback : bool) (total_estimate year : Z)
        (items : list Json.item_json) (g : gen) :
  Forall (fun item => Json.key item = None) items ->
  yielded (fold_left (item_step progress_callback total_estimate year) items g)
  = (yielded g
     ++ (if bool_decide (0 ∈ seen_keys g) then []
         else take 1 (map OccurrenceRecord.from_api_response items)))%list.
Proof.
  intros Hitems.
  destruct (fold_items progress_callback total_estimate year items g) as (-> & _).
  by rewrite fresh_records_keyless.
Qed.

(** X8. Pagination is complete: when the server delivers, for the
    successive offsets of a year, pages after each of which the loop goes on
    and then a page after which it stops, the page loop requests exactly
    these offsets, in order, and yields the records of all these pages, in
    order, except those whose key was seen before. *)
Theorem pagination_complete (session_get : nat -> request -> http_outcome)
        (self : GBIFClient.t) (progress_callback : bool) (total_estimate : Z)
        (pages : list Json.body) (final : Json.body) (fuel : nat) (year : Z)
        (params : search_params) (g : gen) :
  (forall i data, pages !! i = Some data ->
      delivers (session_get (requests_made (world g) + i)%nat
                            (search (Fetch.nth_page self params i))) data
      /\ Fetch.more_pages self (Fetch.nth_page self params i) data) ->
  delivers (session_get (requests_made (world g) + length pages)%nat
                        (search (Fetch.nth_page self params (length pages)))) final ->
  Fetch.final_page self (Fetch.nth_page self params (length pages)) final ->
  (length pages < fuel)%nat ->
  exists g',
    page_loop session_get self progress_callback None total_estimate fuel year params g
    = Some (Ok (), g')
    /\ yielded g'
       = (yielded g
          ++ Deduplicator.fresh_records
               (seen_keys g) (concat (map Fetch.results_of (pages ++ [final]))))%list
    /\ requested g'
       = (requested g
          ++ map (fun i => search (Fetch.nth_page self params i))
                 (seq 0 (S (length pages))))%list.
Proof.
  revert fuel params g.
  induction pages as [|data pages IH]; intros fuel params g Hpages Hfinal Hlast Hfuel.
  - destruct fuel as [|fuel]; [cbn in Hfuel; lia|].
    cbn [length] in *. rewrite Nat.add_0_r in Hfinal.
    change (Fetch.nth_page self params 0) with params in *.
    pose proof (page_turn_final session_get self progress_callback total_estimate
                  year params g final Hfinal Hlast)
      as Hturn.
    pose proof (page_turn_adds session_get self progress_callback total_estimate
                  year params g final Hfinal)
      as (Hy & Hr & _).
    cbn [page_loop].
    destruct (page_turn _ _ _ _ _ _ _ _) as [t g1]. cbn [fst snd] in *. subst t.
    exists g1. split; [done|]. split; [|done].
    cbn [app map concat]. by rewrite app_nil_r.
  - destruct fuel as [|fuel]; [cbn in Hfuel; lia|].
    destruct (Hpages 0%nat data eq_refl) as [Hdata Hmore].
    rewrite Nat.add_0_r in Hdata.
    change (Fetch.nth_page self params 0) with params in *.
    pose proof (page_turn_more session_get self progress_callback total_estimate
                  year params g data Hdata Hmore)
      as Hturn.
    pose proof (page_turn_adds session_get self progress_callback total_estimate
                  year params g data Hdata)
      as (Hy & Hr & Hs & Hn).
    cbn [page_loop].
    destruct (page_turn _ _ _ _ _ _ _ _) as [t g1]. cbn [fst snd] in *. subst t.
    destruct (IH fuel (advance params (page_size self)) g1) as (g' & Hrun & Hy' & Hr').
    + intros i d Hi. rewrite Hn, <- nth_page_succ.
      replace (S (requests_made (world g)) + i)%nat
        with (requests_made (world g) + S i)%nat by lia.
      by apply Hpages.
    + rewrite Hn, <- nth_page_succ.
      replace (S (requests_made (world g)) + length pages)%nat
        with (requests_made (world g) + length (data :: pages))%nat by (cbn; lia).
      exact Hfinal.
    + rewrite <- nth_page_succ. exact Hlast.
    + cbn in Hfuel. lia.
    + exists g'. split; [exact Hrun|]. split.
      * rewrite Hy', Hy, Hs. cbn [app map concat].
        by rewrite fresh_records_app, app_assoc.
      * rewrite Hr', Hr. rewrite <- app_assoc. f_equal.
        cbn [length].
        change (seq 0 (S (S (length pages)))) with (0%nat :: seq 1 (S (length pages))).
        rewrite <- seq_shift, map_cons, map_map. cbn [app]. f_equal.
        apply map_ext. intros i. by rewrite nth_page_succ.
Qed.


(** * Filtering passes *)

(** ** The statistics *)

Section Counting.

Variables n m d my yo yn me ue uk ud sn cn inn : Z.

Lemma initial_stats_counts :
  filters.initial_stats = Stats.of_counts 0 0 0 0 0 0 0 0 0 0 0 0 0.
Proof. reflexivity. Qed.

Lemma drop_duplicate :
  Stats.drop "duplicate"
    (filters.incr "total" (Stats.of_counts n m d my yo yn me ue uk ud sn cn inn))
  = Stats.of_counts (n + 1) m (d + 1) my yo yn me ue uk ud sn cn inn.
Proof. reflexivity. Qed.

Lemma drop_missing_year :
  Stats.drop "missing_year"
    (filters.incr "total" (Stats.of_counts n m d my yo yn me ue uk ud sn cn inn))
  = Stats.of_counts (n + 1) m d (my + 1) yo yn me ue uk ud sn cn inn.
Proof. reflexivity. Qed.

Lemma drop_year_too_old :
  Stats.drop "year_too_old"
    (filters.incr "total" (Stats.of_counts n m d my yo yn me ue uk ud sn cn inn))
  = Stats.of_counts (n + 1) m d my (yo + 1) yn me ue uk ud sn cn inn.
Proof. reflexivity. Qed.

Lemma drop_year_too_new :
  Stats.drop "year_too_new"
    (filters.incr "total" (Stats.of_counts n m d my yo yn me ue uk ud sn cn inn))
  = Stats.of_counts (n + 1) m d my yo (yn + 1) me ue uk ud sn cn inn.
Proof. reflexivity. Qed.

Lemma drop_missing_elevation :
  Stats.drop "missing_elevation"
    (filters.incr "total" (Stats.of_counts n m d my yo yn me ue uk ud sn cn inn))
  = Stats.of_counts (n + 1) m d my yo yn (me + 1) ue uk ud sn cn inn.
Proof. reflexivity. Qed.

Lemma drop_uncertainty_exceeded :
  Stats.drop "uncertainty_exceeded"
    (filters.incr "total" (Stats.of_counts n m d my yo yn me ue uk ud sn cn inn))
  = Stats.of_counts (n + 1) m d my yo yn me (ue + 1) uk ud sn cn inn.
Proof. reflexivity. Qed.

Lemma drop_uncertainty_unknown :
  Stats.drop "uncertainty_unknown"
    (filters.incr "total" (Stats.of_counts n m d my yo yn me ue uk ud sn cn inn))
  = Stats.of_counts (n + 1) m d my yo yn me ue uk (ud + 1) sn cn inn.
Proof. reflexivity. Qed.

Lemma drop_species_not_matched :
  Stats.drop "species_not_matched"
    (filters.incr "total" (Stats.of_counts n m d my yo yn me ue uk ud sn cn inn))
  = Stats.of_counts (n + 1) m d my yo yn me ue uk ud (sn + 1) cn inn.
Proof. reflexivity. Qed.

Lemma drop_country_not_matched :
  Stats.drop "country_not_matched"
    (filters.incr "total" (Stats.of_counts n m d my yo yn me ue uk ud sn cn inn))
  = Stats.of_counts (n + 1) m d my yo yn me ue uk ud sn (cn + 1) inn.
Proof. reflexivity. Qed.

Lemma drop_institution_not_matched :
  Stats.drop "institution_not_matched"
    (filters.incr "total" (Stats.of_counts n m d my yo yn me ue uk ud sn cn inn))
  = Stats.of_counts (n + 1) m d my yo yn me ue uk ud sn cn (inn + 1).
Proof. reflexivity. Qed.

Lemma keep_known :
  Stats.keep "known"
    (filters.incr "total" (Stats.of_counts n m d my yo yn me ue uk ud sn cn inn))
  = Stats.of_counts (n + 1) (m + 1) d my yo yn me ue uk ud sn cn inn.
Proof. reflexivity. Qed.

Lemma keep_unknown :
  Stats.keep "unknown"
    (filters.incr "total" (Stats.of_counts n m d my yo yn me ue uk ud sn cn inn))
  = Stats.of_counts (n + 1) (m + 1) d my yo yn me ue (uk + 1) ud sn cn inn.
Proof. reflexivity. Qed.

Lemma excluded_counts :
  Stats.excluded (Stats.of_counts n m d my yo yn me ue uk ud sn cn inn)
  = d + my + yo + yn + me + ue + ud + sn + cn + inn.
Proof.
  change (Stats.excluded (Stats.of_counts n m d my yo yn me ue uk ud sn cn inn))
    with (d + (my + (yo + (yn + (me + (ue + (ud + (sn + (cn + (inn + 0)))))))))).
  lia.
Qed.

Lemma duplicate_counts :
  Stats.get (Stats.of_counts n m d my yo yn me ue uk ud sn cn inn) "duplicate" = d.
Proof. reflexivity. Qed.

End Counting.

(** ** What is kept *)

Section Passes.

Variable config : FilterConfig.t.

Lemma criteria_filter_at seen record :
  FilterEngine.passes FilterEngine.criteria (Kept.filter_at config seen) record
  = Kept.meets config record.
Proof. reflexivity. Qed.

Lemma mark_seen_filter_at seen record :
  FilterEngine.mark_seen (Kept.filter_at config seen) record
  = Kept.filter_at config (Kept.seen_after config seen record).
Proof.
  unfold FilterEngine.mark_seen, Kept.seen_after, Kept.filter_at.
  cbn [RecordFilter.config RecordFilter._seen_keys RecordFilter._species_set].
  by destruct (FilterConfig.deduplicate config).
Qed.

Lemma seen_after_duplicate seen record :
  Kept.duplicate config seen record = true ->
  Kept.seen_after config seen record = seen.
Proof.
  unfold Kept.duplicate, Kept.seen_after.
  destruct (FilterConfig.deduplicate config); [|done].
  intros Hin%bool_decide_eq_true. apply set_eq. intros k.
  rewrite elem_of_union, elem_of_singleton. split; [by intros [->|]|tauto].
Qed.

Lemma apply_filter_at seen record :
  RecordFilter.apply (Kept.filter_at config seen) record
  = (if Kept.duplicate config seen record then FilterResult.drop "duplicate"
     else FilterEngine.decide_by FilterEngine.criteria (Kept.filter_at config seen) record,
     Kept.filter_at config (Kept.seen_after config seen record)).
Proof.
  rewrite apply_pair.
  change (FilterEngine.fails FilterEngine.deduplication (Kept.filter_at config seen) record)
    with (Kept.duplicate config seen record).
  destruct (Kept.duplicate config seen record) eqn:Hdup.
  - rewrite seen_after_duplicate by done. f_equal. by apply evaluate_duplicate.
  - rewrite mark_seen_filter_at. f_equal. by apply evaluate_new.
Qed.

Lemma check_uncertainty_cases self record :
  RecordFilter._check_uncertainty self record = "known"
  \/ RecordFilter._check_uncertainty self record = "unknown"
  \/ RecordFilter._check_uncertainty self record = "exceeded".
Proof.
  unfold RecordFilter._check_uncertainty.
  destruct (OccurrenceRecord.coordinate_uncertainty record) as [[unc|]|]; [|tauto|tauto].
  destruct (float_le_int _ _); tauto.
Qed.

(** The results the criteria can give: kept, with the uncertainty known or
    unknown, or dropped for one of nine reasons. *)
Lemma decide_by_criteria self record :
  (FilterEngine.passes FilterEngine.criteria self record = true
   /\ (FilterEngine.decide_by FilterEngine.criteria self record = FilterResult.kept "known"
       \/ FilterEngine.decide_by FilterEngine.criteria self record
          = FilterResult.kept "unknown"))
  \/ (FilterEngine.passes FilterEngine.criteria self record = false
      /\ exists reason status,
          FilterEngine.decide_by FilterEngine.criteria self record
          = FilterResult.drop_with reason status
          /\ reason ∈ ["missing_year"; "year_too_old"; "year_too_new"; "missing_elevation";
                       "uncertainty_exceeded"; "uncertainty_unknown";
                       "species_not_matched"; "country_not_matched";
                       "institution_not_matched"]).
Proof.
  unfold FilterEngine.decide_by, FilterEngine.passes, FilterEngine.criteria,
    FilterEngine.before_uncertainty, FilterEngine.uncertainty_checks,
    FilterEngine.later_checks.
  cbn [app find forallb].
  destruct (FilterEngine.fails FilterEngine.required_year self record);
    [right; split; [done|]; eexists _, _; split; [reflexivity|set_solver]|].
  destruct (FilterEngine.fails FilterEngine.year_range_low self record);
    [right; split; [done|]; eexists _, _; split; [reflexivity|set_solver]|].
  destruct (FilterEngine.fails FilterEngine.year_range_high self record);
    [right; split; [done|]; eexists _, _; split; [reflexivity|set_solver]|].
  destruct (FilterEngine.fails FilterEngine.required_elevation self record);
    [right; split; [done|]; eexists _, _; split; [reflexivity|set_solver]|].
  destruct (FilterEngine.fails FilterEngine.uncertainty_exceeded self record) eqn:Hexc;
    [right; split; [done|]; eexists _, _; split; [reflexivity|set_solver]|].
  destruct (FilterEngine.fails FilterEngine.uncertainty_unknown self record);
    [right; split; [done|]; eexists _, _; split; [reflexivity|set_solver]|].
  destruct (FilterEngine.fails FilterEngine.species self record);
    [right; split; [done|]; eexists _, _; split; [reflexivity|set_solver]|].
  destruct (FilterEngine.fails FilterEngine.country self record);
    [right; split; [done|]; eexists _, _; split; [reflexivity|set_solver]|].
  destruct (FilterEngine.fails FilterEngine.institution self record);
    [right; split; [done|]; eexists _, _; split; [reflexivity|set_solver]|].
  left. split; [done|].
  cbn [FilterEngine.fails FilterEngine.uncertainty_exceeded] in Hexc.
  destruct (check_uncertainty_cases self record) as [->|[->|Hex]]; [tauto|tauto|].
  by rewrite Hex in Hexc.
Qed.

Lemma filter_step_drop self self' filtered stats record reason status :
  RecordFilter.apply self record = (FilterResult.drop_with reason status, self') ->
  filters.filter_step (self, filtered, stats) record
  = (self', filtered, Stats.drop reason (filters.incr "total" stats)).
Proof. intros H. unfold filters.filter_step. rewrite H. reflexivity. Qed.

Lemma filter_step_keep self self' filtered stats record status :
  RecordFilter.apply self record = (FilterResult.kept status, self') ->
  filters.filter_step (self, filtered, stats) record
  = (self', (filtered ++ [record])%list, Stats.keep status (filters.incr "total" stats)).
Proof. intros H. unfold filters.filter_step. rewrite H. reflexivity. Qed.

Ltac balance :=
  do 11 eexists; split; [reflexivity|]; lia.

(** One record: the filter marks its key, the list grows by the record when
    it is kept, and the statistics stay balanced. *)
Lemma filter_step_at seen filtered stats record n m :
  Stats.balanced n m stats ->
  exists stats',
    filters.filter_step (Kept.filter_at config seen, filtered, stats) record
    = (Kept.filter_at config (Kept.seen_after config seen record),
       (filtered ++ Kept.keep_from config seen [record])%list, stats')
    /\ Stats.balanced (n + 1)
                      (m + Z.of_nat (length (Kept.keep_from config seen [record]))) stats'
    /\ (Kept.duplicate config seen record = false ->
        Stats.get stats' "duplicate" = Stats.get stats "duplicate").
Proof.
  intros (d & my & yo & yn & me & ue & uk & ud & sn & cn & inn & -> & Hsum).
  pose proof (apply_filter_at seen record) as Happly.
  cbn [Kept.keep_from].
  destruct (Kept.duplicate config seen record) eqn:Hdup.
  - eexists. split; [|split].
    + rewrite (filter_step_drop _ _ _ _ _ _ _ Happly), app_nil_r. reflexivity.
    + rewrite drop_duplicate. cbn [length]. replace (m + Z.of_nat 0) with m by lia. balance.
    + intros; congruence.
  - rewrite <- (criteria_filter_at seen record).
    destruct (decide_by_criteria (Kept.filter_at config seen) record)
      as [[-> [Hkept|Hkept]]|[-> (reason & status & Hdrop & Hreason)]];
      rewrite ?Hkept, ?Hdrop in Happly.
    + eexists. split; [|split].
      * rewrite (filter_step_keep _ _ _ _ _ _ Happly). reflexivity.
      * rewrite keep_known. cbn [length].
        replace (m + Z.of_nat 1) with (m + 1) by lia. balance.
      * intros _. by rewrite keep_known.
    + eexists. split; [|split].
      * rewrite (filter_step_keep _ _ _ _ _ _ Happly). reflexivity.
      * rewrite keep_unknown. cbn [length].
        replace (m + Z.of_nat 1) with (m + 1) by lia. balance.
      * intros _. by rewrite keep_unknown.
    + eexists. split; [|split].
      * rewrite (filter_step_drop _ _ _ _ _ _ _ Happly), app_nil_r. reflexivity.
      * cbn [length]. replace (m + Z.of_nat 0) with m by lia.
        repeat (apply elem_of_cons in Hreason as [->|Hreason]);
          [rewrite drop_missing_year|rewrite drop_year_too_old|rewrite drop_year_too_new
          |rewrite drop_missing_elevation|rewrite drop_uncertainty_exceeded
          |rewrite drop_uncertainty_unknown|rewrite drop_species_not_matched
          |rewrite drop_country_not_matched|rewrite drop_institution_not_matched
          |by apply elem_of_nil in Hreason]; balance.
      * intros _.
        repeat (apply elem_of_cons in Hreason as [->|Hreason]);
          [rewrite drop_missing_year|rewrite drop_year_too_old|rewrite drop_year_too_new
          |rewrite drop_missing_elevation|rewrite drop_uncertainty_exceeded
          |rewrite drop_uncertainty_unknown|rewrite drop_species_not_matched
          |rewrite drop_country_not_matched|rewrite drop_institution_not_matched
          |by apply elem_of_nil in Hreason]; reflexivity.
Qed.

Lemma keep_from_cons seen record records :
  Kept.keep_from config seen (record :: records)
  = (Kept.keep_from config seen [record]
     ++ Kept.keep_from config (Kept.seen_after config seen record) records)%list.
Proof.
  cbn [Kept.keep_from].
  destruct (Kept.duplicate config seen record) eqn:Hdup.
  - by rewrite seen_after_duplicate.
  - by destruct (Kept.meets config record).
Qed.

(** A pass over a list of records. *)
Lemma filter_fold records seen filtered stats n m :
  Stats.balanced n m stats ->
  exists stats',
    fold_left filters.filter_step records (Kept.filter_at config seen, filtered, stats)
    = (Kept.filter_at config (Kept.seen_after_all config seen records),
       (filtered ++ Kept.keep_from config seen records)%list, stats')
    /\ Stats.balanced (n + Z.of_nat (length records))
                      (m + Z.of_nat (length (Kept.keep_from config seen records))) stats'.
Proof.
  revert seen filtered stats n m.
  induction records as [|record records IH]; intros seen filtered stats n m Hbal.
  - exists stats. cbn [fold_left Kept.keep_from Kept.seen_after_all length].
    rewrite app_nil_r. split; [done|].
    by replace (n + Z.of_nat 0) with n by lia; replace (m + Z.of_nat 0) with m by lia.
  - destruct (filter_step_at seen filtered stats record n m Hbal)
      as (stats1 & Hstep & Hbal1 & _).
    destruct (IH (Kept.seen_after config seen record)
                 (filtered ++ Kept.keep_from config seen [record])%list stats1 _ _ Hbal1)
      as (stats' & Hfold & Hbal').
    exists stats'. cbn [fold_left]. rewrite Hstep, Hfold. split.
    + unfold Kept.seen_after_all. cbn [fold_left].
      by rewrite (keep_from_cons seen record records), app_assoc.
    + rewrite (keep_from_cons seen record records), length_app. cbn [length].
      replace (n + Z.of_nat (S (length records))) with (n + 1 + Z.of_nat (length records)) by lia.
      by rewrite Nat2Z.inj_add, Z.add_assoc.
Qed.

Lemma filter_records_keep_from records :
  fst (filters.filter_records records config) = Kept.keep_from config ∅ records
  /\ Stats.balanced (Z.of_nat (length records))
                    (Z.of_nat (length (Kept.keep_from config ∅ records)))
                    (snd (filters.filter_records records config)).
Proof.
  unfold filters.filter_records.
  change (RecordFilter.__init__ config) with (Kept.filter_at config ∅).
  destruct (filter_fold records ∅ [] filters.initial_stats 0 0) as (stats' & -> & Hbal).
  - rewrite initial_stats_counts. balance.
  - done.
Qed.

End Passes.

Section KeepFrom.

Variable config : FilterConfig.t.

Lemma keep_from_sublist seen records :
  sublist (Kept.keep_from config seen records) records.
Proof.
  revert seen. induction records as [|record records IH]; intros seen; [constructor|].
  cbn [Kept.keep_from].
  destruct (Kept.duplicate config seen record); [by apply sublist_cons|].
  destruct (Kept.meets config record); [by apply sublist_skip|by apply sublist_cons].
Qed.

Lemma keep_from_meets seen records :
  Forall (fun record => Kept.meets config record = true)
         (Kept.keep_from config seen records).
Proof.
  revert seen. induction records as [|record records IH]; intros seen; [constructor|].
  cbn [Kept.keep_from].
  destruct (Kept.duplicate config seen record); [apply IH|].
  destruct (Kept.meets config record) eqn:Hmeets; [|apply IH].
  constructor; [done|apply IH].
Qed.

Lemma keep_from_distinct seen records :
  FilterConfig.deduplicate config = true ->
  NoDup (map OccurrenceRecord.key (Kept.keep_from config seen records))
  /\ forall record, record ∈ Kept.keep_from config seen records ->
                    OccurrenceRecord.key record ∉ seen.
Proof.
  intros Hd. revert seen.
  induction records as [|record records IH]; intros seen; cbn [Kept.keep_from].
  - split; [constructor|]. intros r Hr. by apply elem_of_nil in Hr.
  - unfold Kept.duplicate, Kept.seen_after. rewrite Hd. cbn [andb].
    case_bool_decide as Hseen; [apply IH|].
    destruct (IH ({[OccurrenceRecord.key record]} ∪ seen)) as [Hnd Hnew].
    destruct (Kept.meets config record).
    + split.
      * cbn [map]. constructor; [|exact Hnd].
        intros (r & Hk & Hr)%list_elem_of_fmap.
        apply (Hnew r Hr). rewrite <- Hk. apply elem_of_union_l, elem_of_singleton. done.
      * intros r [->|Hr]%elem_of_cons; [done|].
        intros Hin. apply (Hnew r Hr). by apply elem_of_union_r.
    + split; [exact Hnd|].
      intros r Hr Hin. apply (Hnew r Hr). by apply elem_of_union_r.
Qed.

(** Lists in which the deduplication of the filter finds nothing: it is
    switched off, or the keys are distinct and none was seen. *)
Lemma keep_from_filter seen records :
  FilterConfig.deduplicate config = false
  \/ (NoDup (map OccurrenceRecord.key records)
      /\ forall record, record ∈ records -> OccurrenceRecord.key record ∉ seen) ->
  Kept.keep_from config seen records = List.filter (Kept.meets config) records.
Proof.
  revert seen. induction records as [|record records IH]; intros seen Hno; [done|].
  cbn [Kept.keep_from List.filter].
  assert (Hdup : Kept.duplicate config seen record = false).
  { unfold Kept.duplicate. destruct Hno as [->|[_ Hnew]]; [done|].
    rewrite bool_decide_eq_false_2; [by rewrite andb_false_r|].
    apply Hnew. by left. }
  rewrite Hdup.
  assert (Hrest : Kept.keep_from config (Kept.seen_after config seen record) records
                  = List.filter (Kept.meets config) records).
  { apply IH. destruct Hno as [Hoff|[Hnd Hnew]]; [by left|right].
    cbn [map] in Hnd. apply NoDup_cons in Hnd as [Hhd Hnd]. split; [done|].
    intros r Hr. unfold Kept.seen_after.
    destruct (FilterConfig.deduplicate config); [|apply Hnew; by right].
    intros [Heq%elem_of_singleton|Hin]%elem_of_union.
    - apply Hhd. rewrite <- Heq. by apply list_elem_of_fmap_2.
    - apply (Hnew r); [by right|done]. }
  rewrite Hrest. by destruct (Kept.meets config record).
Qed.

Lemma filter_meets_all records :
  Forall (fun record => Kept.meets config record = true) records ->
  List.filter (Kept.meets config) records = records.
Proof.
  induction 1 as [|record records Hmeets _ IH]; [done|].
  cbn [List.filter]. by rewrite Hmeets, IH.
Qed.

Lemma keep_from_again seen records :
  Kept.keep_from config ∅ (Kept.keep_from config seen records)
  = Kept.keep_from config seen records.
Proof.
  rewrite keep_from_filter.
  - apply filter_meets_all, keep_from_meets.
  - destruct (FilterConfig.deduplicate config) eqn:Hd; [right|by left].
    split; [by apply keep_from_distinct|]. intros r _. apply not_elem_of_empty.
Qed.

Lemma keep_from_complete seen records (i : nat) record :
  records !! i = Some record ->
  Kept.meets config record = true ->
  FilterConfig.deduplicate config = false
  \/ ((OccurrenceRecord.key record ∉ seen)
      /\ OccurrenceRecord.key record ∉ map OccurrenceRecord.key (take i records)) ->
  record ∈ Kept.keep_from config seen records.
Proof.
  revert seen i. induction records as [|r0 records IH]; intros seen i Hi Hmeets Hnew;
    [done|].
  cbn [Kept.keep_from].
  destruct i as [|i].
  - injection Hi as ->.
    assert (Hdup : Kept.duplicate config seen record = false).
    { unfold Kept.duplicate. destruct Hnew as [->|[Hseen _]]; [done|].
      by rewrite bool_decide_eq_false_2, andb_false_r. }
    rewrite Hdup, Hmeets. by left.
  - cbn [lookup list_lookup] in Hi.
    assert (Hnext : forall seen',
               (FilterConfig.deduplicate config = true ->
                seen' = seen \/ seen' = {[OccurrenceRecord.key r0]} ∪ seen) ->
               record ∈ Kept.keep_from config seen' records).
    { intros seen' Hseen'. apply (IH seen' i Hi Hmeets).
      destruct (FilterConfig.deduplicate config) eqn:Hd; [right|by left].
      destruct Hnew as [?|[Hseen Htake]]; [done|].
      cbn [take map] in Htake. apply not_elem_of_cons in Htake as [Hne Htake].
      split; [|done].
      destruct (Hseen' eq_refl) as [->| ->]; [done|].
      intros [Heq%elem_of_singleton|Hin]%elem_of_union; done. }
    destruct (Kept.duplicate config seen r0).
    + apply Hnext. by left.
    + assert (Hin : record ∈ Kept.keep_from config (Kept.seen_after config seen r0) records).
      { apply Hnext. intros Hd. unfold Kept.seen_after. rewrite Hd. by right. }
      destruct (Kept.meets config r0); [by right|done].
Qed.

(** With nothing for the deduplication to find, a pass keeps the records
    that meet the criteria and counts no duplicate. *)
Lemma filter_fold_distinct records seen filtered stats n m :
  Stats.balanced n m stats ->
  FilterConfig.deduplicate config = false
  \/ (NoDup (map OccurrenceRecord.key records)
      /\ forall record, record ∈ records -> OccurrenceRecord.key record ∉ seen) ->
  exists self' stats',
    fold_left filters.filter_step records (Kept.filter_at config seen, filtered, stats)
    = (self', (filtered ++ List.filter (Kept.meets config) records)%list, stats')
    /\ Stats.get stats' "duplicate" = Stats.get stats "duplicate".
Proof.
  revert seen filtered stats n m.
  induction records as [|record records IH]; intros seen filtered stats n m Hbal Hno.
  - eexists _, stats. cbn [fold_left List.filter]. by rewrite app_nil_r.
  - destruct (filter_step_at config seen filtered stats record n m Hbal)
      as (stats1 & Hstep & Hbal1 & Hsame).
    assert (Hdup : Kept.duplicate config seen record = false).
    { unfold Kept.duplicate. destruct Hno as [->|[_ Hnew]]; [done|].
      rewrite bool_decide_eq_false_2; [by rewrite andb_false_r|].
      apply Hnew. by left. }
    destruct (IH (Kept.seen_after config seen record)
                 (filtered ++ Kept.keep_from config seen [record])%list stats1 _ _ Hbal1)
      as (self' & stats' & Hfold & Hdups).
    { destruct Hno as [Hoff|[Hnd Hnew]]; [by left|right].
      cbn [map] in Hnd. apply NoDup_cons in Hnd as [Hhd Hnd]. split; [done|].
      intros r Hr. unfold Kept.seen_after.
      destruct (FilterConfig.deduplicate config); [|apply Hnew; by right].
      intros [Heq%elem_of_singleton|Hin]%elem_of_union.
      - apply Hhd. rewrite <- Heq. by apply list_elem_of_fmap_2.
      - apply (Hnew r); [by right|done]. }
    exists self', stats'. cbn [fold_left]. rewrite Hstep, Hfold. split.
    + f_equal. f_equal. rewrite <- app_assoc. f_equal.
      cbn [Kept.keep_from List.filter]. rewrite Hdup.
      by destruct (Kept.meets config record).
    + by rewrite Hdups, Hsame.
Qed.

End KeepFrom.

(** X9. The statistics of [filter_records] add up: the total is the number
    of records given, the kept are the number of records returned, and every
    record that is not returned is counted under exactly one of the ten
    exclusion keys that [format_filter_stats] reports, a record dropped for
    unknown uncertainty under [uncertainty_unknown_dropped]; the records kept
    with unknown uncertainty are counted among the kept, and the dictionary
    keeps its thirteen keys. *)
Theorem filter_records_accounting (records : list OccurrenceRecord.t)
        (config : FilterConfig.t) :
  let filtered := fst (filters.filter_records records config) in
  let stats := snd (filters.filter_records records config) in
  stats !! "total" = Some (Z.of_nat (length records))
  /\ stats !! "kept" = Some (Z.of_nat (length filtered))
  /\ Stats.excluded stats = Z.of_nat (length records) - Z.of_nat (length filtered)
  /\ 0 <= Stats.get stats "uncertainty_unknown_kept" <= Z.of_nat (length filtered)
  /\ dom stats = dom filters.initial_stats.
Proof.
  destruct (filter_records_keep_from config records)
    as [Hkept (d & my & yo & yn & me & ue & uk & ud & sn & cn & inn & Hstats & Hsum)].
  cbn zeta. rewrite Hstats, Hkept.
  split; [reflexivity|]. split; [reflexivity|].
  rewrite excluded_counts. split; [lia|]. split; [|reflexivity].
  change (Stats.get _ "uncertainty_unknown_kept") with uk. lia.
Qed.

(** X10. What [filter_records] returns is a sublist of what it is given,
    in the same order; every record of it meets every criterion of the
    configuration; and with deduplication its keys are pairwise distinct. *)
Theorem filter_records_sound (records : list OccurrenceRecord.t)
        (config : FilterConfig.t) :
  let filtered := fst (filters.filter_records records config) in
  sublist filtered records
  /\ Forall (fun record => Kept.meets config record = true) filtered
  /\ (FilterConfig.deduplicate config = true ->
      NoDup (map OccurrenceRecord.key filtered)).
Proof.
  destruct (filter_records_keep_from config records) as [Hkept _].
  cbn zeta. rewrite Hkept.
  split; [apply keep_from_sublist|]. split; [apply keep_from_meets|].
  intros Hd. by apply keep_from_distinct.
Qed.

(** X11. [filter_records] loses no record it should keep: a record that
    meets every criterion is returned, unless deduplication is on and an
    earlier record of the list has its key. *)
Theorem filter_records_complete (records : list OccurrenceRecord.t)
        (config : FilterConfig.t) (i : nat) (record : OccurrenceRecord.t) :
  records !! i = Some record ->
  Kept.meets config record = true ->
  FilterConfig.deduplicate config = false
  \/ OccurrenceRecord.key record ∉ map OccurrenceRecord.key (take i records) ->
  record ∈ fst (filters.filter_records records config).
Proof.
  intros Hi Hmeets Hnew.
  destruct (filter_records_keep_from config records) as [-> _].
  apply (keep_from_complete config ∅ records i record Hi Hmeets).
  destruct Hnew as [Hoff|Hnew]; [by left|right].
  split; [apply not_elem_of_empty|done].
Qed.

(** X12. Filtering is idempotent: filtering the records [filter_records]
    returned, with the same configuration, returns them all. *)
Theorem filter_records_idempotent (records : list OccurrenceRecord.t)
        (config : FilterConfig.t) :
  fst (filters.filter_records (fst (filters.filter_records records config)) config)
  = fst (filters.filter_records records config).
Proof.
  destruct (filter_records_keep_from config records) as [-> _].
  destruct (filter_records_keep_from config (Kept.keep_from config ∅ records)) as [-> _].
  apply keep_from_again.
Qed.

(** ** The download loop of the command line *)

Section Download.

Lemma cli_incr_total t k f :
  filters.incr "total" (cli.stats_of t k f) = cli.stats_of (t + 1) k f.
Proof. reflexivity. Qed.

Lemma cli_incr_kept t k f :
  filters.incr "kept" (cli.stats_of t k f) = cli.stats_of t (k + 1) f.
Proof. reflexivity. Qed.

Lemma cli_incr_filtered t k f :
  filters.incr "filtered" (cli.stats_of t k f) = cli.stats_of t k (f + 1).
Proof. reflexivity. Qed.

(** The loop of the command line and [filter_records] go through the same
    filter states and keep the same records. *)
Lemma download_fold records self filtered stats t k f :
  exists self' filtered' stats',
    fold_left filters.filter_step records (self, filtered, stats)
    = (self', filtered', stats')
    /\ fold_left cli.download_step records (self, filtered, cli.stats_of t k f)
       = (self', filtered',
          cli.stats_of (t + Z.of_nat (length records))
                       (k + (Z.of_nat (length filtered') - Z.of_nat (length filtered)))
                       (f + Z.of_nat (length records)
                        - (Z.of_nat (length filtered') - Z.of_nat (length filtered))))
    /\ (length filtered <= length filtered')%nat.
Proof.
  revert self filtered stats t k f.
  induction records as [|record records IH]; intros self filtered stats t k f.
  - exists self, filtered, stats. cbn [fold_left length]. split; [done|]. split; [|done].
    do 2 f_equal; lia.
  - cbn [fold_left]. unfold filters.filter_step at 2, cli.download_step at 2.
    rewrite cli_incr_total.
    destruct (RecordFilter.apply self record) as [[[] reason status] self1];
      cbn [FilterResult.keep].
    + rewrite cli_incr_kept.
      match goal with
      | |- context [fold_left filters.filter_step records (_, _, ?s)] =>
          destruct (IH self1 (filtered ++ [record])%list s (t + 1) (k + 1) f)
            as (self' & filtered' & stats' & -> & -> & Hlen)
      end.
      exists self', filtered', stats'. split; [done|].
      rewrite length_app in *. cbn [length] in *. split; [|lia].
      do 2 f_equal; lia.
    + rewrite cli_incr_filtered.
      match goal with
      | |- context [fold_left filters.filter_step records (_, _, ?s)] =>
          destruct (IH self1 filtered s (t + 1) k (f + 1))
            as (self' & filtered' & stats' & -> & -> & Hlen)
      end.
      exists self', filtered', stats'. split; [done|]. split; [|lia].
      cbn [length]. do 2 f_equal; lia.
Qed.

End Download.

(** X13. The loop of [run_download] keeps the records that
    [filter_records] returns for the same records and configuration, and its
    three counters add up: the total is the number of records downloaded,
    the kept are the number of records kept, and the filtered are the rest. *)
Theorem download_loop_agrees (records : list OccurrenceRecord.t)
        (filter_config : FilterConfig.t) :
  let filtered_records := snd (fst (cli.download_loop records filter_config)) in
  let stats := snd (cli.download_loop records filter_config) in
  filtered_records = fst (filters.filter_records records filter_config)
  /\ stats !! "total" = Some (Z.of_nat (length records))
  /\ stats !! "kept" = Some (Z.of_nat (length filtered_records))
  /\ stats !! "filtered"
     = Some (Z.of_nat (length records) - Z.of_nat (length filtered_records)).
Proof.
  unfold cli.download_loop, filters.filter_records.
  destruct (download_fold records (RecordFilter.__init__ filter_config) []
                          filters.initial_stats 0 0 0)
    as (self' & filtered' & stats' & -> & -> & _).
  cbn [fst snd length]. split; [done|].
  split; [reflexivity|]. split.
  - change (Some (0 + (Z.of_nat (length filtered') - Z.of_nat 0))
            = Some (Z.of_nat (length filtered'))).
    f_equal. lia.
  - change (Some (0 + Z.of_nat (length records)
                  - (Z.of_nat (length filtered') - Z.of_nat 0))
            = Some (Z.of_nat (length records) - Z.of_nat (length filtered'))).
    f_equal. lia.
Qed.

(** X14. Downstream of the fetch the deduplication of the filter has
    nothing to do: for the records a run of [iter_occurrences_by_year] has
    yielded, however it ended, [filter_records] returns exactly the records
    that meet the criteria of the configuration, in the order they were
    yielded, and counts no duplicate. *)
Theorem fetched_records_filter (session_get : nat -> request -> http_outcome)
        (current_year : Z) (fuel : nat) (self : GBIFClient.t) (taxon_key year_start : Z)
        (year_end : option Z) (basis_of_record : basis) (has_coordinate : bool)
        (country : option string) (progress_callback : bool)
        (stop_check : option (nat -> bool)) (r : result unit) (g : gen)
        (config : FilterConfig.t) :
  iter_occurrences_by_year session_get current_year fuel self taxon_key year_start year_end
                           basis_of_record has_coordinate country progress_callback
                           stop_check World.initial
  = Some (r, g) ->
  fst (filters.filter_records (yielded g) config)
  = List.filter (Kept.meets config) (yielded g)
  /\ snd (filters.filter_records (yielded g) config) !! "duplicate" = Some 0.
Proof.
  intros Hrun.
  destruct (run_consistent _ _ _ _ _ _ _ _ _ _ _ _ _ _ Hrun) as (Hnd & _).
  unfold filters.filter_records.
  change (RecordFilter.__init__ config) with (Kept.filter_at config ∅).
  destruct (filter_fold config (yielded g) ∅ [] filters.initial_stats 0 0)
    as (stats1 & Hfold & (d & ? & ? & ? & ? & ? & ? & ? & ? & ? & ? & Hstats & _)).
  { rewrite initial_stats_counts. do 11 eexists. split; [reflexivity|lia]. }
  destruct (filter_fold_distinct config (yielded g) ∅ [] filters.initial_stats 0 0)
    as (self' & stats' & Hfold' & Hdups).
  { rewrite initial_stats_counts. do 11 eexists. split; [reflexivity|lia]. }
  { right. split; [exact Hnd|]. intros record _. apply not_elem_of_empty. }
  rewrite Hfold in Hfold'. injection Hfold' as _ Hkept <-.
  rewrite Hfold. cbn [fst snd]. split; [done|].
  rewrite Hstats in *. rewrite duplicate_counts in Hdups.
  change (Some d = Some 0). f_equal. exact Hdups.
Qed.

(** X15. Without deduplication, or on records whose keys are pairwise
    distinct, [filter_records] is a plain filter: it returns the records that
    meet the criteria and counts no duplicate. *)
Theorem filter_records_plain (records : list OccurrenceRecord.t)
        (config : FilterConfig.t) :
  FilterConfig.deduplicate config = false
  \/ NoDup (map OccurrenceRecord.key records) ->
  fst (filters.filter_records records config) = List.filter (Kept.meets config) records
  /\ snd (filters.filter_records records config) !! "duplicate" = Some 0.
Proof.
  intros Hno.
  unfold filters.filter_records.
  change (RecordFilter.__init__ config) with (Kept.filter_at config ∅).
  destruct (filter_fold config records ∅ [] filters.initial_stats 0 0)
    as (stats1 & Hfold & (d & ? & ? & ? & ? & ? & ? & ? & ? & ? & ? & Hstats & _)).
  { rewrite initial_stats_counts. do 11 eexists. split; [reflexivity|lia]. }
  destruct (filter_fold_distinct config records ∅ [] filters.initial_stats 0 0)
    as (self' & stats' & Hfold' & Hdups).
  { rewrite initial_stats_counts. do 11 eexists. split; [reflexivity|lia]. }
  { destruct Hno as [Hoff|Hnd]; [by left|right].
    split; [exact Hnd|]. intros record _. apply not_elem_of_empty. }
  rewrite Hfold in Hfold'. injection Hfold' as _ Hkept <-.
  rewrite Hfold. cbn [fst snd]. split; [done|].
  rewrite Hstats in *. rewrite duplicate_counts in Hdups.
  change (Some d = Some 0). f_equal. exact Hdups.
Qed.

(** ** The state of the filter *)

Section FilterState.

Variable config : FilterConfig.t.

Lemma seen_after_all_keys records seen :
  Kept.seen_after_all config seen records
  = if FilterConfig.deduplicate config
    then list_to_set (map OccurrenceRecord.key records) ∪ seen
    else seen.
Proof.
  unfold Kept.seen_after_all. revert seen.
  induction records as [|record records IH]; intros seen; cbn [fold_left map].
  - destruct (FilterConfig.deduplicate config); [|done].
    cbn. by rewrite (left_id_L ∅ (∪)).
  - rewrite IH. unfold Kept.seen_after.
    destruct (FilterConfig.deduplicate config); [|done].
    cbn [list_to_set]. apply set_eq. intros k.
    rewrite !elem_of_union, !elem_of_singleton. tauto.
Qed.

Lemma size_list_to_set_remove_dups (keys : list Z) :
  size (list_to_set (C := gset Z) keys) = length (remove_dups keys).
Proof.
  rewrite <- (size_list_to_set (C := gset Z) (remove_dups keys))
    by apply NoDup_remove_dups.
  f_equal. apply set_eq. intros k.
  by rewrite !elem_of_list_to_set, elem_of_remove_dups.
Qed.

End FilterState.

(** X16. The filter after a pass over a list of records, as the loop of
    [run_download] leaves it: its configuration is the one it was
    built with; with deduplication its seen keys are the keys of all the
    records applied, kept or not, and [seen_count] is the number of distinct
    keys among them; without deduplication it has seen no key and
    [seen_count] is 0; and [reset] gives back the filter as it was built. *)
Theorem filter_state_after_pass (records : list OccurrenceRecord.t)
        (filter_config : FilterConfig.t) :
  let record_filter := fst (fst (cli.download_loop records filter_config)) in
  RecordFilter.config record_filter = filter_config
  /\ RecordFilter._seen_keys record_filter
     = (if FilterConfig.deduplicate filter_config
        then list_to_set (map OccurrenceRecord.key records) else ∅)
  /\ RecordFilter.seen_count record_filter
     = (if FilterConfig.deduplicate filter_config
        then length (remove_dups (map OccurrenceRecord.key records)) else 0%nat)
  /\ RecordFilter.reset record_filter = RecordFilter.__init__ filter_config.
Proof.
  unfold cli.download_loop.
  destruct (download_fold records (RecordFilter.__init__ filter_config) []
                          filters.initial_stats 0 0 0)
    as (self' & filtered' & stats' & Hfilter & -> & _).
  change (RecordFilter.__init__ filter_config)
    with (Kept.filter_at filter_config ∅) in Hfilter.
  destruct (filter_fold filter_config records ∅ [] filters.initial_stats 0 0)
    as (stats1 & Hfold & _).
  { rewrite initial_stats_counts. do 11 eexists. split; [reflexivity|lia]. }
  rewrite Hfold in Hfilter. injection Hfilter as <- _ _.
  cbn [fst]. unfold RecordFilter.seen_count, RecordFilter.reset, Kept.filter_at.
  cbn [RecordFilter.config RecordFilter._seen_keys RecordFilter._species_set].
  rewrite seen_after_all_keys.
  split; [done|]. split; [|split; [|done]].
  - destruct (FilterConfig.deduplicate filter_config); [|done].
    by rewrite (right_id_L ∅ (∪)).
  - destruct (FilterConfig.deduplicate filter_config); [|apply size_empty].
    rewrite (right_id_L ∅ (∪)). apply size_list_to_set_remove_dups.
Qed.

(** * Retrying with backoff *)

Section Retrying.

Variables A E F : Type.
Variable catches : E -> bool.
Variable fmul : F -> F -> F.
Variable sleeps : F -> bool.
Variable func : nat -> A + E.
Variable max_retries : Z.
Variable backoff_factor : F.

Lemma calls_of_cons (e : Retry.event E F) events :
  Retry.calls_of (e :: events)
  = match e with Retry.Call => S (Retry.calls_of events) | _ => Retry.calls_of events end.
Proof. by destruct e. Qed.

Lemma sleeps_of_cons (e : Retry.event E F) events :
  Retry.sleeps_of (e :: events)
  = match e with
    | Retry.Sleep d => d :: Retry.sleeps_of events
    | _ => Retry.sleeps_of events
    end.
Proof. by destruct e. Qed.

(** Over the attempts from [attempt] up to [max_retries] the loop ends by a
    [return] or a [raise] of its body: it makes at least one call, at most
    one per attempt, and sleeps between two calls. The sleeps before the
    last one returned. *)
Lemma attempts_range (n : nat) attempt calls delay :
  attempt + Z.of_nat n = max_retries ->
  let run := Retry.attempts catches fmul sleeps func max_retries backoff_factor
                            (range attempt (max_retries + 1)) calls delay in
  fst run <> Retry.RaisesRuntimeError
  /\ (1 <= Retry.calls_of (snd run) <= S n)%nat
  /\ match fst run with
     | Retry.SleepRaises d =>
         sleeps d = false
         /\ last (Retry.sleeps_of (snd run)) = Some d
         /\ length (Retry.sleeps_of (snd run)) = Retry.calls_of (snd run)
     | _ => S (length (Retry.sleeps_of (snd run))) = Retry.calls_of (snd run)
     end
  /\ (forall d, fst run = Retry.SleepRaises d -> (Retry.calls_of (snd run) <= n)%nat).
Proof.
  revert attempt calls delay. induction n as [|n IH]; intros attempt calls delay Hn;
    rewrite range_cons by lia; cbn [Retry.attempts].
  - destruct (func calls) as [a|e]; [cbn; split; [done|]; split; [lia|done]|].
    destruct (catches e); [|cbn; split; [done|]; split; [lia|done]].
    replace (attempt =? max_retries) with true by lia.
    cbn. split; [done|]. split; [lia|done].
  - destruct (func calls) as [a|e]; [cbn; split; [done|]; split; [lia|done]|].
    destruct (catches e); [|cbn; split; [done|]; split; [lia|done]].
    replace (attempt =? max_retries) with false by lia.
    destruct (sleeps delay) eqn:Hsleep.
    + specialize (IH (attempt + 1) (S calls) (fmul delay backoff_factor) ltac:(lia)).
      destruct (Retry.attempts _ _ _ _ _ _ _ _ _) as [o events].
      cbn [fst snd] in *. destruct IH as (Ho & Hcalls & Hpaced & Hlast).
      rewrite !calls_of_cons, !sleeps_of_cons. cbn [length].
      split; [done|]. split; [lia|]. split.
      * destruct o as [a|e'|d|]; try by rewrite Hpaced.
        destruct Hpaced as (Hd & Hl & Hlen). split; [done|]. split; [|by rewrite Hlen].
        destruct (Retry.sleeps_of events) as [|d' ds]; [done|].
        by rewrite last_cons, Hl.
      * intros d Hd. specialize (Hlast d Hd). lia.
    + cbn. split; [done|]. split; [lia|]. split; [done|]. intros d _. lia.
Qed.

(** The call at which the loop stops when the sleeps before it return: the
    first one that returns, raises an exception that is not caught, or is
    the last attempt; and the loop stops after that call when it raises a
    caught exception and the sleep that follows raises. *)
Lemma attempts_stop (k : nat) attempt calls delay :
  attempt + Z.of_nat k <= max_retries ->
  (forall j, (j < k)%nat -> exists e, func (calls + j)%nat = inr e /\ catches e = true) ->
  forallb sleeps (Retry.delays fmul backoff_factor k delay) = true ->
  let run := Retry.attempts catches fmul sleeps func max_retries backoff_factor
                            (range attempt (max_retries + 1)) calls delay in
  let delay_k := Retry.delay_at fmul backoff_factor k delay in
  match func (calls + k)%nat with
  | inl a =>
      fst run = Retry.Returns a
      /\ Retry.calls_of (snd run) = S k
      /\ Retry.sleeps_of (snd run) = Retry.delays fmul backoff_factor k delay
  | inr e =>
      (catches e = false \/ attempt + Z.of_nat k = max_retries ->
       fst run = Retry.Raises e
       /\ Retry.calls_of (snd run) = S k
       /\ Retry.sleeps_of (snd run) = Retry.delays fmul backoff_factor k delay)
      /\ (catches e = true -> attempt + Z.of_nat k < max_retries ->
          sleeps delay_k = false ->
          fst run = Retry.SleepRaises delay_k
          /\ Retry.calls_of (snd run) = S k
          /\ Retry.sleeps_of (snd run) = Retry.delays fmul backoff_factor (S k) delay)
  end.
Proof.
  revert attempt calls delay. induction k as [|k IH];
    intros attempt calls delay Hk Hfail Hsleeps;
    rewrite range_cons by lia; cbn [Retry.attempts Retry.delay_at].
  - rewrite Nat.add_0_r, Z.add_0_r.
    destruct (func calls) as [a|e]; [done|].
    destruct (catches e) eqn:Hc.
    + destruct (Z.eqb_spec attempt max_retries) as [Heq|Hne].
      * split; [done|]. intros _ ?. lia.
      * split; [by intros [?|?]|]. intros _ _ ->. done.
    + split; [done|]. done.
  - destruct (Hfail 0%nat ltac:(lia)) as (e & He & Hc).
    rewrite Nat.add_0_r in He. rewrite He, Hc.
    replace (attempt =? max_retries) with false by lia.
    cbn [Retry.delays forallb] in Hsleeps. apply andb_true_iff in Hsleeps as [-> Hsleeps].
    specialize (IH (attempt + 1) (S calls) (fmul delay backoff_factor) ltac:(lia)).
    replace (S calls + k)%nat with (calls + S k)%nat in IH by lia.
    replace (attempt + 1 + Z.of_nat k) with (attempt + Z.of_nat (S k)) in IH by lia.
    specialize (IH ltac:(intros j Hj; replace (S calls + j)%nat with (calls + S j)%nat by lia;
                         apply Hfail; lia) Hsleeps).
    destruct (Retry.attempts _ _ _ _ _ _ _ _ _) as [o events]. cbn [fst snd] in *.
    rewrite !calls_of_cons, !sleeps_of_cons.
    destruct (func (calls + S k)%nat) as [a|e'].
    + destruct IH as (-> & -> & ->). done.
    + destruct IH as [Hraise Hsleep]. split.
      * intros Hstop. destruct (Hraise Hstop) as (-> & -> & ->). done.
      * intros Hc' Hlt Hno. destruct (Hsleep Hc' Hlt Hno) as (-> & -> & ->). done.
Qed.

End Retrying.

(** X17. The wrapper of [retry_with_backoff] raises the [RuntimeError] of
    its last line exactly when [max_retries] is negative, and then without
    calling the function. Otherwise it calls the function at least once and
    at most [max_retries + 1] times and ends in one of three ways: by a
    return of the function or by an exception of the function, having slept
    exactly once between two successive calls; or by the exception of a
    [sleep(delay)] that does not accept its delay, which is the last sleep,
    one sleep after each call, and then after at most [max_retries] calls.
    Where [sleep] accepts every delay only the first two ways are left. *)
Theorem retry_attempts_bounded (A E F : Type) (catches : E -> bool) (fmul : F -> F -> F)
        (sleeps : F -> bool) (func : nat -> A + E) (max_retries : Z)
        (initial_delay backoff_factor : F) :
  let run := Retry.wrapper catches fmul sleeps func max_retries initial_delay
                           backoff_factor in
  (fst run = Retry.RaisesRuntimeError <-> max_retries < 0)
  /\ (max_retries < 0 -> snd run = [])
  /\ (0 <= max_retries ->
      (1 <= Retry.calls_of (snd run) <= Z.to_nat (max_retries + 1))%nat
      /\ match fst run with
         | Retry.Returns _ | Retry.Raises _ =>
             S (length (Retry.sleeps_of (snd run))) = Retry.calls_of (snd run)
         | Retry.SleepRaises delay =>
             sleeps delay = false
             /\ last (Retry.sleeps_of (snd run)) = Some delay
             /\ length (Retry.sleeps_of (snd run)) = Retry.calls_of (snd run)
             /\ (Retry.calls_of (snd run) <= Z.to_nat max_retries)%nat
         | Retry.RaisesRuntimeError => False
         end)
  /\ ((forall delay, sleeps delay = true) ->
      forall delay, fst run <> Retry.SleepRaises delay).
Proof.
  unfold Retry.wrapper. cbn zeta.
  destruct (Z.ltb_spec max_retries 0) as [Hneg|Hpos].
  - assert (Hrange : range 0 (max_retries + 1) = []).
    { unfold range. by replace (Z.to_nat (max_retries + 1 - 0)) with 0%nat by lia. }
    rewrite Hrange. cbn. split; [done|]. split; [done|]. split; [lia|done].
  - destruct (attempts_range A E F catches fmul sleeps func max_retries backoff_factor
                             (Z.to_nat max_retries) 0 0 initial_delay ltac:(lia))
      as (Ho & Hcalls & Hpaced & Hlast).
    destruct (Retry.attempts _ _ _ _ _ _ _ _ _) as [o events]. cbn [fst snd] in *.
    split; [split; [done|lia]|]. split; [lia|]. split.
    + intros _.
      split; [by replace (Z.to_nat (max_retries + 1)) with (S (Z.to_nat max_retries)) by lia|].
      destruct o as [a|e|d|]; [done|done| |done].
      destruct Hpaced as (Hd & Hl & Hlen). repeat split; [done..|]. by apply (Hlast d).
    + intros Hall d ->. destruct Hpaced as [Hd _]. by rewrite Hall in Hd.
Qed.

(** X18. Where the wrapper of [retry_with_backoff] stops: let the first [k]
    calls raise exceptions that are caught, with [k <= max_retries], and let
    [sleep] accept the first [k] delays [initial_delay],
    [initial_delay * backoff_factor], ... Then the call number [k] is made
    and decides. If it returns, the wrapper returns its value; if it raises
    an exception that is not caught, or if it is the last attempt
    ([k = max_retries]), the wrapper raises that exception; in these cases
    the function was called [k + 1] times and [sleep] [k] times, with the
    first [k] delays. If it raises a caught exception before the last
    attempt and [sleep] does not accept the delay number [k], the wrapper
    ends with the exception of that [sleep], after [k + 1] calls of the
    function and [k + 1] of [sleep]. *)
Theorem retry_stops_at (A E F : Type) (catches : E -> bool) (fmul : F -> F -> F)
        (sleeps : F -> bool) (func : nat -> A + E) (max_retries : Z)
        (initial_delay backoff_factor : F) (k : nat) :
  Z.of_nat k <= max_retries ->
  (forall j, (j < k)%nat -> exists e, func j = inr e /\ catches e = true) ->
  forallb sleeps (Retry.delays fmul backoff_factor k initial_delay) = true ->
  let run := Retry.wrapper catches fmul sleeps func max_retries initial_delay
                           backoff_factor in
  let delay_k := Retry.delay_at fmul backoff_factor k initial_delay in
  match func k with
  | inl a =>
      fst run = Retry.Returns a
      /\ Retry.calls_of (snd run) = S k
      /\ Retry.sleeps_of (snd run) = Retry.delays fmul backoff_factor k initial_delay
  | inr e =>
      (catches e = false \/ Z.of_nat k = max_retries ->
       fst run = Retry.Raises e
       /\ Retry.calls_of (snd run) = S k
       /\ Retry.sleeps_of (snd run) = Retry.delays fmul backoff_factor k initial_delay)
      /\ (catches e = true -> Z.of_nat k < max_retries -> sleeps delay_k = false ->
          fst run = Retry.SleepRaises delay_k
          /\ Retry.calls_of (snd run) = S k
          /\ Retry.sleeps_of (snd run)
             = Retry.delays fmul backoff_factor (S k) initial_delay)
  end.
Proof.
  intros Hk Hfail Hsleeps.
  exact (attempts_stop A E F catches fmul sleeps func max_retries backoff_factor k 0 0
                       initial_delay ltac:(lia) Hfail Hsleeps).
Qed.

(** * File names *)

Section Characters.

Import Filenames.

Lemma map_str_compose (f g : ascii -> ascii) s :
  map_str g (map_str f s) = map_str (fun c => g (f c)) s.
Proof. induction s as [|c s IH]; [done|]. cbn. by rewrite IH. Qed.

Lemma map_str_ext (f g : ascii -> ascii) s :
  (forall c, f c = g c) -> map_str f s = map_str g s.
Proof. intros Hfg. induction s as [|c s IH]; [done|]. cbn. by rewrite Hfg, IH. Qed.

Lemma map_str_id (f : ascii -> ascii) p s :
  (forall c, p c = true -> f c = c) -> all_chars p s = true -> map_str f s = s.
Proof.
  intros Hf. induction s as [|c s IH]; [done|]. cbn.
  intros [Hc Hs]%andb_prop. by rewrite (Hf c Hc), IH.
Qed.

(** Replacing the unsafe characters one after the other is one substitution
    on characters. *)
Lemma fold_replace chars s :
  fold_left (fun name char => replace char "_"%char name) chars s
  = map_str (fun c => fold_left (fun x char => if Ascii.eqb x char then "_"%char else x)
                                chars c) s.
Proof.
  revert s. induction chars as [|char chars IH]; intros s; cbn [fold_left].
  - induction s as [|c s IHs]; [done|]. cbn. by rewrite <- IHs.
  - rewrite IH. unfold replace. by rewrite map_str_compose.
Qed.

Lemma substitution_safe c :
  is_safe (fold_left (fun x char => if Ascii.eqb x char then "_"%char else x)
                     unsafe_chars c) = true.
Proof. destruct c as [[] [] [] [] [] [] [] []]; reflexivity. Qed.

Lemma substitution_fixes c :
  is_safe c = true ->
  fold_left (fun x char => if Ascii.eqb x char then "_"%char else x) unsafe_chars c = c.
Proof. destruct c as [[] [] [] [] [] [] [] []]; intros H; try reflexivity; discriminate H. Qed.

Lemma all_chars_map_str p f s :
  (forall c, p (f c) = true) -> all_chars p (map_str f s) = true.
Proof. intros Hp. induction s as [|c s IH]; [done|]. cbn. by rewrite Hp, IH. Qed.

Lemma all_chars_lstrip_chars p q s :
  all_chars p s = true -> all_chars p (lstrip_chars q s) = true.
Proof.
  induction s as [|c s IH]; [done|]. cbn [lstrip_chars].
  destruct (q c); [|done]. cbn. intros [_ Hs]%andb_prop. by apply IH.
Qed.

Lemma all_chars_rstrip_chars p q s :
  all_chars p s = true -> all_chars p (rstrip_chars q s) = true.
Proof.
  induction s as [|c s IH]; [done|]. cbn [rstrip_chars all_chars].
  intros [Hc Hs]%andb_prop. specialize (IH Hs).
  destruct (rstrip_chars q s) as [|c' r].
  - destruct (q c); [done|]. cbn. by rewrite Hc.
  - cbn [all_chars] in *. by rewrite Hc, IH.
Qed.

Lemma lstrip_as_chars s : lstrip s = lstrip_chars is_ws s.
Proof. induction s as [|c s IH]; [done|]. cbn. by rewrite IH. Qed.

Lemma rstrip_as_chars s : rstrip s = rstrip_chars is_ws s.
Proof. induction s as [|c s IH]; [done|]. cbn. by rewrite IH. Qed.

Lemma all_chars_strip p s : all_chars p s = true -> all_chars p (strip s) = true.
Proof.
  intros Hs. unfold strip. rewrite rstrip_as_chars, lstrip_as_chars.
  by apply all_chars_rstrip_chars, all_chars_lstrip_chars.
Qed.

Lemma all_chars_prefix p (n : nat) s :
  all_chars p s = true -> all_chars p (String.substring 0 n s) = true.
Proof.
  revert n. induction s as [|c s IH]; intros [|n]; try done.
  cbn [String.substring all_chars]. intros [Hc Hs]%andb_prop. by rewrite Hc, IH.
Qed.

Lemma length_prefix (n : nat) s : (String.length (String.substring 0 n s) <= n)%nat.
Proof.
  revert n. induction s as [|c s IH]; intros [|n]; cbn; try lia.
  specialize (IH n). lia.
Qed.

Lemma lstrip_chars_fixed q s :
  match first_char s with Some c => q c = false | None => True end ->
  lstrip_chars q s = s.
Proof. destruct s as [|c s]; [done|]. cbn. by intros ->. Qed.

Lemma rstrip_chars_fixed q s :
  match last_char s with Some c => q c = false | None => True end ->
  rstrip_chars q s = s.
Proof.
  induction s as [|c s IH]; [done|]. cbn [rstrip_chars last_char].
  destruct s as [|c' s].
  - cbn. by intros ->.
  - intros Hlast. rewrite (IH Hlast). done.
Qed.

End Characters.

(** X19. What [sanitize_filename] returns is never empty, holds none of
    the characters of [unsafe_chars], and, for a [max_length] that is not
    negative, is at most [max_length] characters long, or the seven
    characters of ["unnamed"]. *)
Theorem sanitize_filename_safe (name : string) (max_length : Z) :
  let safe_name := Filenames.sanitize_filename name max_length in
  safe_name <> EmptyString
  /\ Filenames.all_chars Filenames.is_safe safe_name = true
  /\ (0 <= max_length -> Z.of_nat (String.length safe_name) <= Z.max max_length 7).
Proof.
  unfold Filenames.sanitize_filename. rewrite fold_replace.
  set (replaced := map_str _ name).
  assert (Hreplaced : Filenames.all_chars Filenames.is_safe replaced = true).
  { apply all_chars_map_str, substitution_safe. }
  set (stripped := Filenames.strip_chars Filenames.is_dot (strip replaced)).
  assert (Hstripped : Filenames.all_chars Filenames.is_safe stripped = true).
  { by apply all_chars_rstrip_chars, all_chars_lstrip_chars, all_chars_strip. }
  set (cut := if Z.of_nat (String.length stripped) >? max_length
              then Filenames.slice_to max_length stripped else stripped).
  assert (Hcut : Filenames.all_chars Filenames.is_safe cut = true).
  { unfold cut. destruct (_ >? _); [|done]. by apply all_chars_prefix. }
  assert (Hlen : 0 <= max_length -> Z.of_nat (String.length cut) <= max_length).
  { intros Hmax. unfold cut.
    destruct (Z.gtb_spec (Z.of_nat (String.length stripped)) max_length) as [Hgt|Hle];
      [|done].
    unfold Filenames.slice_to. replace (0 <=? max_length) with true by lia.
    pose proof (length_prefix (Z.to_nat max_length) stripped). lia. }
  cbn zeta. destruct cut as [|c cut'] eqn:Hc; cbn [truthy_str].
  - split; [done|]. split; [reflexivity|]. intros _. cbn. lia.
  - split; [done|]. split; [done|]. intros Hmax. specialize (Hlen Hmax). lia.
Qed.

(** X20. [sanitize_filename] leaves a name as it is when the name needs
    nothing: it is not empty, holds no unsafe character, neither starts nor
    ends with whitespace or a dot, and is not longer than [max_length]. *)
Theorem sanitize_filename_fixed (name : string) (max_length : Z) :
  name <> EmptyString ->
  Filenames.all_chars Filenames.is_safe name = true ->
  (forall c, Filenames.first_char name = Some c \/ Filenames.last_char name = Some c ->
             is_ws c = false /\ Filenames.is_dot c = false) ->
  Z.of_nat (String.length name) <= max_length ->
  Filenames.sanitize_filename name max_length = name.
Proof.
  intros Hne Hsafe Hends Hlen. unfold Filenames.sanitize_filename.
  rewrite fold_replace.
  match goal with
  | |- context [map_str ?f name] =>
      rewrite (map_str_id f Filenames.is_safe name substitution_fixes Hsafe)
  end.
  unfold strip. rewrite rstrip_as_chars, lstrip_as_chars.
  assert (Hfirst : forall q, (forall c, is_ws c = false /\ Filenames.is_dot c = false ->
                                        q c = false) ->
                             match Filenames.first_char name with
                             | Some c => q c = false | None => True end).
  { intros q Hq. destruct (Filenames.first_char name) as [c|] eqn:Hc; [|done].
    apply Hq, Hends. by left. }
  assert (Hlast : forall q, (forall c, is_ws c = false /\ Filenames.is_dot c = false ->
                                       q c = false) ->
                            match Filenames.last_char name with
                            | Some c => q c = false | None => True end).
  { intros q Hq. destruct (Filenames.last_char name) as [c|] eqn:Hc; [|done].
    apply Hq, Hends. by right. }
  rewrite (lstrip_chars_fixed is_ws name) by (apply Hfirst; tauto).
  rewrite (rstrip_chars_fixed is_ws name) by (apply Hlast; tauto).
  unfold Filenames.strip_chars.
  rewrite (lstrip_chars_fixed Filenames.is_dot name) by (apply Hfirst; tauto).
  rewrite (rstrip_chars_fixed Filenames.is_dot name) by (apply Hlast; tauto).
  replace (Z.of_nat (String.length name) >? max_length) with false by lia.
  by destruct name.
Qed.

(** A no-break space, code point 160, at the start of a name is whitespace
    for [strip()] and is removed. *)
Lemma sanitize_filename_no_break_space :
  Filenames.sanitize_filename (String (ascii_of_nat 160) "abc") 255 = "abc".
Proof. reflexivity. Qed.

(** * Cleaned lists and validated configurations *)

Section Normalisation.

Import Filenames.

Lemma lower_ascii_idem c : lower_ascii (lower_ascii c) = lower_ascii c.
Proof. destruct c as [[] [] [] [] [] [] [] []]; reflexivity. Qed.

Lemma upper_lower_upper c : upper_ascii (lower_ascii (upper_ascii c)) = upper_ascii c.
Proof. destruct c as [[] [] [] [] [] [] [] []]; reflexivity. Qed.

Lemma is_ws_lower c : is_ws (lower_ascii c) = is_ws c.
Proof. destruct c as [[] [] [] [] [] [] [] []]; reflexivity. Qed.

Lemma is_ws_upper c : is_ws (upper_ascii c) = is_ws c.
Proof. destruct c as [[] [] [] [] [] [] [] []]; reflexivity. Qed.

Lemma lower_idem s : lower (lower s) = lower s.
Proof.
  unfold lower. rewrite map_str_compose. apply map_str_ext, lower_ascii_idem.
Qed.

Lemma upper_lower_upper_str s : upper (lower (upper s)) = upper s.
Proof.
  unfold lower, upper. rewrite !map_str_compose. apply map_str_ext, upper_lower_upper.
Qed.

Lemma lstrip_map f s :
  (forall c, is_ws (f c) = is_ws c) -> lstrip (map_str f s) = map_str f (lstrip s).
Proof.
  intros Hf. induction s as [|c s IH]; [done|]. cbn. rewrite Hf.
  by destruct (is_ws c).
Qed.

Lemma rstrip_map f s :
  (forall c, is_ws (f c) = is_ws c) -> rstrip (map_str f s) = map_str f (rstrip s).
Proof.
  intros Hf. induction s as [|c s IH]; [done|]. cbn. rewrite IH, Hf.
  destruct (rstrip s); cbn; [by destruct (is_ws c)|done].
Qed.

Lemma strip_map f s :
  (forall c, is_ws (f c) = is_ws c) -> strip (map_str f s) = map_str f (strip s).
Proof. intros Hf. unfold strip. by rewrite lstrip_map, rstrip_map. Qed.

Lemma first_lstrip_chars q s :
  match first_char (lstrip_chars q s) with Some c => q c = false | None => True end.
Proof.
  induction s as [|c s IH]; [done|]. cbn [lstrip_chars].
  destruct (q c) eqn:Hc; [exact IH|]. cbn. exact Hc.
Qed.

Lemma first_rstrip_chars q s :
  match first_char s with Some c => q c = false | None => True end ->
  match first_char (rstrip_chars q s) with Some c => q c = false | None => True end.
Proof.
  destruct s as [|c s]; [done|]. cbn [first_char rstrip_chars]. intros Hc.
  destruct (rstrip_chars q s); [by rewrite Hc|done].
Qed.

Lemma last_rstrip_chars q s :
  match last_char (rstrip_chars q s) with Some c => q c = false | None => True end.
Proof.
  induction s as [|c s IH]; [done|]. cbn [rstrip_chars].
  destruct (rstrip_chars q s) as [|c' r].
  - destruct (q c) eqn:Hc; [done|]. cbn. exact Hc.
  - exact IH.
Qed.

Lemma strip_idem s : strip (strip s) = strip s.
Proof.
  unfold strip. rewrite !rstrip_as_chars, !lstrip_as_chars.
  rewrite (lstrip_chars_fixed is_ws (rstrip_chars is_ws (lstrip_chars is_ws s))).
  - apply rstrip_chars_fixed, last_rstrip_chars.
  - apply first_rstrip_chars, first_lstrip_chars.
Qed.

Lemma truthy_map_str f s : truthy_str (map_str f s) = truthy_str s.
Proof. by destruct s. Qed.

End Normalisation.

Section Cleaning.

(** An item as [clean_string_list] leaves it: not empty, without whitespace
    around it, in lower case. *)
Lemma cleaned_item item :
  truthy_str (strip item) = true ->
  let cleaned := lower (strip item) in
  truthy_str cleaned = true /\ strip cleaned = cleaned /\ lower cleaned = cleaned.
Proof.
  intros Hitem. cbn zeta. unfold lower at 1. rewrite truthy_map_str.
  split; [done|]. split; [|apply lower_idem].
  unfold lower. by rewrite (strip_map _ _ is_ws_lower), strip_idem.
Qed.

Lemma clean_list_elements (l : list string) x :
  x ∈ utils.clean_string_list (utils.ItemsList l) ->
  truthy_str x = true /\ strip x = x /\ lower x = x.
Proof.
  cbn [utils.clean_string_list].
  intros (item & -> & [[_ Hitem]%andb_prop _]%list_elem_of_filter)%list_elem_of_fmap.
  by apply cleaned_item.
Qed.

Lemma clean_str_elements (s : string) x :
  x ∈ utils.clean_string_list (utils.ItemsStr s) ->
  truthy_str x = true /\ strip x = x /\ lower x = x.
Proof.
  cbn [utils.clean_string_list].
  intros (item & -> & [[_ Hitem]%andb_prop _]%list_elem_of_filter)%list_elem_of_fmap.
  by apply cleaned_item.
Qed.

(** Cleaning a list of cleaned items changes nothing. *)
Lemma clean_cleaned (l : list string) :
  Forall (fun x => truthy_str x = true /\ strip x = x /\ lower x = x) l ->
  utils.clean_string_list (utils.ItemsList l) = l.
Proof.
  cbn [utils.clean_string_list].
  induction 1 as [|x l (Hx & Hstrip & Hlower) _ IH]; [done|].
  rewrite filter_cons_True by (by rewrite Hstrip, Hx).
  cbn [map]. by rewrite Hstrip, Hlower, IH.
Qed.

(** Cleaning the upper-cased cleaned items gives the cleaned items. *)
Lemma clean_upper_cleaned (l : list string) :
  Forall (fun x => truthy_str x = true /\ strip x = x /\ lower x = x) l ->
  map upper (utils.clean_string_list (utils.ItemsList (map upper l))) = map upper l.
Proof.
  cbn [utils.clean_string_list].
  induction 1 as [|x l (Hx & Hstrip & Hlower) _ IH]; [done|].
  cbn [map].
  assert (Hup : strip (upper x) = upper x).
  { unfold upper. by rewrite (strip_map _ _ is_ws_upper), Hstrip. }
  rewrite filter_cons_True.
  - cbn [map]. by rewrite Hup, upper_lower_upper_str, IH.
  - rewrite Hup. unfold upper. by rewrite truthy_map_str, Hx.
Qed.

(** The items of a cleaned list are not empty, stripped and lower case. *)
Lemma clean_list_normal (l : list string) :
  Forall (fun x => x <> EmptyString /\ strip x = x /\ lower x = x)
         (utils.clean_string_list (utils.ItemsList l)).
Proof.
  apply Forall_forall. intros x (Hx & Hstrip & Hlower)%clean_list_elements.
  split; [|done]. by destruct x.
Qed.

End Cleaning.

(** X21. [clean_string_list] returns a normal form: every item of its
    result is non-empty, has no whitespace around it and is in lower case,
    whether the argument is [None], a comma-separated string or a list; and
    cleaning the result again returns it unchanged. *)
Theorem clean_string_list_normal (items : utils.str_or_list) :
  Forall (fun x => x <> EmptyString /\ strip x = x /\ lower x = x)
         (utils.clean_string_list items)
  /\ utils.clean_string_list (utils.ItemsList (utils.clean_string_list items))
     = utils.clean_string_list items.
Proof.
  assert (Hnormal : Forall (fun x => truthy_str x = true /\ strip x = x /\ lower x = x)
                           (utils.clean_string_list items)).
  { apply Forall_forall. intros x Hx. destruct items as [|s|l].
    - by apply elem_of_nil in Hx.
    - by apply (clean_str_elements s).
    - by apply (clean_list_elements l). }
  split; [|by apply clean_cleaned].
  eapply Forall_impl; [exact Hnormal|].
  intros x (Hx & Hstrip & Hlower). split; [|done]. by destruct x.
Qed.

Section Validation.

Import FilterConfig.

Variable current_year : Z.

(** What a configuration that passed [__post_init__] looks like. *)
Lemma post_init_inv self config :
  __post_init__ current_year self = Ok config ->
  exists year_end',
    config = ConfigDict.validated self year_end'
    /\ truthy_opt_str (genus self) || truthy_opt_str (family self) = true
    /\ (year_start self = 0 \/ 1700 <= year_start self <= current_year + 1)
    /\ (year_end' = current_year \/ (year_end' <> 0 /\ 1700 <= year_end' <= current_year + 1))
    /\ year_start self <= year_end'
    /\ 0 <= uncertainty_max self.
Proof.
  unfold __post_init__.
  destruct (negb _ && negb _) eqn:Htax; [done|].
  assert (Htaxon : truthy_opt_str (genus self) || truthy_opt_str (family self) = true).
  { destruct (truthy_opt_str (genus self)), (truthy_opt_str (family self)); done. }
  assert (Hys : forall r,
             (if truthy_int (year_start self)
              then utils.validate_year current_year (year_start self) "year_start"
              else Ok (year_start self)) = Ok r ->
             r = year_start self
             /\ (year_start self = 0 \/ 1700 <= year_start self <= current_year + 1)).
  { intros r. unfold truthy_int.
    destruct (Z.eqb_spec (year_start self) 0) as [Hz|Hnz]; cbn [negb].
    - intros [= <-]. split; [done|by left].
    - intros [-> Hr]%validate_year_inv. split; [done|by right]. }
  assert (Hye : forall r,
             (if truthy_opt_int (year_end self)
              then utils.validate_year current_year (Json.get (year_end self) 0) "year_end"
              else Ok current_year) = Ok r ->
             r = current_year \/ (r <> 0 /\ 1700 <= r <= current_year + 1)).
  { intros r. destruct (truthy_opt_int (year_end self)).
    - intros [-> Hr]%validate_year_inv. right. split; lia.
    - intros [= <-]. by left. }
  destruct (if truthy_int _ then _ else _) as [ys|]; [|done].
  destruct (Hys ys eq_refl) as [-> Hstart].
  destruct (if truthy_opt_int (year_end self) then _ else _) as [ye|]; [|done].
  specialize (Hye ye eq_refl).
  cbn [mbind result_bind].
  destruct (Z.gtb_spec (year_start self) ye); [done|].
  unfold utils.validate_positive_int.
  destruct (Z.ltb_spec (uncertainty_max self) 0); [done|].
  cbn [mbind result_bind]. intros [= <-]. exists ye. done.
Qed.

(** A validated configuration passes [__post_init__] again, unchanged. *)
Lemma post_init_validated self year_end' :
  1700 <= current_year ->
  truthy_opt_str (genus self) || truthy_opt_str (family self) = true ->
  year_start self = 0 \/ 1700 <= year_start self <= current_year + 1 ->
  year_end' = current_year \/ (year_end' <> 0 /\ 1700 <= year_end' <= current_year + 1) ->
  year_start self <= year_end' ->
  0 <= uncertainty_max self ->
  __post_init__ current_year (ConfigDict.validated self year_end')
  = Ok (ConfigDict.validated self year_end').
Proof.
  intros Hcy Htaxon Hstart Hend Hle Hunc.
  unfold __post_init__, ConfigDict.validated.
  cbn [year_end year_start uncertainty_max species_list institutions countries
       genus family require_year require_elevation keep_unknown_uncertainty
       basis_of_record deduplicate].
  replace (negb (truthy_opt_str (genus self)) && negb (truthy_opt_str (family self)))
    with false
    by (destruct (truthy_opt_str (genus self)), (truthy_opt_str (family self)); done).
  assert (Hys : (if truthy_int (year_start self)
                 then utils.validate_year current_year (year_start self) "year_start"
                 else Ok (year_start self))
                = Ok (year_start self)).
  { unfold truthy_int.
    destruct (Z.eqb_spec (year_start self) 0) as [Hz|Hnz]; [done|].
    cbn [negb]. apply validate_year_ok. lia. }
  assert (Hye : (if truthy_opt_int (Some year_end')
                 then utils.validate_year current_year (Json.get (Some year_end') 0)
                                          "year_end"
                 else Ok current_year)
                = Ok year_end').
  { cbn [truthy_opt_int Json.get]. unfold truthy_int.
    destruct (Z.eqb_spec year_end' 0) as [Hz|Hnz]; cbn [negb].
    - f_equal. lia.
    - apply validate_year_ok. lia. }
  rewrite Hys, Hye. cbn [mbind result_bind].
  destruct (Z.gtb_spec (year_start self) year_end'); [lia|].
  unfold utils.validate_positive_int.
  destruct (Z.ltb_spec (uncertainty_max self) 0); [lia|].
  cbn [mbind result_bind]. f_equal.
  rewrite (clean_cleaned (utils.clean_string_list (utils.ItemsList (species_list self)))),
    (clean_cleaned (utils.clean_string_list (utils.ItemsList (institutions self)))),
    (clean_upper_cleaned (utils.clean_string_list (utils.ItemsList (countries self))));
    [done| | |];
    apply Forall_forall; intros x Hx; by apply (clean_list_elements _ x Hx).
Qed.

End Validation.

(** X22. A configuration that passed [__post_init__] is in normal form:
    its [year_end] is set and not before its [year_start]; its [year_start]
    is 0 or within 1700 and the next year; its [uncertainty_max] is not
    negative; the items of its species and institution lists are non-empty,
    stripped and in lower case, those of its country list non-empty, stripped
    and in upper case; and a genus or a family is given. *)
Theorem post_init_normal (current_year : Z) (self config : FilterConfig.t) :
  FilterConfig.__post_init__ current_year self = Ok config ->
  (exists year_end',
      FilterConfig.year_end config = Some year_end'
      /\ FilterConfig.year_start config <= year_end')
  /\ (FilterConfig.year_start config = 0
      \/ 1700 <= FilterConfig.year_start config <= current_year + 1)
  /\ 0 <= FilterConfig.uncertainty_max config
  /\ Forall (fun x => x <> EmptyString /\ strip x = x /\ lower x = x)
            (FilterConfig.species_list config ++ FilterConfig.institutions config)
  /\ Forall (fun x => x <> EmptyString /\ strip x = x /\ upper (lower x) = x)
            (FilterConfig.countries config)
  /\ truthy_opt_str (FilterConfig.genus config)
     || truthy_opt_str (FilterConfig.family config) = true.
Proof.
  intros (ye & -> & Htaxon & Hstart & Hend & Hle & Hunc)%post_init_inv.
  unfold ConfigDict.validated.
  cbn [FilterConfig.year_end FilterConfig.year_start FilterConfig.uncertainty_max
       FilterConfig.species_list FilterConfig.institutions FilterConfig.countries
       FilterConfig.genus FilterConfig.family].
  split; [by exists ye|]. split; [done|]. split; [done|].
  split; [|split; [|done]].
  - apply Forall_app. split; apply clean_list_normal.
  - apply Forall_forall. intros y (x & -> & Hx)%list_elem_of_fmap.
    apply clean_list_elements in Hx as (Hx & Hstrip & Hlower).
    split; [by destruct x|]. split.
    + unfold upper. by rewrite (strip_map _ _ is_ws_upper), Hstrip.
    + apply upper_lower_upper_str.
Qed.

(** X23. Validation is idempotent: in a year from 1700 on, a configuration
    that [__post_init__] returned passes [__post_init__] again and comes out
    unchanged. *)
Theorem post_init_idempotent (current_year : Z) (self config : FilterConfig.t) :
  1700 <= current_year ->
  FilterConfig.__post_init__ current_year self = Ok config ->
  FilterConfig.__post_init__ current_year config = Ok config.
Proof.
  intros Hcy (ye & -> & Htaxon & Hstart & Hend & Hle & Hunc)%post_init_inv.
  by apply post_init_validated.
Qed.

(** X24. A validated configuration survives [to_dict] and [from_dict]: in
    a year from 1700 on, for a configuration that [__post_init__] returned
    and whose genus and family are not empty strings, [from_dict] of
    [to_dict] returns the configuration itself. An empty genus or family does
    not survive: [from_dict] reads it as absent. *)
Theorem config_round_trip (current_year : Z) (self config : FilterConfig.t) :
  1700 <= current_year ->
  FilterConfig.__post_init__ current_year self = Ok config ->
  (FilterConfig.genus config <> Some EmptyString ->
   FilterConfig.family config <> Some EmptyString ->
   ConfigDict.from_dict current_year (ConfigDict.to_dict config) = Ok config)
  /\ (FilterConfig.genus config = Some EmptyString ->
      ConfigDict.from_dict current_year (ConfigDict.to_dict config)
      = Ok (FilterConfig.with_genus None config)).
Proof.
  intros Hcy (ye & -> & Htaxon & Hstart & Hend & Hle & Hunc)%post_init_inv.
  assert (Hlist : forall l : list string, ConfigDict.or_list (Some l) [] = l).
  { by intros [|x l]. }
  assert (Hstr : forall o, o <> Some EmptyString -> ConfigDict.or_str o None = o).
  { intros [[|c s]|] Ho; done. }
  unfold ConfigDict.from_dict, ConfigDict.to_dict.
  cbn [ConfigDict.taxonomy ConfigDict.filters Json.get ConfigDict.t_genus
       ConfigDict.t_species ConfigDict.t_family ConfigDict.d_genus
       ConfigDict.d_species_list ConfigDict.d_family ConfigDict.f_year_start
       ConfigDict.f_year_end ConfigDict.f_uncertainty_max ConfigDict.f_require_year
       ConfigDict.f_require_elevation ConfigDict.f_keep_unknown_uncertainty
       ConfigDict.f_countries ConfigDict.f_institutions ConfigDict.f_basis_of_record
       ConfigDict.f_deduplicate].
  rewrite Hlist.
  change (FilterConfig.genus (ConfigDict.validated self ye)) with (FilterConfig.genus self).
  change (FilterConfig.family (ConfigDict.validated self ye))
    with (FilterConfig.family self).
  split.
  - intros Hgenus Hfamily. rewrite !Hstr by done.
    by apply (post_init_validated current_year self ye).
  - intros Hgenus. rewrite Hgenus in *. cbn [ConfigDict.or_str truthy_opt_str truthy_str].
    cbn [truthy_opt_str truthy_str orb] in Htaxon.
    rewrite Hstr by (intros H; by rewrite H in Htaxon).
    apply (post_init_set_genus current_year (ConfigDict.validated self ye)
                               (ConfigDict.validated self ye) None).
    + exact Htaxon.
    + apply (post_init_validated current_year self ye); try done.
      by rewrite Hgenus.
Qed.

(** * Taxon matching, the single query and the export *)

(** X25. When [match_taxon] accepts: for a delivered response it returns
    the match exactly when the match type is not NONE and, in strict mode with
    an expected rank, the matched rank is the expected one and the matched
    canonical name is the requested name up to case. Whatever the outcome it
    makes exactly one request, and a match it returns is logged after the
    request. *)
Theorem match_taxon_accepts (session_get : nat -> request -> http_outcome)
        (self : GBIFClient.t) (name : string) (rank : option string)
        (kingdom : string) (class_name : option string) (strict : bool)
        (w : World.t) (data : Json.body) :
  delivers (session_get (requests_made w)
              {| endpoint := SPECIES_MATCH_ENDPOINT;
                 query := MatchParams (match_query name kingdom class_name) |})
           data ->
  let found := TaxonMatch.from_api_response (Json.as_match data) in
  let run := match_taxon session_get self name rank kingdom class_name strict w in
  (fst run = Ok found <->
   TaxonMatch.match_type found <> "NONE"
   /\ (strict = true -> truthy_opt_str rank = true ->
       rank = Some (TaxonMatch.rank found)
       /\ lower (TaxonMatch.canonical_name found) = lower name))
  /\ requests_made (snd run) = S (requests_made w)
  /\ (fst run = Ok found ->
      trace (snd run)
      = (trace w
         ++ [EvLog DEBUG (Matching name);
             EvRequest {| endpoint := SPECIES_MATCH_ENDPOINT;
                          query := MatchParams (match_query name kingdom class_name) |};
             EvLog INFO (Matched name (TaxonMatch.canonical_name found)
                                 (TaxonMatch.rank found)
                                 (TaxonMatch.usage_key found))])%list).
Proof.
  intros Hget found run. subst run. unfold match_taxon.
  rewrite (make_request_delivers session_get self _ _ (log DEBUG (Matching name) w)
                                 data Hget).
  fold found.
  destruct (String.eqb_spec (TaxonMatch.match_type found) "NONE") as [Hnone|Hsome].
  { cbn [fst snd]. split; [|split; [done|done]]. split; [done|]. by intros [? _]. }
  destruct strict; cbn [andb].
  - destruct rank as [rk|]; cbn [truthy_opt_str Json.get].
    + destruct (truthy_str rk) eqn:Hrk; cbn [andb].
      * destruct (String.eqb_spec (TaxonMatch.rank found) rk) as [Heq|Hne]; cbn [negb].
        -- destruct (String.eqb_spec (lower (TaxonMatch.canonical_name found))
                                     (lower name)) as [Hname|Hname]; cbn [negb fst snd].
           ++ split; [|split; [done|]].
              ** split; [|done]. intros _. split; [done|]. intros _ _. by rewrite Heq.
              ** intros _. unfold log, emit, asked. cbn [trace].
                 by rewrite <- !app_assoc.
           ++ split; [|split; [done|done]].
              split; [done|]. intros [_ H]. by destruct (H eq_refl eq_refl).
        -- cbn [fst snd]. split; [|split; [done|done]].
           split; [done|]. intros [_ H]. destruct (H eq_refl eq_refl) as [[= ->] _]. done.
      * cbn [fst snd]. split; [|split; [done|]].
        -- split; [|done]. intros _. split; [done|]. intros _ H. done.
        -- intros _. unfold log, emit, asked. cbn [trace]. by rewrite <- !app_assoc.
    + cbn [andb fst snd]. split; [|split; [done|]].
      * split; [|done]. intros _. split; [done|]. intros _ H. done.
      * intros _. unfold log, emit, asked. cbn [trace]. by rewrite <- !app_assoc.
  - cbn [fst snd]. split; [|split; [done|]].
    + split; [|done]. intros _. split; [done|]. intros H. done.
    + intros _. unfold log, emit, asked. cbn [trace]. by rewrite <- !app_assoc.
Qed.

(** The names are compared as [str.lower()] gives them, also beyond the
    letters A to Z: a name in capitals that starts with the capital E with
    an acute accent is matched by the canonical name in small letters. *)
Lemma match_taxon_accented :
  fst (match_taxon (ExampleResponses.replay [ExampleResponses.accented_match])
                   ExampleResponses.client ExampleResponses.accented_capitals
                   (Some "GENUS") "Animalia" None true World.initial)
  = Ok (TaxonMatch.from_api_response (Json.as_match ExampleResponses.accented_match)).
Proof. vm_compute. reflexivity. Qed.


Section Single.

Variable session_get : nat -> request -> http_outcome.
Variable self : GBIFClient.t.
Variable progress_callback : bool.

Lemma single_fold_items items g :
  let g' := fold_left (SingleQuery.item_step progress_callback) items g in
  SingleQuery.yielded g'
  = (SingleQuery.yielded g ++ map OccurrenceRecord.from_api_response items)%list
  /\ SingleQuery.requested g' = SingleQuery.requested g
  /\ requests_made (SingleQuery.world g') = requests_made (SingleQuery.world g)
  /\ SingleQuery.count g' = SingleQuery.count g + Z.of_nat (length items).
Proof.
  revert g. induction items as [|item items IH]; intros g; cbn [fold_left map length].
  - rewrite app_nil_r. repeat split; lia.
  - destruct (IH (SingleQuery.item_step progress_callback g item)) as (Hy & Hr & Hn & Hc).
    cbn zeta. rewrite Hy, Hr, Hn, Hc.
    unfold SingleQuery.yielded, SingleQuery.requested, SingleQuery.item_step, emit.
    cbn [SingleQuery.world SingleQuery.count trace requests_made].
    rewrite yields_of_app, requests_of_app. cbn.
    rewrite <- app_assoc, app_nil_r. repeat split; lia.
Qed.

(** What a delivered page adds, and whether the loop goes on after it. *)
Lemma single_page_turn params g data :
  delivers (session_get (requests_made (SingleQuery.world g)) (search params)) data ->
  let outcome := SingleQuery.page_turn session_get self progress_callback params g in
  SingleQuery.yielded (snd outcome)
  = (SingleQuery.yielded g
     ++ map OccurrenceRecord.from_api_response (Fetch.results_of data))%list
  /\ SingleQuery.requested (snd outcome)
     = (SingleQuery.requested g ++ [search params])%list
  /\ requests_made (SingleQuery.world (snd outcome))
     = S (requests_made (SingleQuery.world g))
  /\ SingleQuery.count (snd outcome)
     = SingleQuery.count g + Z.of_nat (length (Fetch.results_of data))
  /\ (SingleQuery.final_page self params data -> fst outcome = Break)
  /\ (SingleQuery.more_pages self params data ->
      fst outcome = Continue (advance params (page_size self))).
Proof.
  intros Hdata. unfold SingleQuery.page_turn.
  rewrite (make_request_delivers session_get self _ _ (SingleQuery.world g) data Hdata).
  fold (Fetch.results_of data).
  set (g0 := match SingleQuery.total g with Some _ => _ | None => _ end).
  assert (Hg0 : SingleQuery.yielded g0 = SingleQuery.yielded g
                /\ SingleQuery.requested g0
                   = (SingleQuery.requested g ++ [search params])%list
                /\ requests_made (SingleQuery.world g0)
                   = S (requests_made (SingleQuery.world g))
                /\ SingleQuery.count g0 = SingleQuery.count g).
  { unfold g0, SingleQuery.yielded, SingleQuery.requested.
    destruct (SingleQuery.total g); cbn [SingleQuery.world SingleQuery.count];
      by rewrite yields_of_asked, requests_of_asked. }
  destruct Hg0 as (Hy0 & Hr0 & Hn0 & Hc0).
  pose proof (single_fold_items (Fetch.results_of data) g0) as (Hy & Hr & Hn & Hc).
  unfold SingleQuery.final_page, SingleQuery.more_pages.
  destruct (Fetch.results_of data) as [|item items] eqn:Hitems.
  - cbn [truthy_list negb fst snd map length]. rewrite app_nil_r.
    rewrite Hy0, Hr0, Hn0, Hc0. repeat split; try done; try lia.
    by intros [? _].
  - cbn [truthy_list negb]. cbn zeta in Hy, Hr, Hn, Hc.
    rewrite Hy0, Hr0, Hn0, Hc0 in *.
    destruct (Json.get (Json.endOfRecords (Json.as_search data)) false) eqn:Hend.
    + cbn [fst snd]. repeat split; try done. by intros (_ & ? & _).
    + cbn [advance offset Json.get].
      destruct (Z.geb_spec (Json.get (offset params) 0 + page_size self) MAX_OFFSET)
        as [Hge|Hlt]; cbn [fst snd SingleQuery.world SingleQuery.count].
      * unfold SingleQuery.yielded, SingleQuery.requested in *.
        cbn [SingleQuery.world]. repeat split; try done. intros (_ & _ & ?). lia.
      * repeat split; try done. intros [?|[?|?]]; [done|done|lia].
Qed.

End Single.

(** X26. [iter_occurrences] does not deduplicate and has no error
    handling of its own. When the server delivers, for the successive
    offsets, pages after each of which the loop goes on (results, no
    [endOfRecords], next offset below [MAX_OFFSET]) and then a page after
    which it stops, the generator requests exactly these offsets and yields
    every item of every page, in order, duplicates included; a short page
    does not stop it. And a request that fails ends the generator with the
    exception of that request, whatever it is. *)
Theorem single_query_pages :
  (forall (session_get : nat -> request -> http_outcome) (self : GBIFClient.t)
          (progress_callback : bool) (pages : list Json.body) (final : Json.body)
          (fuel : nat) (params : search_params) (g : SingleQuery.gen),
      (forall i data, pages !! i = Some data ->
          delivers (session_get (requests_made (SingleQuery.world g) + i)%nat
                                (search (Fetch.nth_page self params i))) data
          /\ SingleQuery.more_pages self (Fetch.nth_page self params i) data) ->
      delivers (session_get (requests_made (SingleQuery.world g) + length pages)%nat
                            (search (Fetch.nth_page self params (length pages)))) final ->
      SingleQuery.final_page self (Fetch.nth_page self params (length pages)) final ->
      (length pages < fuel)%nat ->
      exists g',
        SingleQuery.page_loop session_get self progress_callback fuel params g
        = Some (Ok (), g')
        /\ SingleQuery.yielded g'
           = (SingleQuery.yielded g
              ++ map OccurrenceRecord.from_api_response
                     (concat (map Fetch.results_of (pages ++ [final]))))%list
        /\ SingleQuery.requested g'
           = (SingleQuery.requested g
              ++ map (fun i => search (Fetch.nth_page self params i))
                     (seq 0 (S (length pages))))%list)
  /\ (forall (session_get : nat -> request -> http_outcome) (self : GBIFClient.t)
             (progress_callback : bool) (fuel : nat) (params : search_params)
             (g : SingleQuery.gen) (e : exn),
         fst (_make_request session_get self OCCURRENCE_SEARCH_ENDPOINT
                            (SearchParams params) (SingleQuery.world g))
         = Raise e ->
         exists g',
           SingleQuery.page_loop session_get self progress_callback (S fuel) params g
           = Some (Raise e, g')
           /\ SingleQuery.yielded g' = SingleQuery.yielded g).
Proof.
  split.
  - intros session_get self progress_callback pages final.
    induction pages as [|data pages IH]; intros fuel params g Hpages Hfinal Hlast Hfuel.
    + destruct fuel as [|fuel]; [cbn in Hfuel; lia|].
      cbn [length] in *. rewrite Nat.add_0_r in Hfinal.
      change (Fetch.nth_page self params 0) with params in *.
      pose proof (single_page_turn session_get self progress_callback params g final
                                   Hfinal) as (Hy & Hr & _ & _ & Hbreak & _).
      specialize (Hbreak Hlast). cbn [SingleQuery.page_loop].
      destruct (SingleQuery.page_turn _ _ _ _ _) as [t g1]. cbn [fst snd] in *. subst t.
      exists g1. split; [done|]. split; [|done].
      cbn [app map concat]. by rewrite app_nil_r.
    + destruct fuel as [|fuel]; [cbn in Hfuel; lia|].
      destruct (Hpages 0%nat data eq_refl) as [Hdata Hmore].
      rewrite Nat.add_0_r in Hdata.
      change (Fetch.nth_page self params 0) with params in *.
      pose proof (single_page_turn session_get self progress_callback params g data
                                   Hdata) as (Hy & Hr & Hn & _ & _ & Hcont).
      specialize (Hcont Hmore). cbn [SingleQuery.page_loop].
      destruct (SingleQuery.page_turn _ _ _ _ _) as [t g1]. cbn [fst snd] in *. subst t.
      destruct (IH fuel (advance params (page_size self)) g1) as (g' & Hrun & Hy' & Hr').
      * intros i d Hi. rewrite Hn, <- nth_page_succ.
        replace (S (requests_made (SingleQuery.world g)) + i)%nat
          with (requests_made (SingleQuery.world g) + S i)%nat by lia.
        by apply Hpages.
      * rewrite Hn, <- nth_page_succ.
        replace (S (requests_made (SingleQuery.world g)) + length pages)%nat
          with (requests_made (SingleQuery.world g) + length (data :: pages))%nat
          by (cbn; lia).
        exact Hfinal.
      * rewrite <- nth_page_succ. exact Hlast.
      * cbn in Hfuel. lia.
      * exists g'. split; [exact Hrun|]. split.
        -- rewrite Hy', Hy. cbn [app map concat].
           by rewrite (map_app _ (Fetch.results_of data)), app_assoc.
        -- rewrite Hr', Hr. rewrite <- app_assoc. f_equal.
           cbn [length].
           change (seq 0 (S (S (length pages)))) with (0%nat :: seq 1 (S (length pages))).
           rewrite <- seq_shift, map_cons, map_map. cbn [app]. f_equal.
           apply map_ext. intros i. by rewrite nth_page_succ.
  - intros session_get self progress_callback fuel params g e Hraise.
    cbn [SingleQuery.page_loop]. unfold SingleQuery.page_turn.
    pose proof (make_request_world session_get self OCCURRENCE_SEARCH_ENDPOINT
                                   (SearchParams params) (SingleQuery.world g)) as Hw.
    destruct (_make_request _ _ _ _ _) as [r w]. cbn [fst snd] in *. subst r w.
    eexists. split; [reflexivity|].
    unfold SingleQuery.yielded. cbn [SingleQuery.world]. apply yields_of_asked.
Qed.

Section Exporting.

Variable properties_of : Type.
Variable _get_properties : OccurrenceRecord.t -> properties_of.

Lemma feature_fold records features skipped :
  exists added,
    fold_left (GeoJSONExporter.feature_step _get_properties) records (features, skipped)
    = ((features ++ added)%list,
       skipped + (Z.of_nat (length records) - Z.of_nat (length added)))
    /\ Forall2 (GeoJSONExporter.feature_of _get_properties) added
               (List.filter GeoJSONExporter.georeferenced records).
Proof.
  revert features skipped.
  induction records as [|record records IH]; intros features skipped.
  - exists []. cbn. rewrite app_nil_r. split; [f_equal; lia|constructor].
  - cbn [fold_left List.filter].
    unfold GeoJSONExporter.feature_step at 2, GeoJSONExporter.georeferenced at 1.
    destruct (OccurrenceRecord.latitude record) as [latitude|] eqn:Hlat;
      [destruct (OccurrenceRecord.longitude record) as [longitude|] eqn:Hlon|].
    + match goal with
      | |- context [fold_left _ records (?fs, _)] =>
          destruct (IH fs skipped) as (added & -> & Hall)
      end.
      eexists (_ :: added). split.
      * rewrite <- app_assoc. cbn [app length]. f_equal. lia.
      * constructor; [|exact Hall]. by repeat split.
    + destruct (IH features (skipped + 1)) as (added & -> & Hall).
      exists added. split; [|exact Hall]. cbn [length]. f_equal. lia.
    + destruct (IH features (skipped + 1)) as (added & -> & Hall).
      exists added. split; [|exact Hall]. cbn [length]. f_equal. lia.
Qed.

Lemma filter_sublist {X} (p : X -> bool) (l : list X) : sublist (List.filter p l) l.
Proof.
  induction l as [|x l IH]; [constructor|]. cbn [List.filter].
  destruct (p x); [by apply sublist_skip|by apply sublist_cons].
Qed.

Lemma feature_ids features records :
  Forall2 (GeoJSONExporter.feature_of _get_properties) features records ->
  map GeoJSONExporter.id features
  = map pretty (map OccurrenceRecord.key records).
Proof.
  induction 1 as [|f record features records (Hid & _) _ IH]; [done|].
  cbn [map]. by rewrite Hid, IH.
Qed.

Lemma feature_ids_distinct features records :
  Forall2 (GeoJSONExporter.feature_of _get_properties) features
          (List.filter GeoJSONExporter.georeferenced records) ->
  NoDup (map OccurrenceRecord.key records) ->
  NoDup (map GeoJSONExporter.id features).
Proof.
  intros Hall Hnd. rewrite (feature_ids _ _ Hall).
  apply (NoDup_fmap_2 pretty).
  eapply sublist_NoDup; [exact Hnd|].
  apply (fmap_sublist OccurrenceRecord.key), filter_sublist.
Qed.

End Exporting.

(** X27. The features [_create_feature_collection_manual] makes are, in
    order, the features of the records that have both coordinates: each has
    the key of its record as id, the coordinates of its record with the
    longitude first, and the properties of its record. Every other record is
    counted as skipped. Records with pairwise distinct keys give features
    with pairwise distinct ids. *)
Theorem feature_collection_shape (properties_of : Type)
        (_get_properties : OccurrenceRecord.t -> properties_of)
        (records : list OccurrenceRecord.t) :
  let features :=
    fst (GeoJSONExporter._create_feature_collection_manual _get_properties records) in
  let skipped :=
    snd (GeoJSONExporter._create_feature_collection_manual _get_properties records) in
  Forall2 (GeoJSONExporter.feature_of _get_properties) features
          (List.filter GeoJSONExporter.georeferenced records)
  /\ skipped = Z.of_nat (length records) - Z.of_nat (length features)
  /\ (NoDup (map OccurrenceRecord.key records) ->
      NoDup (map GeoJSONExporter.id features)).
Proof.
  unfold GeoJSONExporter._create_feature_collection_manual.
  destruct (feature_fold properties_of _get_properties records [] 0)
    as (added & -> & Hall).
  cbn [fst snd app]. split; [exact Hall|]. split; [lia|].
  by apply (feature_ids_distinct _ _get_properties).
Qed.

(** X28. From the download to the export: the records a run of
    [iter_occurrences_by_year] has yielded, filtered by [filter_records]
    with any configuration, give features with pairwise distinct ids. *)
Theorem exported_ids_distinct (session_get : nat -> request -> http_outcome)
        (current_year : Z) (fuel : nat) (self : GBIFClient.t) (taxon_key year_start : Z)
        (year_end : option Z) (basis_of_record : basis) (has_coordinate : bool)
        (country : option string) (progress_callback : bool)
        (stop_check : option (nat -> bool)) (r : result unit) (g : gen)
        (config : FilterConfig.t) (properties_of : Type)
        (_get_properties : OccurrenceRecord.t -> properties_of) :
  iter_occurrences_by_year session_get current_year fuel self taxon_key year_start year_end
                           basis_of_record has_coordinate country progress_callback
                           stop_check World.initial
  = Some (r, g) ->
  NoDup (map GeoJSONExporter.id
             (fst (GeoJSONExporter._create_feature_collection_manual
                     _get_properties
                     (fst (filters.filter_records (yielded g) config))))).
Proof.
  intros Hrun.
  destruct (run_consistent _ _ _ _ _ _ _ _ _ _ _ _ _ _ Hrun) as (Hnd & _).
  unfold GeoJSONExporter._create_feature_collection_manual.
  destruct (feature_fold properties_of _get_properties
                         (fst (filters.filter_records (yielded g) config)) [] 0)
    as (added & -> & Hall).
  cbn [fst app]. apply (feature_ids_distinct _ _ _ _ Hall).
  destruct (filter_records_keep_from config (yielded g)) as [-> _].
  eapply sublist_NoDup; [exact Hnd|].
  apply (fmap_sublist OccurrenceRecord.key), keep_from_sublist.
Qed.

Lemma append_cancel (p a b : string) : p +:+ a = p +:+ b -> a = b.
Proof.
  induction p as [|c p IH]; [done|].
  change (String c (p +:+ a) = String c (p +:+ b) -> a = b).
  intros [= H]. by apply IH.
Qed.

(** X29. What the export keeps of a record: [to_dict] has sixteen keys,
    and two records have the same dictionary exactly when they agree on every
    field but the specific epithet and the basis of record, which are not
    exported; the key of the record is exported only inside the link, from
    which it can be read back. *)
Theorem to_dict_determines (r1 r2 : OccurrenceRecord.t) :
  length (RecordRow.to_dict r1) = 16%nat
  /\ (RecordRow.to_dict r1 = RecordRow.to_dict r2 <->
      RecordRow.with_unexported (OccurrenceRecord.specific_epithet r2)
                          (OccurrenceRecord.basis_of_record r2) r1
      = r2).
Proof.
  split; [reflexivity|]. split.
  - unfold RecordRow.to_dict, RecordRow.gbif_url.
    intros [= Hyear Hdate Hlat Hlon Hunc Helev Hloc Hgenus Hspecies Hname Hinst Hcat
              Hrec Hcountry Hstate Hlink].
    apply append_cancel, (inj pretty) in Hlink.
    destruct r1, r2. cbn in *. by subst.
  - intros <-. reflexivity.
Qed.

(** ** Progress reports *)

Section Progress.

Variable session_get : nat -> request -> http_outcome.
Variable self : GBIFClient.t.
Variable progress_callback : bool.
Variable stop_check : option (nat -> bool).
Variable total_estimate : Z.

Lemma reported_with_world g w :
  yields_of (trace w) = yielded g ->
  Fetch.progress_reports (with_world g w) = Fetch.progress_reports g ->
  Fetch.reported progress_callback total_estimate g ->
  Fetch.reported progress_callback total_estimate (with_world g w).
Proof.
  intros Hy Hp [Hcount Hreports]. unfold Fetch.reported, yielded in *.
  cbn [with_world world count] in *. by rewrite Hy, Hp.
Qed.

Lemma reports_log g l m w :
  trace w = trace (world g) ->
  Fetch.progress_reports (with_world g (log l m w)) = Fetch.progress_reports g.
Proof.
  intros Hw. unfold Fetch.progress_reports, log, emit. cbn [with_world world trace].
  rewrite omap_app, Hw. cbn. apply app_nil_r.
Qed.

Lemma reports_asked g req w :
  trace w = trace (world g) ->
  Fetch.progress_reports (with_world g (asked req w)) = Fetch.progress_reports g.
Proof.
  intros Hw. unfold Fetch.progress_reports, asked. cbn [with_world world trace].
  rewrite omap_app, Hw. cbn. apply app_nil_r.
Qed.

Lemma reported_log g l m w :
  trace w = trace (world g) ->
  Fetch.reported progress_callback total_estimate g ->
  Fetch.reported progress_callback total_estimate (with_world g (log l m w)).
Proof.
  intros Hw. apply reported_with_world; [by rewrite yields_of_log, Hw|by apply reports_log].
Qed.

Lemma reported_asked g req w :
  trace w = trace (world g) ->
  Fetch.reported progress_callback total_estimate g ->
  Fetch.reported progress_callback total_estimate (with_world g (asked req w)).
Proof.
  intros Hw.
  apply reported_with_world; [by rewrite yields_of_asked, Hw|by apply reports_asked].
Qed.

Lemma reported_item_step year g item :
  Fetch.reported progress_callback total_estimate g ->
  Fetch.reported progress_callback total_estimate
                 (item_step progress_callback total_estimate year g item).
Proof.
  intros [Hcount Hreports]. unfold item_step.
  case_bool_decide as Hin; [done|].
  unfold Fetch.reported, Fetch.progress_reports, yielded, emit in *.
  cbn [world count trace].
  destruct progress_callback; cbn [trace]; rewrite ?omap_app, ?yields_of_app; cbn;
    rewrite ?app_nil_r, Hreports, length_app; cbn [length]; (split; [lia|]).
  - rewrite Nat.add_1_r, seq_S, map_app. cbn [map]. do 3 f_equal. lia.
  - done.
Qed.

Lemma reported_fold year items g :
  Fetch.reported progress_callback total_estimate g ->
  Fetch.reported progress_callback total_estimate
                 (fold_left (item_step progress_callback total_estimate year) items g).
Proof.
  revert g. induction items as [|item items IH]; intros g Hg; [done|].
  cbn [fold_left]. by apply IH, reported_item_step.
Qed.

Lemma reported_page_turn year params g :
  Fetch.reported progress_callback total_estimate g ->
  Fetch.reported progress_callback total_estimate
    (snd (page_turn session_get self progress_callback stop_check total_estimate
                    year params g)).
Proof.
  intros Hg.
  destruct (poll stop_check (world g)) as [[] w] eqn:Hpoll.
  - rewrite (page_turn_cancelled _ _ _ _ _ _ _ _ _ Hpoll). cbn [snd].
    pose proof (poll_false_trace _ _ _ _ Hpoll) as Hw.
    apply reported_with_world; [by rewrite Hw| |done].
    unfold Fetch.progress_reports. cbn [with_world world]. by rewrite Hw.
  - pose proof (poll_false_trace _ _ _ _ Hpoll) as Hw.
    destruct (page_turn_ends session_get self progress_callback stop_check total_estimate
                             year params g w Hpoll); cbn [snd].
    + apply reported_with_world; [| |done].
      * by rewrite yields_of_log, yields_of_asked, Hw.
      * unfold Fetch.progress_reports, log, emit, asked. cbn [with_world world trace].
        rewrite !omap_app, Hw. cbn. by rewrite !app_nil_r.
    + by apply reported_asked.
    + by apply reported_asked.
    + by apply reported_fold, reported_asked.
    + apply reported_log; [done|]. by apply reported_fold, reported_asked.
    + by apply reported_fold, reported_asked.
Qed.

Lemma reported_page_loop fuel year params g r g' :
  page_loop session_get self progress_callback stop_check total_estimate fuel year params g
  = Some (r, g') ->
  Fetch.reported progress_callback total_estimate g ->
  Fetch.reported progress_callback total_estimate g'.
Proof.
  revert params g. induction fuel as [|fuel IH]; intros params g; [done|].
  cbn [page_loop]. intros Hrun Hg.
  pose proof (reported_page_turn year params g Hg) as Hturn.
  destruct (page_turn _ _ _ _ _ _ _ _) as [[|params'|e] g1]; cbn [snd] in Hturn.
  - by injection Hrun as <- <-.
  - by eapply IH.
  - by injection Hrun as <- <-.
Qed.

Lemma reported_year_loop fuel taxon_key basis_of_record has_coordinate country years
      g r g' :
  year_loop session_get self progress_callback stop_check total_estimate fuel
            taxon_key basis_of_record has_coordinate country years g
  = Some (r, g') ->
  Fetch.reported progress_callback total_estimate g ->
  Fetch.reported progress_callback total_estimate g'.
Proof.
  revert g. induction years as [|year years IH]; intros g; cbn [year_loop].
  - by intros [= <- <-].
  - destruct (poll stop_check (world g)) as [stop w] eqn:Hpoll.
    pose proof (poll_false_trace _ _ _ _ Hpoll) as Hw.
    destruct stop.
    + intros [= <- <-] Hg. by apply reported_log.
    + intros Hrun Hg.
      assert (Hg1 : Fetch.reported progress_callback total_estimate
                                   (with_world g (log DEBUG (ProcessingYear year) w)))
        by by apply reported_log.
      destruct (page_loop _ _ _ _ _ _ _ _ _) as [[[[]|e] g2]|] eqn:Hpages; [| |done].
      * eapply IH; [exact Hrun|]. by eapply reported_page_loop.
      * injection Hrun as <- <-. by eapply reported_page_loop.
Qed.

End Progress.

(** X30. In a run of [iter_occurrences_by_year] that is consumed until the
    generator returns or raises, the progress callback is called exactly
    once for each record yielded, with the counts 1, 2, 3, ... in order and
    each time with the total that [count_occurrences] returned for the
    count request at the start of the run; a run without a callback makes no
    such call. Where the count request raises, the run raises its exception
    and nothing is yielded or reported. *)
Theorem progress_counts_records (session_get : nat -> request -> http_outcome)
        (current_year : Z) (fuel : nat) (self : GBIFClient.t) (taxon_key year_start : Z)
        (year_end : option Z) (basis_of_record : basis) (has_coordinate : bool)
        (country : option string) (progress_callback : bool)
        (stop_check : option (nat -> bool)) (r : result unit) (g : gen) :
  iter_occurrences_by_year session_get current_year fuel self taxon_key year_start year_end
                           basis_of_record has_coordinate country progress_callback
                           stop_check World.initial
  = Some (r, g) ->
  match fst (count_occurrences session_get self taxon_key basis_of_record has_coordinate
                               None country World.initial) with
  | Ok total_estimate =>
      Fetch.progress_reports g
      = if progress_callback
        then map (fun i => (Z.of_nat i, total_estimate)) (seq 1 (length (yielded g)))
        else []
  | Raise e => r = Raise e /\ yielded g = [] /\ Fetch.progress_reports g = []
  end.
Proof.
  unfold iter_occurrences_by_year, count_occurrences.
  pose proof (make_request_world
                session_get self OCCURRENCE_SEARCH_ENDPOINT
                (SearchParams (count_query taxon_key basis_of_record has_coordinate
                                           None country)) World.initial) as Hw.
  destruct (_make_request _ _ _ _ _) as [[data|e] w]; cbn [fst snd] in *; subst w.
  - set (total_estimate := Json.get (Json.count (Json.as_search data)) 0).
    match goal with
    | |- context [year_loop _ _ _ _ _ _ _ _ _ _ _ ?g] => set (g0 := g)
    end.
    assert (Hstart : Fetch.reported progress_callback total_estimate g0).
    { unfold Fetch.reported, Fetch.progress_reports, yielded, g0.
      cbn [world count]. rewrite yields_of_log, yields_of_asked. cbn.
      split; [done|]. by destruct progress_callback. }
    destruct (year_loop _ _ _ _ _ _ _ _ _ _ _ _) as [[[[]|e] g1]|] eqn:Hyears; [| |done].
    + intros [= <- <-].
      pose proof (reported_year_loop _ _ _ _ _ _ _ _ _ _ _ _ _ _ Hyears Hstart) as Hg1.
      by apply (reported_log progress_callback total_estimate g1 INFO _ (world g1)
                             eq_refl Hg1).
    + intros [= <- <-].
      by apply (reported_year_loop _ _ _ _ _ _ _ _ _ _ _ _ _ _ Hyears Hstart).
  - intros [= <- <-]. split; [done|].
    unfold Fetch.progress_reports, yielded. cbn [world].
    rewrite yields_of_asked. cbn. done.
Qed.

(** ** Instances *)

Lemma unique_records_witness :
  exists g,
    FetchExamples.run_2020 (ExampleResponses.replay FetchExamples.overlapping)
                           ExampleResponses.client None 5
    = Some (Ok (), g)
    /\ NoDup (map OccurrenceRecord.key (yielded g))
    /\ count g = 3
    /\ last (trace (world g)) = Some (EvLog INFO (Downloaded 3)).
Proof.
  eexists. split; [vm_compute; reflexivity|].
  match goal with
  | |- NoDup (map _ (yielded ?g)) /\ _ =>
      pose proof (unique_records
                    (ExampleResponses.replay FetchExamples.overlapping) 2026 5
                    ExampleResponses.client 1035566 2020 (Some 2020)
                    (BasisStr "PRESERVED_SPECIMEN") true None false None (Ok ()) g
                    ltac:(vm_compute; reflexivity)) as (Hnd & _ & Hcount & Hlast)
  end.
  split; [exact Hnd|]. split; [exact Hcount|]. exact (Hlast eq_refl).
Defined.

Lemma requests_of_a_run_witness :
  exists g pages,
    FetchExamples.run_2020 (ExampleResponses.replay FetchExamples.overlapping)
                           ExampleResponses.client None 5
    = Some (Ok (), g)
    /\ requested g
       = search (count_query 1035566 (BasisStr "PRESERVED_SPECIMEN") true None None)
           :: pages
    /\ Forall (Fetch.page_request ExampleResponses.client 1035566
                                  (BasisStr "PRESERVED_SPECIMEN") true None 2020 2021)
              pages.
Proof.
  eexists.
  match goal with
  | |- exists pages, _ = Some (_, ?g) /\ _ =>
      destruct (requests_of_a_run
                  (ExampleResponses.replay FetchExamples.overlapping) 2026 5
                  ExampleResponses.client 1035566 2020 (Some 2020)
                  (BasisStr "PRESERVED_SPECIMEN") true None false None (Ok ()) g
                  ltac:(vm_compute; reflexivity)) as (pages & Hreq & Hall)
  end.
  exists pages. split; [reflexivity|]. split; [exact Hreq|exact Hall].
Defined.

Lemma exceptions_of_a_run_witness :
  exists e g,
    FetchExamples.run_2020 FetchExamples.rate_limited_after_count
                           ExampleResponses.client None 5
    = Some (Raise e, g)
    /\ (Fetch.rate_limited_at FetchExamples.rate_limited_after_count g e
        \/ ((exists msg, e = APIError msg)
            /\ trace (world g)
               = [EvRequest (search (count_query 1035566 (BasisStr "PRESERVED_SPECIMEN")
                                                 true None None))])).
Proof.
  eexists _, _. split; [vm_compute; reflexivity|].
  apply (exceptions_of_a_run FetchExamples.rate_limited_after_count 2026 5
                             ExampleResponses.client 1035566 2020 (Some 2020)
                             (BasisStr "PRESERVED_SPECIMEN") true None false None).
  vm_compute. reflexivity.
Defined.

Lemma run_terminates_witness :
  exists r g,
    forall fuel, (enough_fuel <= fuel)%nat ->
      FetchExamples.run_2020 FetchExamples.endless ExampleResponses.client
                             (Some FetchExamples.stop_now) fuel
      = Some (r, g).
Proof.
  apply (run_terminates FetchExamples.endless 2026 ExampleResponses.client 1035566 2020
                        (Some 2020) (BasisStr "PRESERVED_SPECIMEN") true None false
                        (Some FetchExamples.stop_now)).
  reflexivity.
Defined.

Lemma run_diverges_witness :
  FetchExamples.run_2020 FetchExamples.endless FetchExamples.client_zero None 1000 = None.
Proof.
  apply (run_diverges FetchExamples.endless 2026 FetchExamples.client_zero 1035566 2020
                      (Some 2020) (BasisStr "PRESERVED_SPECIMEN") true None false 1000).
  - cbn. lia.
  - cbn. lia.
  - intros n req. eexists. split; [|split].
    + exists 200. split; [reflexivity|]. split; lia.
    + discriminate.
    + reflexivity.
Defined.

Lemma cancelled_at_start_witness :
  exists g,
    FetchExamples.run_2020 (ExampleResponses.replay ExampleResponses.two_pages)
                           ExampleResponses.client (Some FetchExamples.stop_now) 0
    = Some (Ok (), g)
    /\ trace (world g)
       = [EvRequest (search (count_query 1035566 (BasisStr "PRESERVED_SPECIMEN")
                                         true None None));
          EvLog INFO (EstimatedTotal 3);
          EvLog INFO Stopped;
          EvLog INFO (Downloaded 0)].
Proof.
  apply (cancelled_at_start (ExampleResponses.replay ExampleResponses.two_pages) 2026 0
                            ExampleResponses.client 1035566 2020 (Some 2020)
                            (BasisStr "PRESERVED_SPECIMEN") true None false
                            FetchExamples.stop_now (ExampleResponses.count_body 3)).
  - reflexivity.
  - cbn. lia.
  - apply replay_delivers. reflexivity.
Defined.

Lemma keyless_items_collapse_witness :
  yielded (fold_left (item_step false 3 2020)
                     [FetchExamples.keyless 2020; FetchExamples.keyless 2021]
                     ExampleResponses.counted)
  = [OccurrenceRecord.from_api_response (FetchExamples.keyless 2020)].
Proof.
  rewrite (keyless_items_collapse false 3 2020
             [FetchExamples.keyless 2020; FetchExamples.keyless 2021]
             ExampleResponses.counted).
  - reflexivity.
  - repeat constructor.
Defined.

Lemma pagination_complete_witness :
  let self := ExampleResponses.client in
  let first := year_query self 1035566 (BasisStr "PRESERVED_SPECIMEN") true None 2020 in
  exists g',
    page_loop (ExampleResponses.replay ExampleResponses.two_pages) self false None 3 2
              2020 first ExampleResponses.counted
    = Some (Ok (), g')
    /\ yielded g'
       = map OccurrenceRecord.from_api_response
             [ExampleResponses.item 1 2020; ExampleResponses.item 2 2020;
              ExampleResponses.item 3 2020]
    /\ requested g'
       = [search (count_query 1035566 (BasisStr "PRESERVED_SPECIMEN") true None None);
          search first; search (advance first 2)].
Proof.
  intros self first.
  destruct (pagination_complete
              (ExampleResponses.replay ExampleResponses.two_pages) self false 3
              [ExampleResponses.page_body
                 3 [ExampleResponses.item 1 2020; ExampleResponses.item 2 2020] false]
              (ExampleResponses.page_body 3 [ExampleResponses.item 3 2020] true)
              2 2020 first ExampleResponses.counted)
    as (g' & Hrun & Hy & Hr).
  - intros [|i] data Hdata; [|done]. injection Hdata as <-. split.
    + apply replay_delivers. reflexivity.
    + repeat split; cbn; try done; lia.
  - apply replay_delivers. reflexivity.
  - right. left. reflexivity.
  - cbn. lia.
  - exists g'. split; [exact Hrun|]. split; [rewrite Hy|rewrite Hr]; reflexivity.
Defined.

Lemma filter_records_sound_witness :
  NoDup (map OccurrenceRecord.key
             (fst (filters.filter_records
                     [ExampleRecords.sample_record; ExampleRecords.sample_record;
                      ExampleRecords.alpina_at_limit]
                     (ExampleConfigs.nebria_validated 2026)))).
Proof.
  apply (filter_records_sound
           [ExampleRecords.sample_record; ExampleRecords.sample_record;
            ExampleRecords.alpina_at_limit]
           (ExampleConfigs.nebria_validated 2026)).
  reflexivity.
Defined.

Lemma filter_records_complete_witness :
  ExampleRecords.alpina_at_limit
    ∈ fst (filters.filter_records
             [ExampleRecords.sample_record; ExampleRecords.alpina_at_limit]
             (ExampleConfigs.nebria_validated 2026)).
Proof.
  apply (filter_records_complete
           [ExampleRecords.sample_record; ExampleRecords.alpina_at_limit]
           (ExampleConfigs.nebria_validated 2026) 1 ExampleRecords.alpina_at_limit).
  - reflexivity.
  - vm_compute. reflexivity.
  - right. apply (bool_decide_unpack _). vm_compute. reflexivity.
Defined.

Lemma fetched_records_filter_witness :
  exists g,
    FetchExamples.run_2020 (ExampleResponses.replay FetchExamples.overlapping)
                           ExampleResponses.client None 5
    = Some (Ok (), g)
    /\ fst (filters.filter_records (yielded g) ExampleConfigs.scenario)
       = List.filter (Kept.meets ExampleConfigs.scenario) (yielded g)
    /\ snd (filters.filter_records (yielded g) ExampleConfigs.scenario) !! "duplicate"
       = Some 0.
Proof.
  eexists. split; [vm_compute; reflexivity|].
  apply (fetched_records_filter
           (ExampleResponses.replay FetchExamples.overlapping) 2026 5
           ExampleResponses.client 1035566 2020 (Some 2020)
           (BasisStr "PRESERVED_SPECIMEN") true None false None (Ok ())).
  vm_compute. reflexivity.
Defined.

Lemma filter_records_plain_witness :
  fst (filters.filter_records
         [ExampleRecords.sample_record; ExampleRecords.alpina_at_limit]
         (ExampleConfigs.nebria_validated 2026))
  = [ExampleRecords.sample_record; ExampleRecords.alpina_at_limit].
Proof.
  assert (Hnd : NoDup (map OccurrenceRecord.key
                           [ExampleRecords.sample_record; ExampleRecords.alpina_at_limit])).
  { apply (bool_decide_unpack _). vm_compute. reflexivity. }
  rewrite (proj1 (filter_records_plain
                    [ExampleRecords.sample_record; ExampleRecords.alpina_at_limit]
                    (ExampleConfigs.nebria_validated 2026) (or_intror Hnd))).
  vm_compute. reflexivity.
Defined.

Lemma retry_attempts_bounded_witness :
  fst RetryExamples.flaky_with_retries <> Retry.RaisesRuntimeError
  /\ (1 <= Retry.calls_of (snd RetryExamples.flaky_with_retries) <= 4)%nat
  /\ snd (Retry.wrapper RetryExamples.any_exception Qmult RetryExamples.not_negative
                        RetryExamples.flaky (-1) 1%Q 2%Q)
     = [].
Proof.
  pose proof (retry_attempts_bounded Z string Q RetryExamples.any_exception Qmult
                                     RetryExamples.not_negative RetryExamples.flaky
                                     3 1%Q 2%Q) as (Herr & _ & Hcalls & _).
  pose proof (retry_attempts_bounded Z string Q RetryExamples.any_exception Qmult
                                     RetryExamples.not_negative RetryExamples.flaky
                                     (-1) 1%Q 2%Q) as (_ & Hnone & _).
  split; [intros H; apply Herr in H; lia|].
  split; [apply Hcalls; lia|apply Hnone; lia].
Defined.

Lemma retry_stops_at_witness :
  (fst RetryExamples.flaky_with_retries = Retry.Returns 42
   /\ Retry.calls_of (snd RetryExamples.flaky_with_retries) = 3%nat
   /\ Retry.sleeps_of (snd RetryExamples.flaky_with_retries) = [1%Q; Qmult 1 2])
  /\ (fst RetryExamples.flaky_with_negative_delay = Retry.SleepRaises (-1)%Q
      /\ Retry.calls_of (snd RetryExamples.flaky_with_negative_delay) = 1%nat
      /\ Retry.sleeps_of (snd RetryExamples.flaky_with_negative_delay) = [(-1)%Q]).
Proof.
  split.
  - apply (retry_stops_at Z string Q RetryExamples.any_exception Qmult
                          RetryExamples.not_negative RetryExamples.flaky 3 1%Q 2%Q 2).
    + lia.
    + intros [|[|j]] Hj; [by eexists|by eexists|lia].
    + reflexivity.
  - apply (retry_stops_at Z string Q RetryExamples.any_exception Qmult
                          RetryExamples.not_negative RetryExamples.flaky 3 (-1)%Q 2%Q 0).
    + lia.
    + intros j Hj. lia.
    + reflexivity.
    + reflexivity.
    + lia.
    + reflexivity.
Defined.

Lemma sanitize_filename_safe_witness :
  Filenames.sanitize_filename "  Nebria: germarii/2024.  " 10 <> EmptyString
  /\ Z.of_nat (String.length (Filenames.sanitize_filename "  Nebria: germarii/2024.  " 10))
     <= 10.
Proof.
  pose proof (sanitize_filename_safe "  Nebria: germarii/2024.  " 10) as (Hne & _ & Hlen).
  split; [exact Hne|]. apply Hlen. lia.
Defined.

Lemma sanitize_filename_fixed_witness :
  Filenames.sanitize_filename "nebria_data.xlsx" 200 = "nebria_data.xlsx".
Proof.
  apply sanitize_filename_fixed.
  - discriminate.
  - reflexivity.
  - intros c [H|H]; injection H as <-; split; reflexivity.
  - cbn. lia.
Defined.

Lemma post_init_normal_witness :
  0 <= FilterConfig.uncertainty_max (ExampleConfigs.nebria_validated 2026)
  /\ exists year_end',
      FilterConfig.year_end (ExampleConfigs.nebria_validated 2026) = Some year_end'
      /\ FilterConfig.year_start (ExampleConfigs.nebria_validated 2026) <= year_end'.
Proof.
  pose proof (post_init_normal 2026 ExampleConfigs.nebria
                               (ExampleConfigs.nebria_validated 2026)
                               ltac:(vm_compute; reflexivity)) as (Hyears & _ & Hunc & _).
  split; [exact Hunc|exact Hyears].
Defined.

Lemma post_init_idempotent_witness :
  FilterConfig.__post_init__ 2026 (ExampleConfigs.nebria_validated 2026)
  = Ok (ExampleConfigs.nebria_validated 2026).
Proof.
  apply (post_init_idempotent 2026 ExampleConfigs.nebria).
  - lia.
  - vm_compute. reflexivity.
Defined.

Lemma config_round_trip_witness :
  ConfigDict.from_dict 2026 (ConfigDict.to_dict (ExampleConfigs.nebria_validated 2026))
  = Ok (ExampleConfigs.nebria_validated 2026).
Proof.
  apply (config_round_trip 2026 ExampleConfigs.nebria).
  - lia.
  - vm_compute. reflexivity.
  - discriminate.
  - discriminate.
Defined.

Lemma match_taxon_accepts_witness :
  fst (match_taxon (ExampleResponses.replay [ExampleResponses.nebria_fuzzy])
                   ExampleResponses.client "nebria" (Some "GENUS") "Animalia" None true
                   World.initial)
  = Ok (TaxonMatch.from_api_response (Json.as_match ExampleResponses.nebria_fuzzy)).
Proof.
  apply (match_taxon_accepts (ExampleResponses.replay [ExampleResponses.nebria_fuzzy])
                             ExampleResponses.client "nebria" (Some "GENUS") "Animalia"
                             None true World.initial ExampleResponses.nebria_fuzzy).
  - apply replay_delivers. reflexivity.
  - split; [discriminate|]. intros _ _. split; reflexivity.
Defined.

Lemma single_query_pages_witness :
  let self := ExampleResponses.client in
  let first :=
    SingleQuery.single_query self 1035566 (BasisStr "PRESERVED_SPECIMEN") true None None in
  (exists g',
      SingleQuery.page_loop (ExampleResponses.replay FetchExamples.repeating_pages)
                            self false 2 first FetchExamples.single_start
      = Some (Ok (), g')
      /\ SingleQuery.yielded g'
         = map OccurrenceRecord.from_api_response
               [ExampleResponses.item 1 2020; ExampleResponses.item 1 2020;
                ExampleResponses.item 3 2020])
  /\ (exists g',
         SingleQuery.page_loop (ExampleResponses.replay []) self false 1 first
                               FetchExamples.single_start
         = Some (Raise (APIError "Connection error: no more responses"), g')
         /\ SingleQuery.yielded g' = []).
Proof.
  intros self first. split.
  - destruct (proj1 single_query_pages
                    (ExampleResponses.replay FetchExamples.repeating_pages) self false
                    [ExampleResponses.page_body
                       3 [ExampleResponses.item 1 2020; ExampleResponses.item 1 2020]
                       false]
                    (ExampleResponses.page_body 3 [ExampleResponses.item 3 2020] true)
                    2%nat first FetchExamples.single_start)
      as (g' & Hrun & Hy & _).
    + intros [|i] data Hdata; [|done]. injection Hdata as <-. split.
      * apply replay_delivers. reflexivity.
      * repeat split; cbn; try done; lia.
    + apply replay_delivers. reflexivity.
    + right. left. reflexivity.
    + cbn. lia.
    + exists g'. split; [exact Hrun|]. rewrite Hy. reflexivity.
  - apply (proj2 single_query_pages (ExampleResponses.replay []) self false 0%nat first
                 FetchExamples.single_start).
    reflexivity.
Defined.

Lemma feature_collection_shape_witness :
  NoDup (map GeoJSONExporter.id
             (fst (GeoJSONExporter._create_feature_collection_manual
                     (fun _ => tt)
                     [ExampleRecords.sample_record; ExampleRecords.alpina_at_limit]))).
Proof.
  apply (feature_collection_shape unit (fun _ => tt)
                                  [ExampleRecords.sample_record;
                                   ExampleRecords.alpina_at_limit]).
  apply (bool_decide_unpack _). vm_compute. reflexivity.
Defined.

Lemma exported_ids_distinct_witness :
  exists g,
    FetchExamples.run_2020 (ExampleResponses.replay FetchExamples.overlapping)
                           ExampleResponses.client None 5
    = Some (Ok (), g)
    /\ NoDup (map GeoJSONExporter.id
                  (fst (GeoJSONExporter._create_feature_collection_manual
                          (fun _ => tt)
                          (fst (filters.filter_records (yielded g)
                                                       ExampleConfigs.scenario))))).
Proof.
  eexists. split; [vm_compute; reflexivity|].
  apply (exported_ids_distinct
           (ExampleResponses.replay FetchExamples.overlapping) 2026 5
           ExampleResponses.client 1035566 2020 (Some 2020)
           (BasisStr "PRESERVED_SPECIMEN") true None false None (Ok ())).
  vm_compute. reflexivity.
Defined.

Lemma to_dict_determines_witness :
  RecordRow.to_dict ExampleRecords.sample_record
  = RecordRow.to_dict (RecordRow.with_unexported None None ExampleRecords.sample_record).
Proof.
  apply (proj2 (to_dict_determines
                  ExampleRecords.sample_record
                  (RecordRow.with_unexported None None ExampleRecords.sample_record))).
  reflexivity.
Defined.

Lemma progress_counts_records_witness :
  exists g,
    iter_occurrences_by_year (ExampleResponses.replay FetchExamples.overlapping) 2026 5
                             ExampleResponses.client 1035566 2020 (Some 2020)
                             (BasisStr "PRESERVED_SPECIMEN") true None true None
                             World.initial
    = Some (Ok (), g)
    /\ Fetch.progress_reports g
       = map (fun i => (Z.of_nat i, 3)) (seq 1 (length (yielded g))).
Proof.
  eexists. split; [vm_compute; reflexivity|].
  exact (progress_counts_records
           (ExampleResponses.replay FetchExamples.overlapping) 2026 5
           ExampleResponses.client 1035566 2020 (Some 2020)
           (BasisStr "PRESERVED_SPECIMEN") true None true None (Ok ()) _
           ltac:(vm_compute; reflexivity)).
Defined.
